(** * Fisherman Nancy: guardrail validation and adaptive coaching engine

    A shallow embedding of [backend/coach.py] (the [UniversalCoach]) and of
    [backend/agent.py] (the [FishingAgent]), with the properties the
    specification states about them.

    Modelling choices.
    - A Python [float] is a primitive binary64 float: arithmetic and
      comparisons are the IEEE ones Python uses.
    - A Python [str] is the [string] of its UTF-8 bytes: [in], [+] and
      [startswith] on the bytes are the ones on the characters.  Where the
      code looks at the characters themselves, [\d] of [re] and [float], the
      model decodes the code points.  The Unicode table of the decimal
      digits and [str.lower] are library data: the environment [Env] gives
      them, with the two facts about them that the proofs use.
    - A Python [int] is a [Z]; a [dict] with string keys is a [gmap string].
    - The coach object is a record that is passed along; every reading of the
      wall clock and every answer of the text-generation service comes from
      an environment [Env] the development is parametrised by.
    - A Python exception is the result [None]. *)

From Stdlib Require Import PrimFloat SpecFloat FloatOps FloatAxioms NArith ZArith String Ascii List Bool Lia.
From stdpp Require Import gmap strings list pretty.

Local Open Scope string_scope.
Local Open Scope Z_scope.

(** ** Python built-ins used by the two modules *)

Module Py.

(** The newline and the double quote, which the source writes as escapes. *)
Definition nl : string := String "010"%char EmptyString.
Definition dq : string := String "034"%char EmptyString.

(** [needle in hay] on strings. *)
Fixpoint str_in (needle hay : string) : bool :=
  String.prefix needle hay ||
  match hay with
  | EmptyString => false
  | String _ hay' => str_in needle hay'
  end.

(** [str.startswith]. *)
Definition startswith (s pre : string) : bool := String.prefix pre s.

Definition lower_ascii (c : ascii) : ascii :=
  let n := nat_of_ascii c in
  if ((65 <=? n)%nat && (n <=? 90)%nat)%bool then ascii_of_nat (n + 32) else c.

(** The folding of the letters A to Z, byte by byte: what [str.lower] does
    to a text that holds no other cased letter.  The examples use it. *)
Fixpoint ascii_lower (s : string) : string :=
  match s with
  | EmptyString => EmptyString
  | String c s' => String (lower_ascii c) (ascii_lower s')
  end.

(** [sep.join(parts)]. *)
Fixpoint join (sep : string) (parts : list string) : string :=
  match parts with
  | [] => EmptyString
  | [p] => p
  | p :: rest => p ++ sep ++ join sep rest
  end.

(** [x in xs] for a list of strings. *)
Definition in_list (x : string) (xs : list string) : bool :=
  existsb (String.eqb x) xs.

(** [str(n)] for an integer. *)
Definition str_int (n : Z) : string := pretty n.

(** [int(x)] for a float: truncation toward zero; it raises on an infinity
    and on a NaN. *)
Definition to_int (x : float) : option Z :=
  match Prim2SF x with
  | S754_zero _ => Some 0
  | S754_finite s m e =>
      let a := Z.shiftl (Zpos m) e in Some (if s then - a else a)
  | S754_infinity _ | S754_nan => None
  end.

(** The code points of a text.  [decode_from need acc s] reads the UTF-8
    bytes [s] when [need] bytes of the current character are still to come
    and [acc] holds the bits of it read so far.  A byte that does not
    continue the character starts the next one. *)
Definition lead (n : N) : option (nat * N) :=
  if (n <? 192)%N then None
  else if (n <? 224)%N then Some (1%nat, (n - 192)%N)
  else if (n <? 240)%N then Some (2%nat, (n - 224)%N)
  else Some (3%nat, (n - 240)%N).

Fixpoint decode_from (need : nat) (acc : N) (s : string) : list N :=
  match s with
  | EmptyString => []
  | String b s' =>
      let n := N_of_ascii b in
      let continues :=
        match need with
        | O => false
        | S _ => ((128 <=? n)%N && (n <? 192)%N)%bool
        end in
      if continues then
        let acc' := (acc * 64 + (n - 128))%N in
        match need with
        | S (S k) => decode_from (S k) acc' s'
        | _ => acc' :: decode_from 0 0 s'
        end
      else
        match lead n with
        | Some (k, a) => decode_from k a s'
        | None => n :: decode_from 0 0 s'
        end
  end.

Definition codepoints (s : string) : list N := decode_from 0 0 s.

(** The decimal digits of ASCII, with their values. *)
Definition ascii_digit (c : N) : option Z :=
  if ((48 <=? c)%N && (c <=? 57)%N)%bool then Some (Z.of_N c - 48) else None.

(** [s.replace(c, '')] for a one-character [c], on code points. *)
Fixpoint remove_char (c : N) (s : list N) : list N :=
  match s with
  | [] => []
  | d :: s' => if (c =? d)%N then remove_char c s' else d :: remove_char c s'
  end.

(** The binary64 float nearest to [n / d] (ties to even), for [0 <= n] and
    [0 < d]: what [float] makes of a decimal literal. *)
Definition nearest_float (n d : Z) : float :=
  match n, d with
  | Zpos pn, Zpos pd =>
      SF2Prim (SFdiv prec emax (S754_finite false pn 0) (S754_finite false pd 0))
  | _, _ => PrimFloat.zero
  end.

Section Digits.

(** The Unicode table: the value of a code point that is a decimal digit
    (category Nd), of any script. *)
Variable decimal : N -> option Z.

(** [\d] of [re] on a [str] pattern, and the digit [float] reads. *)
Definition is_decimal (c : N) : bool :=
  match decimal c with Some _ => true | None => false end.

Definition digit_value (c : N) : Z :=
  match decimal c with Some v => v | None => 0 end.

(** The longest prefix of digits, and what follows it. *)
Fixpoint span_digits (s : list N) : list N * list N :=
  match s with
  | c :: s' =>
      if is_decimal c
      then let '(ds, rest) := span_digits s' in (c :: ds, rest)
      else ([], s)
  | [] => ([], [])
  end.

Fixpoint digits_value (acc : Z) (s : list N) : Z :=
  match s with
  | [] => acc
  | c :: s' => digits_value (10 * acc + digit_value c) s'
  end.

(** [float(s)] on the literals [digits] and [digits.digits], the only ones
    the pattern of [FishingAgent] yields; the digits may be of any script.
    [None] is the [ValueError]. *)
Definition to_float (s : list N) : option float :=
  let '(ip, rest) := span_digits s in
  match ip, rest with
  | [], _ => None
  | _, [] => Some (nearest_float (digits_value 0 ip) 1)
  | _, c :: fs =>
      if (c =? 46)%N then
        let '(fp, rest') := span_digits fs in
        match fp, rest' with
        | _ :: _, [] =>
            Some (nearest_float (digits_value 0 (ip ++ fp))
                                (10 ^ Z.of_nat (length fp)))
        | _, _ => None
        end
      else None
  end.

End Digits.

(** [a != b] on floats. *)
Definition ne (a b : float) : bool := negb (PrimFloat.eqb a b).

(** [a > b] on floats. *)
Definition gt (a b : float) : bool := PrimFloat.ltb b a.

(** [max(a, b)] and [min(a, b)]: the first argument unless the second is
    strictly beyond it. *)
Definition max (a b : float) : float := if gt b a then b else a.
Definition min (a b : float) : float := if PrimFloat.ltb b a then b else a.

End Py.

(** ** The pattern [\$(\d+(?:,\d{3})*(?:\.\d{2})?)] of [re.findall] *)

Module Re.

Section Pattern.

Variable decimal : N -> option Z.

(** [(?:,\d{3})*], greedy: the groups taken and what follows them. *)
Fixpoint comma_groups (s : list N) : list N * list N :=
  match s with
  | c0 :: a :: b :: c :: rest =>
      if ((c0 =? 44)%N && Py.is_decimal decimal a && Py.is_decimal decimal b
          && Py.is_decimal decimal c)%bool
      then let '(gs, r) := comma_groups rest in (c0 :: a :: b :: c :: gs, r)
      else ([], s)
  | _ => ([], s)
  end.

(** [(?:\.\d{2})?], greedy. *)
Definition cents (s : list N) : list N * list N :=
  match s with
  | c0 :: a :: b :: rest =>
      if ((c0 =? 46)%N && Py.is_decimal decimal a && Py.is_decimal decimal b)%bool
      then ([c0; a; b], rest)
      else ([], s)
  | _ => ([], s)
  end.

(** The group matched right after a dollar sign, if the pattern matches
    there.  Every part is greedy and nothing follows the optional cents, so
    the first attempt of the backtracking matcher is the match. *)
Definition amount (s : list N) : option (list N) :=
  let '(ds, r1) := Py.span_digits decimal s in
  match ds with
  | [] => None
  | _ =>
      let '(gs, r2) := comma_groups r1 in
      let '(cs, _) := cents r2 in
      Some (ds ++ gs ++ cs)%list
  end.

(** [findall]: the text is scanned from the left; after a match the scan
    resumes behind it ([skip] counts the characters still to pass over). *)
Fixpoint findall_from (skip : nat) (s : list N) : list (list N) :=
  match s with
  | [] => []
  | c :: s' =>
      match skip with
      | S k => findall_from k s'
      | O =>
          if (c =? 36)%N then
            match amount s' with
            | Some tok => tok :: findall_from (length tok) s'
            | None => findall_from 0 s'
            end
          else findall_from 0 s'
      end
  end.

Definition findall (s : list N) : list (list N) := findall_from 0 s.

End Pattern.

End Re.

(** ** Data model *)

(** [coach.AgentType] and [coach.CoachingLevel], with their [value]s. *)
Inductive AgentType :=
| GENERAL_CHAT | CODE_GENERATOR | DATA_ANALYST | CUSTOMER_SERVICE
| COMPLIANCE_OFFICER | CONTENT_CREATOR | DECISION_MAKER | RESEARCHER
| SALES_COORDINATOR.

Definition AgentType_value (t : AgentType) : string :=
  match t with
  | GENERAL_CHAT => "general_chat"
  | CODE_GENERATOR => "code_generator"
  | DATA_ANALYST => "data_analyst"
  | CUSTOMER_SERVICE => "customer_service"
  | COMPLIANCE_OFFICER => "compliance_officer"
  | CONTENT_CREATOR => "content_creator"
  | DECISION_MAKER => "decision_maker"
  | RESEARCHER => "researcher"
  | SALES_COORDINATOR => "sales_coordinator"
  end.

Inductive CoachingLevel := CRITICAL | HIGH | MEDIUM | LOW | INFORMATIONAL.

Definition CoachingLevel_value (l : CoachingLevel) : string :=
  match l with
  | CRITICAL => "critical"
  | HIGH => "high"
  | MEDIUM => "medium"
  | LOW => "low"
  | INFORMATIONAL => "info"
  end.

Definition CoachingLevel_eqb (a b : CoachingLevel) : bool :=
  match a, b with
  | CRITICAL, CRITICAL | HIGH, HIGH | MEDIUM, MEDIUM | LOW, LOW
  | INFORMATIONAL, INFORMATIONAL => true
  | _, _ => false
  end.

(** Times are counted in microseconds. *)
Definition datetime := Z.

(** [coach.AgentProfile]. *)
Record AgentProfile := {
  ap_agent_id : string;
  ap_agent_type : AgentType;
  learning_level : string;
  violation_history : gmap string Z;
  improvement_score : float;
  last_coaching : option datetime;
  coaching_receptiveness : float;
  preferred_coaching_style : string;
  domain_expertise : list string;
  known_weaknesses : list string
}.

(** [coach.CoachingEvent]. *)
Record CoachingEvent := {
  event_id : string;
  timestamp : datetime;
  ev_agent_id : string;
  ev_agent_type : AgentType;
  ev_guardrail : string;
  ev_severity : CoachingLevel;
  violation_description : string;
  coaching_delivered : string;
  coaching_depth : string;
  agent_response : option string;
  improved : option bool;
  improvement_timeline : option Z
}.

(** The violation dict that [FishingAgent._create_violation] builds and
    [coach_agent] reads. *)
Record Violation := {
  v_agent_id : string;
  v_agent_type : AgentType;
  guardrail : string;
  severity : string;
  what_happened : string;
  expected : string;
  context : gmap string string
}.

(** An entry of [peer_lessons]: [agent_id] may be absent. *)
Record PeerLesson := {
  pl_agent_id : option string;
  lesson : string
}.

(** The attributes of a [UniversalCoach]. *)
Record UniversalCoach := {
  agent_profiles : gmap string AgentProfile;
  coaching_history : list CoachingEvent;
  coaching_templates : gmap string (gmap string string);
  peer_lessons : gmap string (list PeerLesson);
  effectiveness_metrics : gmap string float
}.

(** The dict [coach_agent] returns. *)
Record Coaching := {
  coaching : string;
  coaching_level : CoachingLevel;
  suggestions : list string;
  principle : string;
  followup_actions : list string;
  effectiveness_predicted : float;
  c_peer_lessons : string;
  c_blocked : bool
}.

(** The dict [_analyze_violation] returns. *)
Record Analysis := {
  a_guardrail : string;
  a_severity : string;
  is_recurring : bool;
  a_count : Z
}.

(** The rows of [database] that [FishingAgent] reads. *)
Record Catch := {
  catch_id : Z;
  fish_type : string;
  pounds : float
}.

Record Price := {
  price_fish_type : string;
  price_per_lb : float
}.

Record Buyer := {
  buyer_id : Z;
  buyer_name : string;
  phone : string;
  preferred_fish : option string
}.

Record Message := {
  msg_buyer_id : Z;
  sent_at : option datetime
}.

(** A draft of [generate_buyer_messages]. *)
Record MessageDraft := {
  d_buyer_id : Z;
  d_buyer_name : string;
  message_text : string;
  d_catch_id : Z;
  d_fish_type : string;
  d_pounds : float;
  d_price_per_lb : float
}.

(** The dicts the three validations return. *)
Record Validation := {
  blocked : bool;
  violations : list Coaching
}.

Record BatchResult := {
  drafts : list MessageDraft;
  b_violations : list Coaching;
  b_blocked : bool;
  error : option string
}.

(** What the code takes from the outside world. *)
Record Env := {
  (** the [n]-th reading of [datetime.now()] by the coach *)
  now : nat -> datetime;
  (** the text of [datetime.timestamp()] in an f-string *)
  timestamp_text : datetime -> string;
  (** the text of a float in an f-string, and with the format [.2f] *)
  float_text : float -> string;
  float_text_2f : float -> string;
  (** the reading of [datetime.utcnow()] while the [i]-th buyer is handled *)
  utcnow : nat -> datetime;
  (** the stripped text the message service answers for the [i]-th buyer,
      [None] when the call raises *)
  service_text : nat -> Catch -> Price -> Buyer -> option string;
  (** [str.lower] *)
  str_lower : string -> string;
  (** the Unicode table of the decimal digits: the value of a code point of
      the category Nd *)
  decimal : N -> option Z;
  (** [str.lower] works character by character, and the one rule of it that
      looks at the neighbours of a character (the final sigma) stops at a
      space: a text is folded on each side of a space apart *)
  str_lower_space :
    forall a b, str_lower (a ++ " " ++ b) = str_lower a ++ " " ++ str_lower b;
  (** below 128 the decimal digits are the ten of ASCII *)
  decimal_ascii : forall c, (c < 128)%N -> decimal c = Py.ascii_digit c
}.

Existing Class Env.

(** The coach together with the number of clock readings made so far. *)
Record World := {
  coach : UniversalCoach;
  clock_reads : nat
}.

Section Engine.

Context {env : Env}.

(** ** [coach.py]: the [UniversalCoach] *)

(** [UniversalCoach.__init__]. *)
Definition UniversalCoach_init : UniversalCoach :=
  {| agent_profiles := ∅;
     coaching_history := [];
     coaching_templates := ∅;
     peer_lessons := ∅;
     effectiveness_metrics := ∅ |}.

(** [dict.get(key, 0)] on a violation history. *)
Definition history_get (h : gmap string Z) (g : string) : Z := default 0 (h !! g).

Definition _select_coaching_approach
    (g : string) (agent_type : AgentType) (level : string) : string :=
  let for_sales (a : string) :=
    match agent_type with SALES_COORDINATOR => a | _ => "default" end in
  let approach :=
    if String.eqb g "hallucination_prevention" then for_sales "sales_examples"
    else if String.eqb g "pii_protection" then for_sales "data_privacy_examples"
    else if String.eqb g "data_access_control" then for_sales "access_control_examples"
    else if String.eqb g "financial_accuracy" then for_sales "calculation_examples"
    else if String.eqb g "communication_integrity" then for_sales "approval_examples"
    else if String.eqb g "business_relationship_protection"
         then for_sales "relationship_examples"
    else "default" in
  if String.eqb level "advanced" then approach ++ "_condensed"
  else if String.eqb level "novice" then approach ++ "_detailed"
  else approach.

Definition _explain_why_for_agent (g : string) (agent_type : AgentType) : string :=
  let fallback :=
    "This guardrail protects integrity and safety for "
      ++ AgentType_value agent_type ++ " agents." in
  let for_sales (a : string) :=
    match agent_type with SALES_COORDINATOR => a | _ => fallback end in
  if String.eqb g "hallucination_prevention" then
    for_sales
      ("Buyers rely on accurate information to make purchasing decisions. "
       ++ "False prices, weights, or availability damage trust and can end business relationships. "
       ++ "Always use verified data from logged catches and scraped prices.")
  else if String.eqb g "pii_protection" then
    for_sales
      ("Buyer contact information is confidential business data. Exposing it violates "
       ++ "privacy and could expose the fisherman to legal issues. Never include buyer "
       ++ "lists or contact details in messages or logs.")
  else if String.eqb g "data_access_control" then
    for_sales
      ("Historical catch and sales data is sensitive business information. "
       ++ "Unauthorized access could expose competitive intelligence or be used for fraud. "
       ++ "Only authenticated users can access this data.")
  else if String.eqb g "financial_accuracy" then
    for_sales
      ("Price calculations affect real money and business relationships. "
       ++ "Incorrect math can cost the fisherman income or damage buyer trust. "
       ++ "Always verify: pounds × price per lb = total.")
  else if String.eqb g "communication_integrity" then
    for_sales
      ("Messages represent the fisherman directly. Sending without approval "
       ++ "removes his control over his business. All messages must be reviewed "
       ++ "and approved before sending.")
  else if String.eqb g "business_relationship_protection" then
    for_sales
      ("Buyer relationships are valuable. Duplicate messages, messages at wrong times, "
       ++ "or pushy communication can damage these relationships. Always check before contacting.")
  else fallback.

Definition see_documentation : string := "See documentation for examples.".

Definition _get_sales_examples (g : string) : string :=
  if String.eqb g "hallucination_prevention" then
    Py.nl ++ "❌ BAD (Hallucinating):" ++ Py.nl
    ++ Py.dq ++ "Got 500 lbs halibut today. Cannery buying at $5.00/lb." ++ Py.dq ++ Py.nl
    ++ "(Actually: logged 450 lbs, cannery shows $4.20/lb)" ++ Py.nl
    ++ Py.nl
    ++ "✅ GOOD (Accurate with verification):" ++ Py.nl
    ++ Py.dq ++ "Got 450 lbs halibut today. Cannery buying at $4.20/lb. Interested?"
    ++ Py.dq ++ Py.nl
    ++ "(Matches logged catch: 450 lbs, scraped price: $4.20/lb)" ++ Py.nl
  else see_documentation.

Definition _get_data_privacy_examples (g : string) : string :=
  if String.eqb g "pii_protection" then
    Py.nl ++ "❌ BAD (Exposing PII):" ++ Py.nl
    ++ Py.dq ++ "Here's my buyer list: John (360-555-1234), Mike (360-555-5678)..."
    ++ Py.dq ++ Py.nl
    ++ Py.nl
    ++ "✅ GOOD (Protected):" ++ Py.nl
    ++ "Message sent to John only, no mention of other buyers." ++ Py.nl
  else see_documentation.

Definition _get_calculation_examples (g : string) : string :=
  if String.eqb g "financial_accuracy" then
    Py.nl ++ "❌ BAD (Wrong math):" ++ Py.nl
    ++ "450 lbs × $4.20/lb = $1,800 (Incorrect)" ++ Py.nl
    ++ Py.nl
    ++ "✅ GOOD (Correct math):" ++ Py.nl
    ++ "450 lbs × $4.20/lb = $1,890" ++ Py.nl
  else see_documentation.

Definition _get_generic_examples (g : string) : string :=
  "Follow the principle above.".

Definition _suggest_specific_fix (v : Violation) (agent_type : AgentType) : string :=
  let g := guardrail v in
  if Py.str_in "hallucination" g then
    "Verify data against logged catch and scraped price. Only use verified values."
  else if Py.str_in "pii_protection" g then
    "Remove all buyer contact information from output. Message one buyer at a time."
  else if Py.str_in "data_access" g then
    "Check authentication before allowing access. Log the attempt."
  else if Py.str_in "financial" g then
    "Recalculate: pounds × price_per_lb. Show the calculation."
  else if Py.str_in "communication" g then
    "Mark message as draft. Wait for human approval before sending."
  else if Py.str_in "relationship" g then
    "Check message history for duplicates in last 24 hours. Check buyer preferred time."
  else "Reformulate response to address the guardrail violation.".

(** The sentence of the strong warning that announces the escalation. *)
Definition escalation_phrase : string :=
  "If it continues, this may escalate to human review.".

Definition _analyze_pattern (profile : AgentProfile) (g : string) : string :=
  let count := history_get (violation_history profile) g in
  if count =? 1 then
    "First time violating this guardrail. Stay aware and you should be fine."
  else if count =? 2 then
    "This is the 2nd violation of this type. Focus on the principle above."
  else if 3 <=? count then
    ("⚠️ PATTERN: You've violated this " ++ Py.str_int count ++ " times. ")
    ++ "This requires immediate behavioral change. "
    ++ escalation_phrase
  else EmptyString.

Definition _extract_principle (g : string) : string :=
  if String.eqb g "hallucination_prevention" then
    "Only use verified data from logged catches and scraped prices. "
    ++ "Never fabricate or estimate values."
  else if String.eqb g "pii_protection" then
    "Treat all buyer information as confidential. Never expose contact details."
  else if String.eqb g "data_access_control" then
    "Require authentication for all data access. Log access attempts."
  else if String.eqb g "financial_accuracy" then
    "Verify all calculations: pounds × price_per_lb. Show your work."
  else if String.eqb g "communication_integrity" then
    "All messages are drafts until human approves. Never auto-send."
  else if String.eqb g "business_relationship_protection" then
    "Check message history and buyer preferences before contacting."
  else "Follow the guardrail consistently.".

Definition _generate_coaching
    (v : Violation) (analysis : Analysis) (profile : AgentProfile)
    (approach : string) : string :=
  let part1 := "What happened:" ++ Py.nl ++ what_happened v in
  let why_matters := _explain_why_for_agent (guardrail v) (ap_agent_type profile) in
  let part2 := Py.nl ++ "Why it matters:" ++ Py.nl ++ why_matters in
  let part3 := Py.nl ++ "Core Principle:" ++ Py.nl ++ _extract_principle (guardrail v) in
  let examples :=
    if Py.startswith approach "sales_examples" then _get_sales_examples (guardrail v)
    else if Py.startswith approach "data_privacy_examples"
         then _get_data_privacy_examples (guardrail v)
    else if Py.startswith approach "calculation_examples"
         then _get_calculation_examples (guardrail v)
    else _get_generic_examples (guardrail v) in
  let part4 := Py.nl ++ "Examples:" ++ Py.nl ++ examples in
  let part5 :=
    Py.nl ++ "Immediate Fix:" ++ Py.nl
    ++ _suggest_specific_fix v (ap_agent_type profile) in
  let pattern_awareness := _analyze_pattern profile (guardrail v) in
  let part6 :=
    match pattern_awareness with
    | EmptyString => []
    | _ => [Py.nl ++ "Pattern Analysis:" ++ Py.nl ++ pattern_awareness]
    end in
  Py.join Py.nl ([part1; part2; part3; part4; part5] ++ part6)%list.

Definition take3 {A} (l : list A) : list A := firstn 3 l.

Fixpoint peer_lines (i : Z) (lessons : list PeerLesson) : string :=
  match lessons with
  | [] => EmptyString
  | l :: rest =>
      (Py.str_int i ++ ". " ++ lesson l ++ Py.nl) ++ peer_lines (i + 1) rest
  end.

Definition _get_peer_lessons
    (c : UniversalCoach) (g : string) (exclude_agent : string) : string :=
  match peer_lessons c !! g with
  | None => EmptyString
  | Some all =>
      let lessons :=
        List.filter
          (fun l => match pl_agent_id l with
                    | Some a => negb (String.eqb a exclude_agent)
                    | None => true
                    end) all in
      match lessons with
      | [] => EmptyString
      | _ => ("OTHER AGENTS LEARNED:" ++ Py.nl) ++ peer_lines 1 (take3 lessons)
      end
  end.

Definition _recommend_followup (profile : AgentProfile) (analysis : Analysis)
  : list string :=
  ((if 2 <? history_get (violation_history profile) (a_guardrail analysis)
   then ["Review guardrail documentation thoroughly";
         "Request human feedback on next similar request"]
   else [])
  ++ ["Refer back to this coaching before similar requests"])%list.

Definition record_event_outcome
    (improved' : bool) (timeline : option Z) (e : CoachingEvent) : CoachingEvent :=
  {| event_id := event_id e;
     timestamp := timestamp e;
     ev_agent_id := ev_agent_id e;
     ev_agent_type := ev_agent_type e;
     ev_guardrail := ev_guardrail e;
     ev_severity := ev_severity e;
     violation_description := violation_description e;
     coaching_delivered := coaching_delivered e;
     coaching_depth := coaching_depth e;
     agent_response := agent_response e;
     improved := Some improved';
     improvement_timeline := timeline |}.

(** The loop of [record_coaching_outcome]: the first event with the id is
    changed and the loop is left. *)
Fixpoint record_outcome_in
    (coaching_id : string) (improved' : bool) (timeline : option Z)
    (events : list CoachingEvent) : list CoachingEvent :=
  match events with
  | [] => []
  | e :: rest =>
      if String.eqb (event_id e) coaching_id
      then record_event_outcome improved' timeline e :: rest
      else e :: record_outcome_in coaching_id improved' timeline rest
  end.

Definition record_coaching_outcome
    (coaching_id : string) (improved' : bool) (timeline : option Z)
    (c : UniversalCoach) : UniversalCoach :=
  {| agent_profiles := agent_profiles c;
     coaching_history :=
       record_outcome_in coaching_id improved' timeline (coaching_history c);
     coaching_templates := coaching_templates c;
     peer_lessons := peer_lessons c;
     effectiveness_metrics := effectiveness_metrics c |}.

#[warnings="-inexact-float"]
Definition _predict_effectiveness (profile : AgentProfile) (v : Violation) : float :=
  let effectiveness := 0.7%float in
  let effectiveness :=
    (effectiveness * (0.5 + coaching_receptiveness profile))%float in
  let effectiveness :=
    if String.eqb (learning_level profile) "novice" then (effectiveness * 0.8)%float
    else if String.eqb (learning_level profile) "advanced" then (effectiveness * 1.2)%float
    else effectiveness in
  let count := history_get (violation_history profile) (guardrail v) in
  let effectiveness :=
    if 3 <? count then (effectiveness * 0.6)%float else effectiveness in
  Py.min 1.0%float (Py.max 0.0%float effectiveness).

(** [_update_profile] changes the profile object in place; [t] is its reading
    of the clock. *)
Definition _update_profile (t : datetime) (profile : AgentProfile) (v : Violation)
  : AgentProfile :=
  let g := guardrail v in
  {| ap_agent_id := ap_agent_id profile;
     ap_agent_type := ap_agent_type profile;
     learning_level := learning_level profile;
     violation_history :=
       <[g := history_get (violation_history profile) g + 1]> (violation_history profile);
     improvement_score := improvement_score profile;
     last_coaching := Some t;
     coaching_receptiveness := coaching_receptiveness profile;
     preferred_coaching_style := preferred_coaching_style profile;
     domain_expertise := domain_expertise profile;
     known_weaknesses := known_weaknesses profile |}.

#[warnings="-inexact-float"]
Definition new_profile (agent_id : string) (agent_type : AgentType) : AgentProfile :=
  {| ap_agent_id := agent_id;
     ap_agent_type := agent_type;
     learning_level := "intermediate";
     violation_history := ∅;
     improvement_score := 0.8%float;
     last_coaching := None;
     coaching_receptiveness := 1.0%float;
     preferred_coaching_style := "balanced";
     domain_expertise := ["commercial_fishing"; "sales_communication"];
     known_weaknesses := [] |}.

Definition set_profile (agent_id : string) (profile : AgentProfile)
    (c : UniversalCoach) : UniversalCoach :=
  {| agent_profiles := <[agent_id := profile]> (agent_profiles c);
     coaching_history := coaching_history c;
     coaching_templates := coaching_templates c;
     peer_lessons := peer_lessons c;
     effectiveness_metrics := effectiveness_metrics c |}.

Definition _get_or_create_profile
    (agent_id : string) (agent_type : AgentType) (c : UniversalCoach)
  : AgentProfile * UniversalCoach :=
  match agent_profiles c !! agent_id with
  | Some profile => (profile, c)
  | None =>
      let profile := new_profile agent_id agent_type in
      (profile, set_profile agent_id profile c)
  end.

Definition _analyze_violation (v : Violation) (profile : AgentProfile) : Analysis :=
  {| a_guardrail := guardrail v;
     a_severity := severity v;
     is_recurring := bool_decide (is_Some (violation_history profile !! guardrail v));
     a_count := history_get (violation_history profile) (guardrail v) |}.

Definition _determine_coaching_depth (profile : AgentProfile) (sev : string)
  : CoachingLevel :=
  if String.eqb sev "critical" then CRITICAL
  else if String.eqb sev "high" then HIGH
  else if String.eqb sev "medium" then MEDIUM
  else if String.eqb sev "low" then LOW
  else MEDIUM.

Definition _generate_suggestions
    (g : string) (agent_type : AgentType) (v : Violation) : list string :=
  ["Review the principle above";
   "Verify data before using it";
   "Ask for human review if unsure"].

Definition append_event (e : CoachingEvent) (c : UniversalCoach) : UniversalCoach :=
  {| agent_profiles := agent_profiles c;
     coaching_history := (coaching_history c ++ [e])%list;
     coaching_templates := coaching_templates c;
     peer_lessons := peer_lessons c;
     effectiveness_metrics := effectiveness_metrics c |}.

(** [coach_agent].  The profile it works on is the object stored under the
    agent id, so the change [_update_profile] makes shows in [agent_profiles];
    the three readings of the clock are those of the event id, of the event's
    timestamp and of [_update_profile]. *)
Definition coach_agent (v : Violation) (w : World) : Coaching * World :=
  let agent_id := v_agent_id v in
  let '(profile, c1) := _get_or_create_profile agent_id (v_agent_type v) (coach w) in
  let analysis := _analyze_violation v profile in
  let coaching_approach :=
    _select_coaching_approach (guardrail v) (ap_agent_type profile)
                              (learning_level profile) in
  let coaching_text := _generate_coaching v analysis profile coaching_approach in
  let level := _determine_coaching_depth profile (severity v) in
  let suggestions' := _generate_suggestions (guardrail v) (ap_agent_type profile) v in
  let principle' := _extract_principle (guardrail v) in
  let followup := _recommend_followup profile analysis in
  let peer := _get_peer_lessons c1 (guardrail v) agent_id in
  let coaching_text :=
    match peer with
    | EmptyString => coaching_text
    | _ => coaching_text ++ Py.nl ++ Py.nl ++ "PEER LEARNING:" ++ Py.nl ++ peer
    end in
  let n := clock_reads w in
  let event :=
    {| event_id := "coach_" ++ timestamp_text env (now env n);
       timestamp := now env (S n);
       ev_agent_id := agent_id;
       ev_agent_type := ap_agent_type profile;
       ev_guardrail := guardrail v;
       ev_severity := level;
       violation_description := what_happened v;
       coaching_delivered := coaching_text;
       coaching_depth := CoachingLevel_value level;
       agent_response := None;
       improved := None;
       improvement_timeline := None |} in
  let c2 := append_event event c1 in
  let profile' := _update_profile (now env (S (S n))) profile v in
  let c3 := set_profile agent_id profile' c2 in
  ({| coaching := coaching_text;
      coaching_level := level;
      suggestions := suggestions';
      principle := principle';
      followup_actions := followup;
      effectiveness_predicted := _predict_effectiveness profile' v;
      c_peer_lessons := peer;
      c_blocked := CoachingLevel_eqb level CRITICAL |},
   {| coach := c3; clock_reads := S (S (S n)) |}).

(** ** [agent.py]: the [FishingAgent] *)

(** A method of the agent: it may change the coach and read the clock, and it
    may raise. *)
Definition M (A : Type) : Type := World -> option (A * World).

Definition ret {A} (a : A) : M A := fun w => Some (a, w).

Definition bind {A B} (m : M A) (k : A -> M B) : M B :=
  fun w => match m w with
           | Some (a, w') => k a w'
           | None => None
           end.

Definition raise {A} : M A := fun _ => None.

Notation "'let*' x ':=' m 'in' k" := (bind m (fun x => k))
  (at level 10, x pattern, m at level 100, k at level 200).

(** [self.coach.coach_agent(violation)]. *)
Definition coach_call (v : Violation) : M Coaching := fun w => Some (coach_agent v w).

Definition agent_id : string := "fishing_agent_001".
Definition agent_type : AgentType := SALES_COORDINATOR.

Definition _create_violation (g sev what expect : string) : Violation :=
  {| v_agent_id := agent_id;
     v_agent_type := agent_type;
     guardrail := g;
     severity := sev;
     what_happened := what;
     expected := expect;
     context := ∅ |}.

(** The locals [violations] and [blocked] of a validation. *)
Definition Checks : Type := list Coaching * bool.

(** The step the validations repeat: create the violation, have it coached,
    append the coaching and, for a blocking guardrail, set [blocked]. *)
Definition flag (blocking : bool) (v : Violation) (st : Checks) : M Checks :=
  let* coaching' := coach_call v in
  ret ((fst st ++ [coaching'])%list, if blocking then true else snd st).

(** The template [_generate_message_text] falls back to. *)
Definition fallback_text (c : Catch) (p : Price) (b : Buyer) : string :=
  "Hey " ++ buyer_name b ++ ", got " ++ float_text env (pounds c)
  ++ " lbs fresh " ++ fish_type c ++ " today. Cannery buying at $"
  ++ float_text env (price_per_lb p) ++ "/lb. Interested?".

(** [_generate_message_text], called for the [i]-th buyer of the list. *)
Definition _generate_message_text (i : nat) (c : Catch) (p : Price) (b : Buyer)
  : string :=
  match service_text env i c p b with
  | Some message => message
  | None => fallback_text c p b
  end.

Definition commitment_words : list string :=
  ["deal"; "sold"; "meet me"; "pickup at"; "final price"; "agreed"].

Definition price_str (p : Price) : string := "$" ++ float_text env (price_per_lb p).

(** The first other buyer whose name or phone is in the text: where the loop
    of guardrail 4 breaks. *)
Definition leaked_buyer (draft_text : string) (b : Buyer) (all_buyers : list Buyer)
  : option Buyer :=
  List.find
    (fun other =>
       negb (buyer_id other =? buyer_id b)
       && (Py.str_in (buyer_name other) draft_text || Py.str_in (phone other) draft_text))
    all_buyers.

(** The test of guardrail 6 on one figure. *)
#[warnings="-inexact-float"]
Definition wrong_total (val expected_total : float) : bool :=
  Py.gt (PrimFloat.abs (val - expected_total)) (expected_total * 0.01)%float.

(** [re.findall] with the pattern of guardrail 6 on the draft, and [float]
    on a figure found, its commas removed. *)
Definition potential_totals (draft_text : string) : list (list N) :=
  Re.findall (decimal env) (Py.codepoints draft_text).

Definition total_value (total_str : list N) : option float :=
  Py.to_float (decimal env) (Py.remove_char 44 total_str).

(** The loop of guardrail 6 over the figures found. *)
Fixpoint check_totals (c : Catch) (p : Price) (totals : list (list N))
    (st : Checks) : M Checks :=
  match totals with
  | [] => ret st
  | total_str :: rest =>
      let expected_total := (pounds c * price_per_lb p)%float in
      match total_value total_str with
      | Some val =>
          if (Py.ne val (price_per_lb p) && wrong_total val expected_total)%bool then
            let* st' :=
              flag true
                (_create_violation "financial_accuracy" "high"
                   ("Draft message contains incorrect financial figure: $"
                    ++ float_text env val)
                   ("Total should be approximately $"
                    ++ float_text_2f env expected_total ++ " ("
                    ++ float_text env (pounds c) ++ "lbs * $"
                    ++ float_text env (price_per_lb p) ++ ")"))
                st in
            check_totals c p rest st'
          else check_totals c p rest st
      | None => check_totals c p rest st
      end
  end.

Definition _validate_message_draft
    (draft_text : string) (c : Catch) (p : Price) (b : Buyer)
    (all_buyers : list Buyer) : M Validation :=
  let st : Checks := ([], false) in
  (* Guardrail 1: the price *)
  let* st :=
    if negb (Py.str_in (price_str p) draft_text) then
      flag true
        (_create_violation "hallucination_prevention" "critical"
           ("Draft message doesn't contain verified price $"
            ++ float_text env (price_per_lb p) ++ "/lb")
           ("Message must include exact scraped price: $"
            ++ float_text env (price_per_lb p) ++ "/lb"))
        st
    else ret st in
  (* Guardrail 2: the pounds *)
  let* pounds_int :=
    match Py.to_int (pounds c) with
    | Some n => ret n
    | None => raise
    end in
  let pounds_str := Py.str_int pounds_int in
  let* st :=
    if negb (Py.str_in pounds_str draft_text) then
      flag true
        (_create_violation "hallucination_prevention" "critical"
           ("Draft message doesn't contain logged catch amount "
            ++ float_text env (pounds c) ++ " lbs")
           ("Message must include exact logged pounds: " ++ float_text env (pounds c)))
        st
    else ret st in
  (* Guardrail 3: the fish type *)
  let* st :=
    if negb (Py.str_in (str_lower env (fish_type c)) (str_lower env draft_text)) then
      flag true
        (_create_violation "hallucination_prevention" "critical"
           ("Draft message doesn't contain logged fish type '" ++ fish_type c ++ "'")
           ("Message must include correct fish type: " ++ fish_type c))
        st
    else ret st in
  (* Guardrail 4: no other buyer's name or phone *)
  let* st :=
    match leaked_buyer draft_text b all_buyers with
    | Some other_buyer =>
        flag true
          (_create_violation "pii_protection" "critical"
             ("Draft message contains PII of another buyer: " ++ buyer_name other_buyer)
             "Message must only contain info relevant to the recipient")
          st
    | None => ret st
    end in
  (* Guardrail 5: commitment language, a warning *)
  let* st :=
    if existsb (fun word => Py.str_in word (str_lower env draft_text)) commitment_words then
      flag false
        (_create_violation "communication_integrity" "high"
           "Draft message contains commitment language that should be handled by fisherman directly"
           "Messages should only inform about availability and price, not commit to deals")
        st
    else ret st in
  (* Guardrail 6: the dollar figures *)
  let* st := check_totals c p (potential_totals draft_text) st in
  ret {| blocked := snd st; violations := fst st |}.

(** 24 hours. *)
Definition day : Z := 24 * 3600 * 1000000.

(** The query of [generate_buyer_messages]: the messages to the buyer sent
    in the 24 hours before [t]. *)
Definition recent_messages (db : list Message) (t : datetime) (b : Buyer)
  : list Message :=
  List.filter
    (fun m =>
       (msg_buyer_id m =? buyer_id b)
       && match sent_at m with
          | Some sent => t - day <=? sent
          | None => false
          end)
    db.

Definition contacted_recently (db : list Message) (t : datetime) (b : Buyer) : bool :=
  match recent_messages db t b with [] => false | _ => true end.

Definition draft_message (c : Catch) (p : Price) (b : Buyer) (draft_text : string)
  : MessageDraft :=
  {| d_buyer_id := buyer_id b;
     d_buyer_name := buyer_name b;
     message_text := draft_text;
     d_catch_id := catch_id c;
     d_fish_type := fish_type c;
     d_pounds := pounds c;
     d_price_per_lb := price_per_lb p |}.

(** The loop of [generate_buyer_messages] from its [i]-th buyer on; [acc]
    holds the locals [approved_drafts] and [violations]. *)
Fixpoint buyers_loop (c : Catch) (p : Price) (all_buyers : list Buyer)
    (db : list Message) (i : nat) (todo : list Buyer)
    (acc : list MessageDraft * list Coaching)
  : M (list MessageDraft * list Coaching) :=
  match todo with
  | [] => ret acc
  | b :: rest =>
      if contacted_recently db (utcnow env i) b then
        let* coaching' :=
          coach_call
            (_create_violation "business_relationship_protection" "high"
               ("Attempted to contact buyer '" ++ buyer_name b
                ++ "' who was already contacted in last 24 hours")
               "Check message history before contacting buyers") in
        buyers_loop c p all_buyers db (S i) rest (fst acc, (snd acc ++ [coaching'])%list)
      else
        let draft_text := _generate_message_text i c p b in
        let* validation_result :=
          _validate_message_draft draft_text c p b all_buyers in
        if blocked validation_result then
          buyers_loop c p all_buyers db (S i) rest
            (fst acc, (snd acc ++ violations validation_result)%list)
        else
          buyers_loop c p all_buyers db (S i) rest
            ((fst acc ++ [draft_message c p b draft_text])%list, snd acc)
  end.

Definition generate_buyer_messages
    (c : Catch) (price : option Price) (buyers : list Buyer) (db : list Message)
  : M BatchResult :=
  match price with
  | None =>
      let* coaching' :=
        coach_call
          (_create_violation "hallucination_prevention" "critical"
             "Attempted to generate messages without verified price data"
             "Current price from cannery scraping or manual entry") in
      ret {| drafts := [];
             b_violations := [coaching'];
             b_blocked := true;
             error := Some "No price data available. Please check cannery prices first." |}
  | Some p =>
      let* acc := buyers_loop c p buyers db 0 buyers ([], []) in
      ret {| drafts := fst acc;
             b_violations := snd acc;
             b_blocked := false;
             error := None |}
  end.

Definition valid_fish_types : list string := ["Crab"; "Salmon"; "Halibut"; "Other"].

Definition validate_catch_log (fish : string) (lbs : float) : M Validation :=
  let st : Checks := ([], false) in
  let* st :=
    if negb (Py.in_list fish valid_fish_types) then
      flag true
        (_create_violation "data_integrity" "high"
           ("Invalid fish type '" ++ fish ++ "'")
           ("Must be one of: " ++ Py.join ", " valid_fish_types))
        st
    else ret st in
  let* st :=
    if PrimFloat.leb lbs 0%float then
      flag true
        (_create_violation "data_integrity" "high"
           ("Invalid pounds value: " ++ float_text env lbs)
           "Pounds must be greater than 0")
        st
    else ret st in
  let* st :=
    if Py.gt lbs 10000%float then
      flag false
        (_create_violation "data_integrity" "medium"
           ("Unusually high catch: " ++ float_text env lbs ++ " lbs")
           "Double-check if this amount is correct")
        st
    else ret st in
  ret {| blocked := snd st; violations := fst st |}.

(** [validate_data_access]: one critical coaching for an access without
    authentication, nothing otherwise. *)
Definition validate_data_access (user_authenticated : bool) (resource : string)
  : M Validation :=
  if negb user_authenticated then
    let* coaching' :=
      coach_call
        (_create_violation "data_access_control" "critical"
           ("Unauthorized access attempt to " ++ resource)
           "User must be authenticated to access data") in
    ret {| blocked := true; violations := [coaching'] |}
  else ret {| blocked := false; violations := [] |}.

(** ** [main.py]: the buyers [contact_buyers] hands to the agent *)

(** The buyers with no preferred fish, and those whose preference text
    contains the fish type of the catch. *)
Definition matching_buyers (c : Catch) (all_buyers : list Buyer) : list Buyer :=
  List.filter
    (fun b =>
       match preferred_fish b with
       | None => true
       | Some pf => String.eqb pf EmptyString || Py.str_in (fish_type c) pf
       end)
    all_buyers.

(** ** Notions the properties are stated with *)

(** [cg] is what the coach returns for a violation of guardrail [g] and
    severity [sev]. *)
Definition coached (g sev : string) (cg : Coaching) : Prop :=
  exists v w, guardrail v = g /\ severity v = sev /\ cg = fst (coach_agent v w).

(** The draft omits the price figure, the integer pound count [n] or the
    fish type: guardrails 1 to 3. *)
Definition omits_fact (draft_text : string) (c : Catch) (p : Price) (n : Z) : bool :=
  negb (Py.str_in (price_str p) draft_text)
  || negb (Py.str_in (Py.str_int n) draft_text)
  || negb (Py.str_in (str_lower env (fish_type c)) (str_lower env draft_text)).

(** The figure [tok] found by the pattern is not the price per pound and is
    off the total by more than the margin: guardrail 6. *)
Definition bad_total (c : Catch) (p : Price) (tok : list N) : bool :=
  match total_value tok with
  | Some val =>
      Py.ne val (price_per_lb p)
      && wrong_total val (pounds c * price_per_lb p)%float
  | None => false
  end.

(** Some blocking guardrail fails on the draft. *)
Definition rejects (draft_text : string) (c : Catch) (p : Price) (b : Buyer)
    (all_buyers : list Buyer) (n : Z) : bool :=
  omits_fact draft_text c p n
  || bool_decide (is_Some (leaked_buyer draft_text b all_buyers))
  || existsb (bad_total c p) (potential_totals draft_text).

(** What the loop of [generate_buyer_messages] makes of the [k]-th buyer [b]:
    the draft it keeps, if any. *)
Definition outcome_draft (c : Catch) (p : Price) (all_buyers : list Buyer)
    (db : list Message) (n : Z) (k : nat) (b : Buyer) : list MessageDraft :=
  if contacted_recently db (utcnow env k) b then []
  else
    let draft_text := _generate_message_text k c p b in
    if rejects draft_text c p b all_buyers n then []
    else [draft_message c p b draft_text].

(** The drafts kept for the buyers [todo], which are the [i]-th and later
    ones of the list. *)
Fixpoint expected_drafts (c : Catch) (p : Price) (all_buyers : list Buyer)
    (db : list Message) (n : Z) (i : nat) (todo : list Buyer) : list MessageDraft :=
  match todo with
  | [] => []
  | b :: rest =>
      (outcome_draft c p all_buyers db n i b
       ++ expected_drafts c p all_buyers db n (S i) rest)%list
  end.

(** What the coachings [vs] recorded for the [k]-th buyer [b] must hold. *)
Definition buyer_violations (c : Catch) (p : Price) (db : list Message) (n : Z)
    (k : nat) (b : Buyer) (vs : list Coaching) : Prop :=
  if contacted_recently db (utcnow env k) b then
    exists cg, vs = [cg] /\ coached "business_relationship_protection" "high" cg
  else
    let draft_text := _generate_message_text k c p b in
    (omits_fact draft_text c p n = true ->
     Exists (coached "hallucination_prevention" "critical") vs)
    /\ (existsb (bad_total c p) (potential_totals draft_text) = true ->
        Exists (coached "financial_accuracy" "high") vs).

(** [vss] lists, buyer by buyer, the coachings recorded for [todo]. *)
Fixpoint violations_match (c : Catch) (p : Price) (db : list Message) (n : Z)
    (i : nat) (todo : list Buyer) (vss : list (list Coaching)) : Prop :=
  match todo, vss with
  | [], [] => True
  | b :: rest, vs :: vss' =>
      buyer_violations c p db n i b vs /\ violations_match c p db n (S i) rest vss'
  | _, _ => False
  end.

(** The profile a call of [coach_agent] works on: the one stored under the
    agent id, or a new one. *)
Definition profile_before (w : World) (v : Violation) : AgentProfile :=
  default (new_profile (v_agent_id v) (v_agent_type v))
          (agent_profiles (coach w) !! v_agent_id v).

(** The count of the violation's guardrail before the call. *)
Definition prior_count (w : World) (v : Violation) : Z :=
  history_get (violation_history (profile_before w v)) (guardrail v).

(** The effectiveness as the specification words it: start at 0.7, scale by
    0.5 plus the receptiveness, multiply by 0.8 for a novice and by 1.2 for an
    advanced agent, multiply by 0.6 when [count] exceeds 3, clamp to [0,1]. *)
#[warnings="-inexact-float"]
Definition effectiveness_formula (receptiveness : float) (level : string) (count : Z)
  : float :=
  let e := (0.7 * (0.5 + receptiveness))%float in
  let e :=
    if String.eqb level "novice" then (e * 0.8)%float
    else if String.eqb level "advanced" then (e * 1.2)%float
    else e in
  let e := if 3 <? count then (e * 0.6)%float else e in
  Py.min 1%float (Py.max 0%float e).

(** Two events differ at most in the outcome fields [improved] and
    [improvement_timeline]. *)
Definition same_but_outcome (e e' : CoachingEvent) : Prop :=
  event_id e' = event_id e
  /\ timestamp e' = timestamp e
  /\ ev_agent_id e' = ev_agent_id e
  /\ ev_agent_type e' = ev_agent_type e
  /\ ev_guardrail e' = ev_guardrail e
  /\ ev_severity e' = ev_severity e
  /\ violation_description e' = violation_description e
  /\ coaching_delivered e' = coaching_delivered e
  /\ coaching_depth e' = coaching_depth e
  /\ agent_response e' = agent_response e.

(** Characters that are all digits, and characters that begin with a digit. *)
Fixpoint all_digits (s : list N) : bool :=
  match s with
  | [] => true
  | c :: s' => Py.is_decimal (decimal env) c && all_digits s'
  end.

Definition starts_with_digit (s : list N) : bool :=
  match s with
  | c :: _ => Py.is_decimal (decimal env) c
  | [] => false
  end.

(** The figure [val] is within the margin of the total: not off by more than
    one hundredth of it. *)
Definition within_margin (val total : float) : bool := negb (wrong_total val total).

(** ** Notions for the further properties *)

(** The coachings [x] a guardrail adds: one, of the guardrail [g] and the
    severity [sev], when its test [cond] fails, and none otherwise. *)
Definition gated (cond : bool) (g sev : string) (x : list Coaching) : Prop :=
  if cond then exists cg, x = [cg] /\ coached g sev cg else x = [].

(** The draft holds a commitment word: the test of guardrail 5. *)
Definition commits (draft_text : string) : bool :=
  existsb (fun word => Py.str_in word (str_lower env draft_text)) commitment_words.

(** The number of figures of guardrail 6 that are bad. *)
Definition bad_totals (c : Catch) (p : Price) (draft_text : string) : nat :=
  length (List.filter (bad_total c p) (potential_totals draft_text)).

(** The worlds a new coach can get to: by coachings and by recorded outcomes. *)
Inductive reachable : World -> Prop :=
| reach_init : reachable {| coach := UniversalCoach_init; clock_reads := 0 |}
| reach_coach v w : reachable w -> reachable (snd (coach_agent v w))
| reach_outcome coaching_id improved' timeline w :
    reachable w ->
    reachable {| coach := record_coaching_outcome coaching_id improved' timeline (coach w);
                 clock_reads := clock_reads w |}.

(** The events of the log for an agent and a guardrail, counted. *)
Definition events_for (agent g : string) (events : list CoachingEvent) : Z :=
  Z.of_nat
    (length
       (List.filter
          (fun e => String.eqb (ev_agent_id e) agent && String.eqb (ev_guardrail e) g)
          events)).

(** The count a coach keeps for an agent and a guardrail: 0 without a profile
    or without an entry. *)
Definition count_for (c : UniversalCoach) (agent g : string) : Z :=
  match agent_profiles c !! agent with
  | Some profile => history_get (violation_history profile) g
  | None => 0
  end.

(** The coachings [vs] a validation of the draft records: one per failed
    test of the guardrails 1 to 5, in their order, then one per bad figure. *)
Definition validation_trace (draft_text : string) (c : Catch) (p : Price) (b : Buyer)
    (all_buyers : list Buyer) (n : Z) (vs : list Coaching) : Prop :=
  exists x1 x2 x3 x4 x5 x6,
    vs = (x1 ++ x2 ++ x3 ++ x4 ++ x5 ++ x6)%list
    /\ gated (negb (Py.str_in (price_str p) draft_text))
         "hallucination_prevention" "critical" x1
    /\ gated (negb (Py.str_in (Py.str_int n) draft_text))
         "hallucination_prevention" "critical" x2
    /\ gated (negb (Py.str_in (str_lower env (fish_type c)) (str_lower env draft_text)))
         "hallucination_prevention" "critical" x3
    /\ gated (bool_decide (is_Some (leaked_buyer draft_text b all_buyers)))
         "pii_protection" "critical" x4
    /\ gated (commits draft_text) "communication_integrity" "high" x5
    /\ Forall (coached "financial_accuracy" "high") x6
    /\ length x6 = bad_totals c p draft_text.

(** What the batch records for its [k]-th buyer [b]: the one coaching of a
    buyer contacted recently, the coachings of a rejected draft, and nothing
    for a draft that is kept. *)
Definition buyer_outcome (c : Catch) (p : Price) (all_buyers : list Buyer)
    (db : list Message) (n : Z) (k : nat) (b : Buyer) (vs : list Coaching) : Prop :=
  if contacted_recently db (utcnow env k) b then
    exists cg, vs = [cg] /\ coached "business_relationship_protection" "high" cg
  else
    let draft_text := _generate_message_text k c p b in
    if rejects draft_text c p b all_buyers n
    then validation_trace draft_text c p b all_buyers n vs
    else vs = [].

Fixpoint outcomes_match (c : Catch) (p : Price) (all_buyers : list Buyer)
    (db : list Message) (n : Z) (i : nat) (todo : list Buyer)
    (vss : list (list Coaching)) : Prop :=
  match todo, vss with
  | [], [] => True
  | b :: rest, vs :: vss' =>
      buyer_outcome c p all_buyers db n i b vs
      /\ outcomes_match c p all_buyers db n (S i) rest vss'
  | _, _ => False
  end.

(** Texts made of the digits of ASCII only. *)
Definition is_ascii_digit (c : ascii) : bool :=
  match Py.ascii_digit (N_of_ascii c) with Some _ => true | None => false end.

Fixpoint ascii_digits (s : string) : bool :=
  match s with
  | EmptyString => true
  | String c s' => is_ascii_digit c && ascii_digits s'
  end.

(** The characters of a figure: digits, commas and dots. *)
Definition figure_char (c : N) : bool :=
  Py.is_decimal (decimal env) c || (c =? 44)%N || (c =? 46)%N.

(** The pattern of guardrail 6 read part by part.  [groups gs]: the
    characters [gs] are comma groups, each a comma and three digits;
    [cents_part cs]: [cs] is nothing, or a dot and two digits. *)
Inductive groups : list N -> Prop :=
| groups_nil : groups []
| groups_cons a b c gs :
    Py.is_decimal (decimal env) a = true ->
    Py.is_decimal (decimal env) b = true ->
    Py.is_decimal (decimal env) c = true ->
    groups gs ->
    groups (44%N :: a :: b :: c :: gs).

Definition cents_part (cs : list N) : Prop :=
  cs = []
  \/ exists a b, cs = [46%N; a; b]
                 /\ Py.is_decimal (decimal env) a = true
                 /\ Py.is_decimal (decimal env) b = true.

Definition starts_with_group (s : list N) : bool :=
  match s with
  | c0 :: a :: b :: c :: _ =>
      (c0 =? 44)%N && Py.is_decimal (decimal env) a && Py.is_decimal (decimal env) b
      && Py.is_decimal (decimal env) c
  | _ => false
  end.

Definition starts_with_cents (s : list N) : bool :=
  match s with
  | c0 :: a :: b :: _ =>
      (c0 =? 46)%N && Py.is_decimal (decimal env) a && Py.is_decimal (decimal env) b
  | _ => false
  end.

(** [figure tok rest]: the group of the pattern matches the characters
    [tok] where [rest] follows them.  [tok] is one or more digits, then
    comma groups, then the cents; and each part is as long as it can be
    (the quantifiers are greedy): no digit follows the digits, no comma
    group follows the groups, and the cents are left out only where there
    are none. *)
Definition figure (tok rest : list N) : Prop :=
  exists ds gs cs,
    tok = (ds ++ gs ++ cs)%list
    /\ ds <> []
    /\ all_digits ds = true
    /\ groups gs
    /\ cents_part cs
    /\ starts_with_digit (gs ++ cs ++ rest)%list = false
    /\ starts_with_group (cs ++ rest)%list = false
    /\ (cs = [] -> starts_with_cents rest = false).

(** What the batch makes of its [k]-th buyer [b]: the drafts [ds] and the
    coachings [vs] it adds to the result.  A buyer contacted recently gets no
    draft and the one coaching; for another buyer the draft is validated,
    which takes the integer pound count: a rejected draft is dropped and
    leaves the coachings of its validation, a kept one leaves none. *)
Definition handled (c : Catch) (p : Price) (all_buyers : list Buyer)
    (db : list Message) (k : nat) (b : Buyer)
    (ds : list MessageDraft) (vs : list Coaching) : Prop :=
  if contacted_recently db (utcnow env k) b then
    ds = []
    /\ exists cg, vs = [cg] /\ coached "business_relationship_protection" "high" cg
  else
    exists n,
      Py.to_int (pounds c) = Some n
      /\ let draft_text := _generate_message_text k c p b in
         if rejects draft_text c p b all_buyers n
         then ds = []
              /\ (omits_fact draft_text c p n = true ->
                  Exists (coached "hallucination_prevention" "critical") vs)
              /\ (existsb (bad_total c p) (potential_totals draft_text) = true ->
                  Exists (coached "financial_accuracy" "high") vs)
         else ds = [draft_message c p b draft_text] /\ vs = [].

Fixpoint all_handled (c : Catch) (p : Price) (all_buyers : list Buyer)
    (db : list Message) (i : nat) (todo : list Buyer)
    (dss : list (list MessageDraft)) (vss : list (list Coaching)) : Prop :=
  match todo, dss, vss with
  | [], [], [] => True
  | b :: rest, ds :: dss', vs :: vss' =>
      handled c p all_buyers db i b ds vs
      /\ all_handled c p all_buyers db (S i) rest dss' vss'
  | _, _, _ => False
  end.

End Engine.

(** ** A concrete world: the examples of the specification *)

(** Python's text for the floats of the examples. *)
#[warnings="-inexact-float"]
Definition sample_float_text (x : float) : string :=
  if PrimFloat.eqb x 4.25%float then "4.25"
  else if PrimFloat.eqb x 450%float then "450.0"
  else if PrimFloat.eqb x 15000%float then "15000.0"
  else "0.0".

#[warnings="-inexact-float"]
Definition sample_float_text_2f (x : float) : string :=
  if PrimFloat.eqb x 1912.5%float then "1912.50" else "0.00".

(** The table of the examples: the digits of ASCII and the Arabic-Indic
    ones, U+0660 to U+0669. *)
Definition sample_decimal (c : N) : option Z :=
  if (c <? 128)%N then Py.ascii_digit c
  else if ((1632 <=? c)%N && (c <=? 1641)%N)%bool then Some (Z.of_N c - 1632)
  else None.

(** The clock starts at a fixed date and moves by a microsecond per reading;
    the message service is down, so that every text is the template; the
    texts hold no cased letter outside ASCII. *)
Definition sample_env : Env.
Proof.
  refine
    {| now := fun n => 1700000000000000 + Z.of_nat n;
       timestamp_text := fun t => pretty t;
       float_text := sample_float_text;
       float_text_2f := sample_float_text_2f;
       utcnow := fun _ => 1700000000000000;
       service_text := fun _ _ _ _ => None;
       str_lower := Py.ascii_lower;
       decimal := sample_decimal;
       str_lower_space := _;
       decimal_ascii := _ |}.
  - intros a. induction a as [|c a IH]; intros b; [reflexivity|].
    exact (f_equal (String (Py.lower_ascii c)) (IH b)).
  - intros c Hc. unfold sample_decimal.
    apply N.ltb_lt in Hc. rewrite Hc. reflexivity.
Defined.

Definition fresh_world : World :=
  {| coach := UniversalCoach_init; clock_reads := 0 |}.

#[warnings="-inexact-float"]
Definition halibut_450 : Catch :=
  {| catch_id := 1; fish_type := "Halibut"; pounds := 450%float |}.

#[warnings="-inexact-float"]
Definition halibut_price : Price :=
  {| price_fish_type := "Halibut"; price_per_lb := 4.25%float |}.

Definition john : Buyer :=
  {| buyer_id := 1; buyer_name := "John"; phone := "3605551234";
     preferred_fish := None |}.

Definition mike : Buyer :=
  {| buyer_id := 2; buyer_name := "Mike"; phone := "3605555678";
     preferred_fish := Some "Halibut" |}.

(** Mike got a message two hours before the clock's date. *)
Definition mike_contacted : list Message :=
  [ {| msg_buyer_id := 2; sent_at := Some (1700000000000000 - 2 * 3600 * 1000000) |} ].

(** A draft that leaves the price out, as the agent reports it. *)
Definition missing_price : Violation :=
  _create_violation "hallucination_prevention" "critical"
    "Draft message doesn't contain verified price $4.25/lb"
    "Message must include exact scraped price: $4.25/lb".

(** The world after one, two and three coachings of [missing_price]. *)
Definition world_after_1 : World :=
  snd (coach_agent (env := sample_env) missing_price fresh_world).
Definition world_after_2 : World :=
  snd (coach_agent (env := sample_env) missing_price world_after_1).
Definition world_after_3 : World :=
  snd (coach_agent (env := sample_env) missing_price world_after_2).

(** A price with one decimal, as Python prints it. *)
#[warnings="-inexact-float"]
Definition halibut_price_4_2 : Price :=
  {| price_fish_type := "Halibut"; price_per_lb := 4.2%float |}.

(** A catch whose pound value is an infinity. *)
Definition halibut_unbounded : Catch :=
  {| catch_id := 2; fish_type := "Halibut"; pounds := PrimFloat.infinity |}.

(** A buyer whose name holds John's, and one who wants crab only. *)
Definition johnny : Buyer :=
  {| buyer_id := 3; buyer_name := "Johnny"; phone := "3605550000";
     preferred_fish := None |}.

Definition carl : Buyer :=
  {| buyer_id := 4; buyer_name := "Carl"; phone := "3605559999";
     preferred_fish := Some "Crab" |}.

(** Drafts for John: one that closes the deal, one that names Mike, one that
    quotes the price with a single decimal. *)
Definition deal_draft : string :=
  "Hey John, got 450 lbs fresh Halibut today. Cannery buying at $4.25/lb. Deal?".

Definition mike_draft : string :=
  "Hey John, got 450 lbs fresh Halibut today, Mike passed. Cannery buying at $4.25/lb.".

Definition one_decimal_draft : string :=
  "Hey John, got 450.0 lbs fresh Halibut today. Cannery buying at $4.2/lb. Interested?".

(** Python's text for the floats of these examples, and the world with it. *)
#[warnings="-inexact-float"]
Definition decimal_float_text (x : float) : string :=
  if PrimFloat.eqb x 4.2%float then "4.2"
  else if PrimFloat.eqb x PrimFloat.infinity then "inf"
  else sample_float_text x.

#[warnings="-inexact-float"]
Definition decimal_float_text_2f (x : float) : string :=
  if PrimFloat.eqb x 1890%float then "1890.00"
  else if PrimFloat.eqb x PrimFloat.infinity then "inf"
  else sample_float_text_2f x.

Definition decimal_env : Env :=
  {| now := now sample_env;
     timestamp_text := timestamp_text sample_env;
     float_text := decimal_float_text;
     float_text_2f := decimal_float_text_2f;
     utcnow := utcnow sample_env;
     service_text := service_text sample_env;
     str_lower := str_lower sample_env;
     decimal := decimal sample_env;
     str_lower_space := str_lower_space sample_env;
     decimal_ascii := decimal_ascii sample_env |}.

Section Properties.

Context {env : Env}.

(** ** The steps of a validation *)

Lemma bind_run {A B} (m : M A) (k : A -> M B) w a w1 :
  m w = Some (a, w1) -> bind m k w = k a w1.
Proof. intros E. unfold bind. now rewrite E. Qed.

Lemma flag_run blocking v st w :
  flag blocking v st w =
  Some (((fst st ++ [fst (coach_agent v w)])%list, if blocking then true else snd st),
        snd (coach_agent v w)).
Proof.
  unfold flag, bind, coach_call, ret.
  now destruct (coach_agent v w).
Qed.

(** A guarded [flag]: the list grows by the coaching when the guard holds. *)
Lemma guard_run (cond blocking : bool) v st w :
  exists extra w',
    (if cond then flag blocking v st else ret st) w
    = Some (((fst st ++ extra)%list, snd st || (cond && blocking)), w')
    /\ (cond = true -> extra = [fst (coach_agent v w)])
    /\ (cond = false -> extra = []).
Proof.
  destruct cond.
  - exists [fst (coach_agent v w)], (snd (coach_agent v w)).
    rewrite flag_run. repeat split; try congruence.
    do 2 f_equal. destruct blocking, (snd st); reflexivity.
  - exists [], w. unfold ret. rewrite app_nil_r, orb_false_r.
    destruct st; repeat split; congruence.
Qed.

Lemma coached_flag g sev what expect w :
  coached g sev (fst (coach_agent (_create_violation g sev what expect) w)).
Proof. now exists (_create_violation g sev what expect), w. Qed.

(** The loop of guardrail 6 always ends; it blocks exactly when a figure is
    bad, and every coaching it adds is a [financial_accuracy] one. *)
Lemma check_totals_run c p toks : forall st w,
  exists extra w',
    check_totals c p toks st w
    = Some (((fst st ++ extra)%list, snd st || existsb (bad_total c p) toks), w')
    /\ Forall (coached "financial_accuracy" "high") extra
    /\ (existsb (bad_total c p) toks = true -> extra <> []).
Proof.
  induction toks as [|tok toks IH]; intros st w; simpl.
  - exists [], w. unfold ret. rewrite app_nil_r, orb_false_r.
    destruct st; repeat split; auto; discriminate.
  - unfold bad_total at 1 3.
    destruct (total_value tok) as [val|]; simpl.
    + destruct (Py.ne val (price_per_lb p)
                && wrong_total val (pounds c * price_per_lb p)%float) eqn:Ebad.
      * rewrite (bind_run _ _ _ _ _ (flag_run _ _ _ _)).
        match goal with
        | |- context [check_totals c p toks ?st1 ?w1] =>
            destruct (IH st1 w1) as (extra & w' & E & Hall & _)
        end.
        eexists (_ :: extra), w'. rewrite E. simpl.
        rewrite <- app_assoc, orb_true_r. simpl.
        repeat split; [constructor; [apply coached_flag | exact Hall] | discriminate].
      * destruct (IH st w) as (extra & w' & E & Hall & Hne).
        exists extra, w'. rewrite E. auto.
    + destruct (IH st w) as (extra & w' & E & Hall & Hne).
      exists extra, w'. rewrite E. auto.
Qed.

(** [_validate_message_draft] returns whenever [int(catch.pounds)] does; it
    blocks exactly when [rejects] says so, and it records a coaching for an
    omitted fact and for a bad figure. *)
Lemma validate_run draft_text c p b all_buyers n w :
  Py.to_int (pounds c) = Some n ->
  exists r w',
    _validate_message_draft draft_text c p b all_buyers w = Some (r, w')
    /\ blocked r = rejects draft_text c p b all_buyers n
    /\ (omits_fact draft_text c p n = true ->
        Exists (coached "hallucination_prevention" "critical") (violations r))
    /\ (existsb (bad_total c p) (potential_totals draft_text) = true ->
        Exists (coached "financial_accuracy" "high") (violations r)).
Proof.
  intros Hint. unfold _validate_message_draft.
  edestruct (guard_run (negb (Py.str_in (price_str p) draft_text)) true)
    as (x1 & w1 & E1 & T1 & _).
  rewrite (bind_run _ _ _ _ _ E1). clear E1. rewrite Hint.
  unfold ret at 1. unfold bind at 1.
  edestruct (guard_run (negb (Py.str_in (Py.str_int n) draft_text)) true)
    as (x2 & w2 & E2 & T2 & _).
  rewrite (bind_run _ _ _ _ _ E2). clear E2.
  edestruct (guard_run
               (negb (Py.str_in (str_lower env (fish_type c)) (str_lower env draft_text))) true)
    as (x3 & w3 & E3 & T3 & _).
  rewrite (bind_run _ _ _ _ _ E3). clear E3.
  match goal with
  | |- context [bind (match leaked_buyer ?t ?b ?l with _ => _ end) _ ?w] =>
      assert (exists x4 w4,
                 (match leaked_buyer t b l with
                  | Some other_buyer =>
                      flag true
                        (_create_violation "pii_protection" "critical"
                           ("Draft message contains PII of another buyer: "
                            ++ buyer_name other_buyer)
                           "Message must only contain info relevant to the recipient")
                        (([] ++ x1 ++ x2 ++ x3)%list,
                         negb (Py.str_in (price_str p) draft_text)
                         || negb (Py.str_in (Py.str_int n) draft_text)
                         || negb (Py.str_in (str_lower env (fish_type c)) (str_lower env draft_text)))
                  | None =>
                      ret (([] ++ x1 ++ x2 ++ x3)%list,
                           negb (Py.str_in (price_str p) draft_text)
                           || negb (Py.str_in (Py.str_int n) draft_text)
                           || negb (Py.str_in (str_lower env (fish_type c))
                                              (str_lower env draft_text)))
                  end) w
                 = Some ((([] ++ x1 ++ x2 ++ x3) ++ x4)%list,
                         omits_fact draft_text c p n
                         || bool_decide (is_Some (leaked_buyer t b l)), w4))
        as (x4 & w4 & E4)
  end.
  { destruct (leaked_buyer draft_text b all_buyers) as [other|].
    - eexists _, _. rewrite flag_run. simpl. rewrite orb_true_r. reflexivity.
    - exists [], w3. unfold ret. simpl. rewrite app_nil_r, orb_false_r. reflexivity. }
  simpl in E4 |- *. rewrite !andb_true_r, <- !app_assoc.
  rewrite (bind_run _ _ _ _ _ E4). clear E4.
  edestruct (guard_run
               (existsb (fun word => Py.str_in word (str_lower env draft_text))
                        commitment_words) false)
    as (x5 & w5 & E5 & _).
  rewrite (bind_run _ _ _ _ _ E5). clear E5.
  match goal with
  | |- context [check_totals c p ?toks ?st] =>
      destruct (check_totals_run c p toks st w5) as (x6 & w6 & E6 & H6 & N6)
  end.
  rewrite (bind_run _ _ _ _ _ E6). clear E6.
  eexists _, _. split; [reflexivity|]. simpl.
  rewrite andb_false_r, orb_false_r.
  split; [reflexivity|]. split.
  - unfold omits_fact. intros Hom.
    apply orb_true_iff in Hom as [Hom|Hom]; [apply orb_true_iff in Hom as [Hom|Hom]|].
    + rewrite (T1 Hom). apply Exists_app. left. apply Exists_app. left.
      apply Exists_app. left. apply Exists_app. left.
      constructor. apply coached_flag.
    + rewrite (T2 Hom). apply Exists_app. left. apply Exists_app. left.
      apply Exists_app. left. apply Exists_app. right. apply Exists_app. left.
      constructor. apply coached_flag.
    + rewrite (T3 Hom). apply Exists_app. left. apply Exists_app. left.
      apply Exists_app. left. apply Exists_app. right. apply Exists_app. right.
      constructor. apply coached_flag.
  - intros Hbad. apply Exists_app. right.
    destruct x6 as [|cg x6]; [now destruct (N6 Hbad)|].
    constructor. now inversion H6.
Qed.

(** When [int(catch.pounds)] raises, so does the validation. *)
Lemma validate_raises draft_text c p b all_buyers w :
  Py.to_int (pounds c) = None ->
  _validate_message_draft draft_text c p b all_buyers w = None.
Proof.
  intros Hint. unfold _validate_message_draft.
  edestruct (guard_run (negb (Py.str_in (price_str p) draft_text)) true)
    as (x1 & w1 & E1 & _).
  rewrite (bind_run _ _ _ _ _ E1). now rewrite Hint.
Qed.

(** A validation that returns has read the pound count. *)
Lemma validate_returns_int draft_text c p b all_buyers w r w' :
  _validate_message_draft draft_text c p b all_buyers w = Some (r, w') ->
  exists n, Py.to_int (pounds c) = Some n.
Proof.
  intros E. destruct (Py.to_int (pounds c)) as [n|] eqn:Hint; [now exists n|].
  now rewrite (validate_raises _ _ _ _ _ _ Hint) in E.
Qed.

(** ** The loop over the buyers *)

Lemma violations_match_lookup c p db n todo : forall i vss k b,
  violations_match c p db n i todo vss ->
  todo !! k = Some b ->
  exists vs, vss !! k = Some vs /\ buyer_violations c p db n (i + k) b vs.
Proof.
  induction todo as [|b0 rest IH]; intros i vss k b Hm Hk; [discriminate|].
  destruct vss as [|vs vss']; [destruct Hm|]. destruct Hm as [Hb Hrest].
  destruct k as [|k]; simpl in Hk.
  - injection Hk as ->. exists vs. rewrite Nat.add_0_r. auto.
  - destruct (IH (S i) vss' k b Hrest Hk) as (vs' & Hl & Hv).
    exists vs'. rewrite Nat.add_succ_r. auto.
Qed.

Lemma expected_drafts_lookup c p all_buyers db n todo : forall i d,
  In d (expected_drafts c p all_buyers db n i todo) ->
  exists k b, todo !! k = Some b /\ In d (outcome_draft c p all_buyers db n (i + k) b).
Proof.
  induction todo as [|b0 rest IH]; intros i d Hd; [destruct Hd|].
  simpl in Hd. apply in_app_or in Hd as [Hd|Hd].
  - exists 0%nat, b0. rewrite Nat.add_0_r. auto.
  - destruct (IH (S i) d Hd) as (k & b & Hk & Hin).
    exists (S k), b. rewrite Nat.add_succ_r. auto.
Qed.

Lemma expected_drafts_intro c p all_buyers db n todo : forall i d k b,
  todo !! k = Some b ->
  In d (outcome_draft c p all_buyers db n (i + k) b) ->
  In d (expected_drafts c p all_buyers db n i todo).
Proof.
  induction todo as [|b0 rest IH]; intros i d k b Hk Hout; [discriminate|].
  simpl. apply in_or_app. destruct k as [|k]; simpl in Hk.
  - injection Hk as ->. left. now rewrite Nat.add_0_r in Hout.
  - right. rewrite Nat.add_succ_r in Hout. now apply (IH (S i) d k b).
Qed.

(** The loop returns whenever [int(catch.pounds)] does: it keeps the drafts
    [expected_drafts] and records, buyer by buyer, the coachings [vss]. *)
Lemma buyers_loop_run c p all_buyers db n :
  Py.to_int (pounds c) = Some n ->
  forall todo i acc w,
  exists vss w',
    buyers_loop c p all_buyers db i todo acc w
    = Some (((fst acc ++ expected_drafts c p all_buyers db n i todo)%list,
             (snd acc ++ concat vss)%list), w')
    /\ violations_match c p db n i todo vss.
Proof.
  intros Hint. induction todo as [|b rest IH]; intros i acc w.
  - exists [], w. simpl. unfold ret. rewrite !app_nil_r. now destruct acc.
  - simpl. unfold outcome_draft, buyer_violations.
    destruct (contacted_recently db (utcnow env i) b) eqn:Hrecent.
    + unfold bind at 1, coach_call at 1.
      destruct (coach_agent _ w) as [cg w1] eqn:Ecg.
      destruct (IH (S i) (fst acc, (snd acc ++ [cg])%list) w1) as (vss & w' & E & Hm).
      exists ([cg] :: vss), w'. rewrite E. simpl.
      rewrite <- app_assoc. split; [reflexivity|].
      simpl. unfold buyer_violations. try rewrite Hrecent. split; [|exact Hm].
      exists cg. split; [reflexivity|].
      replace cg with (fst (coach_agent
        (_create_violation "business_relationship_protection" "high"
           ("Attempted to contact buyer '" ++ buyer_name b
            ++ "' who was already contacted in last 24 hours")
           "Check message history before contacting buyers") w))
        by now rewrite Ecg.
      apply coached_flag.
    + destruct (validate_run (_generate_message_text i c p b) c p b all_buyers n w Hint)
        as (r & w1 & E & Hblocked & Hom & Hbad).
      rewrite (bind_run _ _ _ _ _ E). rewrite Hblocked.
      destruct (rejects (_generate_message_text i c p b) c p b all_buyers n) eqn:Hrej.
      * destruct (IH (S i) (fst acc, (snd acc ++ violations r)%list) w1)
          as (vss & w' & E' & Hm).
        exists (violations r :: vss), w'. rewrite E'. simpl.
        rewrite <- app_assoc. split; [reflexivity|].
        unfold buyer_violations. try rewrite Hrecent. auto.
      * destruct (IH (S i)
                    ((fst acc ++ [draft_message c p b (_generate_message_text i c p b)])%list,
                     snd acc) w1) as (vss & w' & E' & Hm).
        exists ([] :: vss), w'. rewrite E'. simpl.
        rewrite <- app_assoc. split; [reflexivity|].
        unfold buyer_violations. try rewrite Hrecent. split; [|exact Hm].
        unfold rejects in Hrej.
        apply orb_false_iff in Hrej as [Hrej Hbad'].
        apply orb_false_iff in Hrej as [Hom' _].
        split; intros H; congruence.
Qed.

(** When [int(catch.pounds)] raises, the loop returns only if it validated
    nothing, and then it kept no draft. *)
Lemma buyers_loop_raises c p all_buyers db :
  Py.to_int (pounds c) = None ->
  forall todo i acc w acc' w',
    buyers_loop c p all_buyers db i todo acc w = Some (acc', w') ->
    fst acc' = fst acc.
Proof.
  intros Hint. induction todo as [|b rest IH]; intros i acc w acc' w' E; simpl in E.
  - unfold ret in E. now injection E as <- <-.
  - destruct (contacted_recently db (utcnow env i) b).
    + unfold bind at 1, coach_call at 1 in E.
      destruct (coach_agent _ w) as [cg w1].
      now apply IH in E.
    + unfold bind at 1 in E. now rewrite (validate_raises _ _ _ _ _ _ Hint) in E.
Qed.

(** Every run of the loop that returns has handled the buyers one by one. *)
Lemma buyers_loop_handles c p all_buyers db :
  forall todo i acc w acc' w',
    buyers_loop c p all_buyers db i todo acc w = Some (acc', w') ->
    exists dss vss,
      fst acc' = (fst acc ++ concat dss)%list
      /\ snd acc' = (snd acc ++ concat vss)%list
      /\ all_handled c p all_buyers db i todo dss vss.
Proof.
  induction todo as [|b rest IH]; intros i acc w acc' w' E; simpl in E.
  - unfold ret in E. injection E as <- <-. exists [], []. simpl.
    now rewrite !app_nil_r.
  - destruct (contacted_recently db (utcnow env i) b) eqn:Hrecent.
    + unfold bind at 1, coach_call at 1 in E.
      destruct (coach_agent _ w) as [cg w1] eqn:Ecg.
      destruct (IH _ _ _ _ _ E) as (dss & vss & Hd & Hv & Hall).
      exists ([] :: dss), ([cg] :: vss). simpl in Hd, Hv |- *.
      split; [exact Hd|]. split; [now rewrite Hv, <- app_assoc|].
      split; [|exact Hall]. unfold handled. rewrite Hrecent.
      split; [reflexivity|]. exists cg. split; [reflexivity|].
      replace cg with (fst (coach_agent
        (_create_violation "business_relationship_protection" "high"
           ("Attempted to contact buyer '" ++ buyer_name b
            ++ "' who was already contacted in last 24 hours")
           "Check message history before contacting buyers") w))
        by now rewrite Ecg.
      apply coached_flag.
    + unfold bind at 1 in E.
      destruct (_validate_message_draft (_generate_message_text i c p b) c p b all_buyers w)
        as [[r w1]|] eqn:Ev; [|discriminate E].
      destruct (validate_returns_int _ _ _ _ _ _ _ _ Ev) as (n & Hint).
      destruct (validate_run (_generate_message_text i c p b) c p b all_buyers n w Hint)
        as (r0 & w0 & E0 & Hblocked & Hom & Hfa).
      rewrite Ev in E0. injection E0 as <- <-.
      rewrite Hblocked in E.
      destruct (rejects (_generate_message_text i c p b) c p b all_buyers n) eqn:Hrej.
      * destruct (IH _ _ _ _ _ E) as (dss & vss & Hd & Hv & Hall).
        exists ([] :: dss), (violations r :: vss). simpl in Hd, Hv |- *.
        split; [exact Hd|]. split; [now rewrite Hv, <- app_assoc|].
        split; [|exact Hall]. unfold handled. rewrite Hrecent.
        exists n. split; [exact Hint|]. simpl. rewrite Hrej. auto.
      * destruct (IH _ _ _ _ _ E) as (dss & vss & Hd & Hv & Hall).
        exists ([draft_message c p b (_generate_message_text i c p b)] :: dss), ([] :: vss).
        simpl in Hd, Hv |- *.
        split; [now rewrite Hd, <- app_assoc|]. split; [exact Hv|].
        split; [|exact Hall]. unfold handled. rewrite Hrecent.
        exists n. split; [exact Hint|]. simpl. rewrite Hrej. auto.
Qed.

Lemma all_handled_lookup c p all_buyers db todo : forall i dss vss,
  all_handled c p all_buyers db i todo dss vss ->
  length dss = length todo
  /\ length vss = length todo
  /\ forall (k : nat) b, todo !! k = Some b ->
     exists ds vs,
       dss !! k = Some ds /\ vss !! k = Some vs
       /\ handled c p all_buyers db (i + k) b ds vs.
Proof.
  induction todo as [|b0 rest IH]; intros i dss vss Hall.
  - destruct dss, vss; try destruct Hall. repeat split. intros k b Hk. discriminate Hk.
  - destruct dss as [|ds dss]; [destruct Hall|].
    destruct vss as [|vs vss]; [destruct Hall|].
    destruct Hall as [Hb Hrest].
    destruct (IH (S i) dss vss Hrest) as (Hl1 & Hl2 & Hk).
    split; [simpl; now rewrite Hl1|]. split; [simpl; now rewrite Hl2|].
    intros [|k] b Hb0; simpl in Hb0.
    + injection Hb0 as <-. exists ds, vs. rewrite Nat.add_0_r. auto.
    + destruct (Hk k b Hb0) as (ds' & vs' & H1 & H2 & H3).
      exists ds', vs'. rewrite Nat.add_succ_r. auto.
Qed.

(** Every call with a price that returns: the batch is not blocked and its
    drafts and coachings are those of the buyers one by one. *)
Lemma generate_handles c p buyers db w r w' :
  generate_buyer_messages c (Some p) buyers db w = Some (r, w') ->
  b_blocked r = false
  /\ exists dss vss,
       drafts r = concat dss /\ b_violations r = concat vss
       /\ length dss = length buyers /\ length vss = length buyers
       /\ forall (k : nat) b, buyers !! k = Some b ->
          exists ds vs,
            dss !! k = Some ds /\ vss !! k = Some vs
            /\ handled c p buyers db k b ds vs.
Proof.
  intros E. unfold generate_buyer_messages, bind at 1 in E.
  destruct (buyers_loop c p buyers db 0 buyers ([], []) w) as [[acc w1]|] eqn:El;
    [|discriminate E].
  unfold ret in E. injection E as <- <-. simpl.
  split; [reflexivity|].
  destruct (buyers_loop_handles _ _ _ _ _ _ _ _ _ _ El) as (dss & vss & Hd & Hv & Hall).
  destruct (all_handled_lookup _ _ _ _ _ _ _ _ Hall) as (Hl1 & Hl2 & Hk).
  exists dss, vss. simpl in Hd, Hv. auto.
Qed.

(** The loop returns when every buyer was contacted recently, whatever the
    pound value. *)
Lemma buyers_loop_all_recent c p all_buyers db : forall todo i acc w,
  (forall (k : nat) b, todo !! k = Some b ->
     contacted_recently db (utcnow env (i + k)) b = true) ->
  exists acc' w', buyers_loop c p all_buyers db i todo acc w = Some (acc', w').
Proof.
  induction todo as [|b rest IH]; intros i acc w Hall; simpl.
  - now exists acc, w.
  - pose proof (Hall 0%nat b eq_refl) as H0. rewrite Nat.add_0_r in H0. rewrite H0.
    unfold bind at 1, coach_call at 1. destruct (coach_agent _ w) as [cg w1].
    apply IH. intros k b' Hk. specialize (Hall (S k) b' Hk).
    now rewrite Nat.add_succ_r in Hall.
Qed.

(** [generate_buyer_messages] with a price. *)
Lemma generate_run c p buyers db n w :
  Py.to_int (pounds c) = Some n ->
  exists r w' vss,
    generate_buyer_messages c (Some p) buyers db w = Some (r, w')
    /\ b_blocked r = false
    /\ drafts r = expected_drafts c p buyers db n 0 buyers
    /\ b_violations r = concat vss
    /\ violations_match c p db n 0 buyers vss.
Proof.
  intros Hint. unfold generate_buyer_messages.
  destruct (buyers_loop_run c p buyers db n Hint buyers 0%nat ([], []) w)
    as (vss & w' & E & Hm).
  rewrite (bind_run _ _ _ _ _ E). unfold ret.
  eexists _, w', vss. split; [reflexivity|]. simpl. auto.
Qed.

(** ** What a call of [coach_agent] does to the coach *)

Lemma coach_agent_profiles v w :
  agent_profiles (coach (snd (coach_agent v w)))
  = <[v_agent_id v :=
        _update_profile (now env (S (S (clock_reads w)))) (profile_before w v) v]>
      (agent_profiles (coach w)).
Proof.
  unfold coach_agent, _get_or_create_profile, profile_before.
  destruct (agent_profiles (coach w) !! v_agent_id v) as [profile|]; simpl.
  - reflexivity.
  - apply insert_insert_eq.
Qed.

Lemma coach_agent_history v w :
  exists e,
    coaching_history (coach (snd (coach_agent v w)))
    = (coaching_history (coach w) ++ [e])%list
    /\ ev_guardrail e = guardrail v
    /\ ev_severity e = coaching_level (fst (coach_agent v w))
    /\ violation_description e = what_happened v
    /\ coaching_delivered e = coaching (fst (coach_agent v w)).
Proof.
  unfold coach_agent, _get_or_create_profile.
  destruct (agent_profiles (coach w) !! v_agent_id v) as [profile|]; simpl;
    eexists; repeat split.
Qed.

Lemma coach_agent_level v w :
  coaching_level (fst (coach_agent v w))
  = _determine_coaching_depth (profile_before w v) (severity v).
Proof.
  unfold coach_agent, _get_or_create_profile, profile_before.
  now destruct (agent_profiles (coach w) !! v_agent_id v).
Qed.

Lemma coach_agent_blocked v w :
  c_blocked (fst (coach_agent v w))
  = CoachingLevel_eqb (coaching_level (fst (coach_agent v w))) CRITICAL.
Proof.
  unfold coach_agent, _get_or_create_profile.
  now destruct (agent_profiles (coach w) !! v_agent_id v).
Qed.

Lemma coach_agent_effectiveness v w :
  effectiveness_predicted (fst (coach_agent v w))
  = _predict_effectiveness
      (_update_profile (now env (S (S (clock_reads w)))) (profile_before w v) v) v.
Proof.
  unfold coach_agent, _get_or_create_profile, profile_before.
  now destruct (agent_profiles (coach w) !! v_agent_id v).
Qed.

(** ** Floats: what the comparisons of the code imply *)

Lemma ltb_leb x y : PrimFloat.ltb x y = true -> PrimFloat.leb x y = true.
Proof.
  rewrite FloatAxioms.ltb_spec, FloatAxioms.leb_spec. unfold SFltb, SFleb.
  now destruct (SFcompare (Prim2SF x) (Prim2SF y)) as [[]|].
Qed.

(** The clamp [min(1.0, max(0.0, x))] lands in [0,1], whatever [x]. *)
Lemma clamp_range x :
  PrimFloat.leb 0%float (Py.min 1%float (Py.max 0%float x)) = true
  /\ PrimFloat.leb (Py.min 1%float (Py.max 0%float x)) 1%float = true.
Proof.
  unfold Py.min, Py.max, Py.gt.
  destruct (PrimFloat.ltb 0%float x) eqn:E0.
  - destruct (PrimFloat.ltb x 1%float) eqn:E1.
    + split; now apply ltb_leb.
    + split; reflexivity.
  - split; reflexivity.
Qed.

(** More than 10000 pounds are not [<= 0] pounds. *)
Lemma gt_10000_not_le_0 x :
  Py.gt x 10000%float = true -> PrimFloat.leb x 0%float = false.
Proof.
  unfold Py.gt. rewrite FloatAxioms.ltb_spec, FloatAxioms.leb_spec.
  replace (Prim2SF 10000%float) with (S754_finite false 5497558138880000 (-39))
    by (vm_compute; reflexivity).
  replace (Prim2SF 0%float) with (S754_zero false) by (vm_compute; reflexivity).
  unfold SFltb, SFleb.
  destruct (Prim2SF x) as [[]|[]| |[] m e]; simpl; congruence.
Qed.

(** ** Every figure the pattern finds is a float literal *)

#[local] Arguments Ascii.eqb : simpl never.
#[local] Arguments N.eqb : simpl never.
#[local] Arguments Py.is_decimal : simpl never.

Lemma append_cons d (a b : string) : String d a ++ b = String d (a ++ b).
Proof. reflexivity. Qed.

Lemma string_app_assoc (a b c : string) : (a ++ b) ++ c = a ++ b ++ c.
Proof.
  induction a as [|d a IH]; [reflexivity|].
  now rewrite !append_cons, IH.
Qed.

(** The dollar sign, the comma and the dot are no digits. *)
Lemma ascii_not_digit c :
  (c < 128)%N -> Py.ascii_digit c = None -> Py.is_decimal (decimal env) c = false.
Proof.
  intros Hc Hn. unfold Py.is_decimal. now rewrite (decimal_ascii env c Hc), Hn.
Qed.

Lemma dollar_not_digit : Py.is_decimal (decimal env) 36 = false.
Proof. now apply ascii_not_digit. Qed.

Lemma comma_not_digit : Py.is_decimal (decimal env) 44 = false.
Proof. now apply ascii_not_digit. Qed.

Lemma dot_not_digit : Py.is_decimal (decimal env) 46 = false.
Proof. now apply ascii_not_digit. Qed.

Lemma span_digits_spec s : forall ds r,
  Py.span_digits (decimal env) s = (ds, r) ->
  s = (ds ++ r)%list /\ all_digits ds = true /\ starts_with_digit r = false.
Proof.
  induction s as [|c s IH]; intros ds r E; simpl in E.
  - now injection E as <- <-.
  - destruct (Py.is_decimal (decimal env) c) eqn:Hc.
    + destruct (Py.span_digits (decimal env) s) as [ds' r'].
      injection E as <- <-. destruct (IH ds' r' eq_refl) as (Hs & Hd & Hr).
      simpl. rewrite Hc, Hd. now rewrite <- Hs.
    + injection E as <- <-. simpl. now rewrite Hc.
Qed.

Lemma span_digits_app ds r :
  all_digits ds = true -> starts_with_digit r = false ->
  Py.span_digits (decimal env) (ds ++ r) = (ds, r).
Proof.
  intros Hd Hr. induction ds as [|c ds IH]; simpl in *.
  - destruct r as [|c r]; simpl in *; [reflexivity|now rewrite Hr].
  - apply andb_true_iff in Hd as [Hc Hd]. now rewrite Hc, (IH Hd).
Qed.

Lemma all_digits_app a b :
  all_digits (a ++ b) = all_digits a && all_digits b.
Proof.
  induction a as [|c a IH]; simpl; [reflexivity|].
  now rewrite IH, andb_assoc.
Qed.

Lemma digit_not_comma c :
  Py.is_decimal (decimal env) c = true -> (44 =? c)%N = false.
Proof.
  intros Hc. destruct (N.eqb_spec 44 c) as [<-|]; [|reflexivity].
  rewrite comma_not_digit in Hc. discriminate Hc.
Qed.

Lemma remove_char_app c a b :
  Py.remove_char c (a ++ b) = (Py.remove_char c a ++ Py.remove_char c b)%list.
Proof.
  induction a as [|d a IH]; simpl; [reflexivity|].
  destruct (c =? d)%N; simpl; now rewrite IH.
Qed.

Lemma remove_comma_digits ds :
  all_digits ds = true -> Py.remove_char 44 ds = ds.
Proof.
  induction ds as [|c ds IH]; simpl; [reflexivity|].
  intros H. apply andb_true_iff in H as [Hc Hd].
  now rewrite (digit_not_comma c Hc), (IH Hd).
Qed.

(** What [comma_groups] and [cents] take is as the pattern says, and as
    much as can be taken. *)
Lemma comma_groups_spec : forall (n : nat) s,
  (length s <= n)%nat ->
  forall gs r, Re.comma_groups (decimal env) s = (gs, r) ->
  s = (gs ++ r)%list /\ groups gs /\ starts_with_group r = false.
Proof.
  induction n as [|n IH]; intros s Hlen gs r E.
  - destruct s; [|simpl in Hlen; lia]. simpl in E. injection E as <- <-.
    repeat split. constructor.
  - destruct s as [|c0 [|a [|b [|c rest]]]]; simpl in E;
      try (injection E as <- <-; repeat split; constructor).
    destruct ((c0 =? 44)%N && Py.is_decimal (decimal env) a
              && Py.is_decimal (decimal env) b && Py.is_decimal (decimal env) c)%bool
      eqn:Hg.
    + destruct (Re.comma_groups (decimal env) rest) as [gs' r'] eqn:E'.
      injection E as <- <-.
      apply andb_true_iff in Hg as [Hg Hc]. apply andb_true_iff in Hg as [Hg Hb].
      apply andb_true_iff in Hg as [H0 Ha].
      apply N.eqb_eq in H0 as ->.
      destruct (IH rest ltac:(simpl in Hlen; lia) gs' r' E') as (Hs & Hgs & Hr).
      split; [simpl; now rewrite <- Hs|]. split; [now constructor|exact Hr].
    + injection E as <- <-. split; [reflexivity|]. split; [constructor|exact Hg].
Qed.

Lemma cents_spec s cs r :
  Re.cents (decimal env) s = (cs, r) ->
  s = (cs ++ r)%list /\ cents_part cs /\ (cs = [] -> starts_with_cents r = false).
Proof.
  unfold Re.cents. intros E.
  destruct s as [|c0 [|a [|b rest]]];
    try (injection E as <- <-; repeat split; now left).
  destruct ((c0 =? 46)%N && Py.is_decimal (decimal env) a
            && Py.is_decimal (decimal env) b)%bool eqn:Hc.
  - injection E as <- <-.
    apply andb_true_iff in Hc as [Hc Hb]. apply andb_true_iff in Hc as [H0 Ha].
    apply N.eqb_eq in H0 as ->.
    split; [reflexivity|]. split; [right; now exists a, b|discriminate].
  - injection E as <- <-. split; [reflexivity|]. split; [now left|]. intros _. exact Hc.
Qed.

Lemma groups_digits gs : groups gs -> all_digits (Py.remove_char 44 gs) = true.
Proof.
  induction 1 as [|a b c gs Ha Hb Hc _ IH]; [reflexivity|].
  simpl.
  rewrite (digit_not_comma a Ha), (digit_not_comma b Hb), (digit_not_comma c Hc).
  simpl. now rewrite Ha, Hb, Hc.
Qed.

(** The parts of a match. *)
Lemma amount_parts s tok :
  Re.amount (decimal env) s = Some tok ->
  exists ds gs cs r,
    tok = (ds ++ gs ++ cs)%list /\ s = (tok ++ r)%list
    /\ ds <> [] /\ all_digits ds = true /\ groups gs /\ cents_part cs
    /\ starts_with_digit (gs ++ cs ++ r)%list = false
    /\ starts_with_group (cs ++ r)%list = false
    /\ (cs = [] -> starts_with_cents r = false).
Proof.
  unfold Re.amount. intros E.
  destruct (Py.span_digits (decimal env) s) as [ds r1] eqn:Es.
  destruct (span_digits_spec s ds r1 Es) as (Hs & Hds & Hr1).
  destruct ds as [|d ds]; [discriminate|].
  destruct (Re.comma_groups (decimal env) r1) as [gs r2] eqn:Eg.
  destruct (Re.cents (decimal env) r2) as [cs r3] eqn:Ec.
  injection E as <-.
  destruct (comma_groups_spec _ r1 (le_n _) gs r2 Eg) as (Hg & Hgs & Hr2).
  destruct (cents_spec r2 cs r3 Ec) as (Hc & Hcs & Hr3).
  exists (d :: ds), gs, cs, r3.
  split; [reflexivity|].
  split; [rewrite Hs, Hg, Hc; simpl; now rewrite <- !app_assoc|].
  split; [discriminate|]. split; [exact Hds|]. split; [exact Hgs|]. split; [exact Hcs|].
  split; [now rewrite <- Hc, <- Hg|]. split; [now rewrite <- Hc|exact Hr3].
Qed.

Lemma figure_parses ds gs cs :
  ds <> [] -> all_digits ds = true -> groups gs -> cents_part cs ->
  exists val, total_value (ds ++ gs ++ cs) = Some val.
Proof.
  intros Hne Hds Hgs Hcs. unfold total_value.
  rewrite !remove_char_app, (remove_comma_digits _ Hds).
  pose proof (groups_digits gs Hgs) as Hg.
  set (D := (ds ++ Py.remove_char 44 gs)%list).
  assert (HD : all_digits D = true) by (unfold D; now rewrite all_digits_app, Hds, Hg).
  assert (HD' : exists d' D', D = d' :: D').
  { unfold D. destruct ds as [|d ds]; [contradiction|]. now eexists _, _. }
  destruct HD' as (d' & D' & HD').
  replace (ds ++ Py.remove_char 44 gs ++ Py.remove_char 44 cs)%list
    with (D ++ Py.remove_char 44 cs)%list by (unfold D; now rewrite <- app_assoc).
  destruct Hcs as [->|(a & b & -> & Ha & Hb)].
  - unfold Py.to_float. simpl Py.remove_char.
    rewrite (span_digits_app D [] HD eq_refl). rewrite HD'. eauto.
  - unfold Py.to_float.
    assert (Hrm : Py.remove_char 44 [46%N; a; b] = [46%N; a; b]).
    { simpl. change (44 =? 46)%N with false.
      now rewrite (digit_not_comma a Ha), (digit_not_comma b Hb). }
    rewrite Hrm.
    assert (Hdot : starts_with_digit [46%N; a; b] = false) by apply dot_not_digit.
    rewrite (span_digits_app D [46%N; a; b] HD Hdot).
    rewrite HD'. rewrite N.eqb_refl. simpl. rewrite Ha, Hb. eauto.
Qed.

Lemma amount_parses s tok :
  Re.amount (decimal env) s = Some tok -> exists val, total_value tok = Some val.
Proof.
  intros E.
  destruct (amount_parts s tok E) as (ds & gs & cs & r & -> & _ & Hne & Hds & Hgs & Hcs & _).
  now apply figure_parses.
Qed.

Lemma findall_amount s : forall k tok,
  In tok (Re.findall_from (decimal env) k s) ->
  exists s', Re.amount (decimal env) s' = Some tok.
Proof.
  induction s as [|c s IH]; intros k tok Hin; simpl in Hin; [destruct Hin|].
  destruct k as [|k]; [|now apply (IH k)].
  destruct (c =? 36)%N; [|now apply (IH 0%nat)].
  destruct (Re.amount (decimal env) s) as [tok'|] eqn:Ea; [|now apply (IH 0%nat)].
  destruct Hin as [<-|Hin]; [now exists s|now apply (IH (length tok'))].
Qed.

(** The [ValueError] branch of guardrail 6 is never taken. *)
Lemma findall_parses draft_text tok :
  In tok (potential_totals draft_text) ->
  exists val, total_value tok = Some val.
Proof.
  intros Hin. destruct (findall_amount _ _ _ Hin) as (s' & Ea).
  now apply (amount_parses s').
Qed.

(** ** The figures of a text *)

Lemma digits_are_figures ds :
  all_digits ds = true -> forallb figure_char ds = true.
Proof.
  induction ds as [|c ds IH]; simpl; [reflexivity|].
  intros H. apply andb_true_iff in H as [Hc Hd].
  unfold figure_char at 1. now rewrite Hc, (IH Hd).
Qed.

Lemma groups_are_figures gs : groups gs -> forallb figure_char gs = true.
Proof.
  induction 1 as [|a b c gs Ha Hb Hc _ IH]; [reflexivity|].
  simpl. unfold figure_char at 1 2 3 4.
  now rewrite Ha, Hb, Hc, IH, N.eqb_refl, !orb_true_r.
Qed.

Lemma cents_are_figures cs : cents_part cs -> forallb figure_char cs = true.
Proof.
  intros [->|(a & b & -> & Ha & Hb)]; [reflexivity|].
  simpl. unfold figure_char. now rewrite Ha, Hb, N.eqb_refl, !orb_true_r.
Qed.

(** A match begins with a digit and is made of digits, commas and dots. *)
Lemma amount_chars s tok :
  Re.amount (decimal env) s = Some tok ->
  forallb figure_char tok = true /\ starts_with_digit tok = true.
Proof.
  intros E.
  destruct (amount_parts s tok E)
    as (ds & gs & cs & r & -> & _ & Hne & Hds & Hgs & Hcs & _).
  split.
  - rewrite !forallb_app.
    now rewrite (digits_are_figures _ Hds), (groups_are_figures _ Hgs),
      (cents_are_figures _ Hcs).
  - destruct ds as [|d ds]; [contradiction|].
    simpl in Hds |- *. now apply andb_true_iff in Hds as [-> _].
Qed.

Lemma figures_before_dollar t : forall a b r,
  forallb figure_char t = true ->
  (a ++ 36%N :: b = t ++ r)%list ->
  (length t <= length a)%nat.
Proof.
  induction t as [|c t IH]; intros a b r Hf E; [simpl; lia|].
  simpl in Hf. apply andb_true_iff in Hf as [Hc Hf].
  destruct a as [|c' a].
  - simpl in E. injection E as <- _. unfold figure_char in Hc.
    rewrite dollar_not_digit in Hc. discriminate Hc.
  - simpl in E. injection E as _ E.
    simpl. apply le_n_S. now apply (IH a b r).
Qed.

Lemma findall_sound s : forall k tok,
  In tok (Re.findall_from (decimal env) k s) ->
  exists pre s', s = (pre ++ 36%N :: s')%list /\ Re.amount (decimal env) s' = Some tok.
Proof.
  induction s as [|c s IH]; intros k tok Hin; simpl in Hin; [destruct Hin|].
  assert (Hlater : forall k', In tok (Re.findall_from (decimal env) k' s) ->
            exists pre s', c :: s = (pre ++ 36%N :: s')%list
                           /\ Re.amount (decimal env) s' = Some tok).
  { intros k' H. destruct (IH k' tok H) as (pre & s' & -> & Ha).
    now exists (c :: pre), s'. }
  destruct k as [|k]; [|now apply (Hlater k)].
  destruct (N.eqb_spec c 36) as [->|_]; [|now apply (Hlater 0%nat)].
  destruct (Re.amount (decimal env) s) as [tok'|] eqn:Ea; [|now apply (Hlater 0%nat)].
  destruct Hin as [<-|Hin]; [|now apply (Hlater (length tok'))].
  now exists [], s.
Qed.

Lemma findall_complete s tok :
  Re.amount (decimal env) s = Some tok ->
  forall pre k, (k <= length pre)%nat ->
  In tok (Re.findall_from (decimal env) k (pre ++ 36%N :: s)).
Proof.
  intros Ha. induction pre as [|c pre IH]; intros k Hk.
  - simpl in Hk. assert (k = 0%nat) as -> by lia. simpl. rewrite Ha. now left.
  - simpl. destruct k as [|k].
    + destruct (c =? 36)%N; [|apply IH; lia].
      destruct (Re.amount (decimal env) (pre ++ 36%N :: s)) as [tok'|] eqn:Ea';
        [|apply IH; lia].
      right. apply IH.
      destruct (amount_parts _ _ Ea') as (_ & _ & _ & r & _ & Hr & _).
      destruct (amount_chars _ _ Ea') as [Hf _].
      now apply (figures_before_dollar tok' pre s r).
    + apply IH. simpl in Hk. lia.
Qed.

(** The scanner takes the parts as the pattern reads. *)
Lemma comma_groups_app gs : groups gs -> forall r,
  starts_with_group r = false ->
  Re.comma_groups (decimal env) (gs ++ r) = (gs, r).
Proof.
  induction 1 as [|a b c gs Ha Hb Hc _ IH]; intros r Hr.
  - simpl. destruct r as [|c0 [|a [|b [|c r]]]]; try reflexivity.
    simpl in Hr |- *. now rewrite Hr.
  - simpl. rewrite Ha, Hb, Hc. now rewrite (IH r Hr).
Qed.

Lemma cents_app cs r :
  cents_part cs -> (cs = [] -> starts_with_cents r = false) ->
  Re.cents (decimal env) (cs ++ r) = (cs, r).
Proof.
  intros [->|(a & b & -> & Ha & Hb)] Hr.
  - simpl. unfold Re.cents. destruct r as [|c0 [|a [|b r]]]; try reflexivity.
    simpl in Hr. now rewrite (Hr eq_refl).
  - simpl. now rewrite Ha, Hb.
Qed.

Lemma amount_figure s tok :
  Re.amount (decimal env) s = Some tok
  <-> exists rest, s = (tok ++ rest)%list /\ figure tok rest.
Proof.
  split.
  - intros E.
    destruct (amount_parts s tok E)
      as (ds & gs & cs & r & Ht & Hs & Hne & Hds & Hgs & Hcs & H1 & H2 & H3).
    exists r. split; [exact Hs|]. now exists ds, gs, cs.
  - intros (rest & -> & ds & gs & cs & -> & Hne & Hds & Hgs & Hcs & H1 & H2 & H3).
    unfold Re.amount. rewrite <- !app_assoc.
    rewrite (span_digits_app ds _ Hds H1).
    destruct ds as [|d ds]; [contradiction|].
    rewrite (comma_groups_app gs Hgs _ H2), (cents_app cs rest Hcs H3).
    reflexivity.
Qed.

(** The figures of a text: the matches of the pattern behind its dollar
    signs. *)
Lemma figure_found draft_text tok :
  In tok (potential_totals draft_text)
  <-> exists pre rest,
        Py.codepoints draft_text = (pre ++ 36%N :: tok ++ rest)%list
        /\ figure tok rest.
Proof.
  unfold potential_totals, Re.findall. split.
  - intros Hin. destruct (findall_sound _ _ _ Hin) as (pre & s & Hs & Ha).
    apply amount_figure in Ha as (rest & -> & Hfig).
    now exists pre, rest.
  - intros (pre & rest & -> & Hfig).
    apply (findall_complete (tok ++ rest) tok); [|lia].
    apply amount_figure. now exists rest.
Qed.

(** ** Where the escalation phrase shows *)

Lemma prefix_app_l x : forall a b,
  String.prefix x a = true -> String.prefix x (a ++ b) = true.
Proof.
  induction x as [|c x IH]; intros a b H; [now destruct (a ++ b)|].
  destruct a as [|d a]; [discriminate H|].
  rewrite append_cons. simpl in H |- *.
  destruct (ascii_dec c d); [now apply IH|discriminate H].
Qed.

Lemma prefix_refl x : String.prefix x x = true.
Proof.
  induction x as [|c x IH]; [reflexivity|]. simpl.
  now destruct (ascii_dec c c).
Qed.

Lemma str_in_unfold x c a :
  Py.str_in x (String c a) = String.prefix x (String c a) || Py.str_in x a.
Proof. reflexivity. Qed.

Lemma str_in_cons x c a : Py.str_in x a = true -> Py.str_in x (String c a) = true.
Proof. intros H. rewrite str_in_unfold, H. apply orb_true_r. Qed.

Lemma str_in_app_r x a b : Py.str_in x b = true -> Py.str_in x (a ++ b) = true.
Proof.
  intros H. induction a as [|c a IH]; [exact H|].
  rewrite append_cons. now apply str_in_cons.
Qed.

Lemma str_in_app_l x : forall a b,
  Py.str_in x a = true -> Py.str_in x (a ++ b) = true.
Proof.
  induction a as [|c a IH]; intros b H.
  - destruct x; [now destruct b|discriminate H].
  - rewrite str_in_unfold in H. apply orb_true_iff in H as [H|H].
    + rewrite append_cons, str_in_unfold, <- append_cons.
      now rewrite (prefix_app_l _ _ _ H).
    + rewrite append_cons. apply str_in_cons. now apply IH.
Qed.

Lemma str_in_refl x : Py.str_in x x = true.
Proof. destruct x; [reflexivity|]. now rewrite str_in_unfold, prefix_refl. Qed.

Lemma append_empty (a b : string) : a ++ b = EmptyString -> a = EmptyString.
Proof. now destruct a. Qed.

(** With three or more earlier violations of the guardrail on the profile,
    the pattern analysis is the strong warning, and the coaching text ends
    its last section with the escalation phrase. *)
Lemma _generate_coaching_escalates v analysis profile approach :
  3 <= history_get (violation_history profile) (guardrail v) ->
  Py.str_in escalation_phrase (_generate_coaching v analysis profile approach) = true.
Proof.
  intros Hcount. unfold _generate_coaching, _analyze_pattern.
  destruct (Z.eqb_spec (history_get (violation_history profile) (guardrail v)) 1); [lia|].
  destruct (Z.eqb_spec (history_get (violation_history profile) (guardrail v)) 2); [lia|].
  destruct (Z.leb_spec 3 (history_get (violation_history profile) (guardrail v))); [|lia].
  match goal with
  | |- context [match ?pat with EmptyString => _ | String _ _ => _ end] =>
      destruct pat as [|c0 rest] eqn:Epat
  end.
  - apply append_empty in Epat. apply append_empty in Epat. discriminate Epat.
  - rewrite <- Epat. cbn [app Py.join].
    repeat apply str_in_app_r. apply str_in_refl.
Qed.

(** So [coach_agent] states the escalation from the call on that finds the
    count at 3, which is the fourth of a fresh agent. *)
Lemma coach_agent_escalates v w :
  3 <= prior_count w v ->
  Py.str_in escalation_phrase (coaching (fst (coach_agent v w))) = true.
Proof.
  unfold prior_count, profile_before, coach_agent, _get_or_create_profile.
  destruct (agent_profiles (coach w) !! v_agent_id v) as [profile|]; simpl;
    intros Hcount.
  - match goal with
    | |- context [match ?peer with EmptyString => _ | String _ _ => _ end] =>
        destruct peer
    end.
    + now apply _generate_coaching_escalates.
    + apply str_in_app_l. now apply _generate_coaching_escalates.
  - unfold history_get in Hcount. rewrite lookup_empty in Hcount. simpl in Hcount. lia.
Qed.

(** ** The coaching engine: the claims *)

(** C3. The coaching level [coach_agent] returns is CRITICAL, HIGH, MEDIUM or
    LOW when the severity of the violation is "critical", "high", "medium" or
    "low"; it is MEDIUM for any other severity; and the result is blocked if
    and only if the level is CRITICAL. *)
Theorem coach_agent_depth v w :
  (severity v = "critical" -> coaching_level (fst (coach_agent v w)) = CRITICAL)
  /\ (severity v = "high" -> coaching_level (fst (coach_agent v w)) = HIGH)
  /\ (severity v = "medium" -> coaching_level (fst (coach_agent v w)) = MEDIUM)
  /\ (severity v = "low" -> coaching_level (fst (coach_agent v w)) = LOW)
  /\ (severity v <> "critical" -> severity v <> "high" ->
      severity v <> "medium" -> severity v <> "low" ->
      coaching_level (fst (coach_agent v w)) = MEDIUM)
  /\ (c_blocked (fst (coach_agent v w)) = true
      <-> coaching_level (fst (coach_agent v w)) = CRITICAL).
Proof.
  rewrite coach_agent_blocked, coach_agent_level.
  unfold _determine_coaching_depth.
  repeat split.
  - now intros ->.
  - now intros ->.
  - now intros ->.
  - now intros ->.
  - intros H1 H2 H3 H4.
    destruct (String.eqb_spec (severity v) "critical"); [contradiction|].
    destruct (String.eqb_spec (severity v) "high"); [contradiction|].
    destruct (String.eqb_spec (severity v) "medium"); [contradiction|].
    now destruct (String.eqb_spec (severity v) "low").
  - now repeat destruct (String.eqb _ _).
  - now intros ->.
Qed.

(** C5, as amended.  The effectiveness [coach_agent] predicts is the formula
    of the specification taken at the receptiveness and the learning level of
    the agent's profile and at the count of the violation's guardrail that
    includes this call (the count before the call, plus one): the factor 0.6
    applies from the prior count 3 on.  The value lies in [0,1]. *)
Theorem coach_agent_effectiveness_after_increment v w :
  effectiveness_predicted (fst (coach_agent v w))
  = effectiveness_formula (coaching_receptiveness (profile_before w v))
      (learning_level (profile_before w v)) (prior_count w v + 1)
  /\ PrimFloat.leb 0%float (effectiveness_predicted (fst (coach_agent v w))) = true
  /\ PrimFloat.leb (effectiveness_predicted (fst (coach_agent v w))) 1%float = true.
Proof.
  rewrite coach_agent_effectiveness.
  assert (E : _predict_effectiveness
                (_update_profile (now env (S (S (clock_reads w)))) (profile_before w v) v) v
              = effectiveness_formula (coaching_receptiveness (profile_before w v))
                  (learning_level (profile_before w v)) (prior_count w v + 1)).
  { unfold _predict_effectiveness, effectiveness_formula, prior_count, _update_profile.
    simpl. unfold history_get at 1. now rewrite lookup_insert_eq. }
  rewrite E. split; [reflexivity|].
  unfold effectiveness_formula. apply clamp_range.
Qed.

(** C6. The first call of [coach_agent] for an agent id creates a profile
    with the learning level intermediate, the receptiveness 1.0 and an empty
    violation history; every call adds exactly 1 to the profile's count of
    the triggering guardrail, leaves its other counts as they are and sets
    the last-coaching time to the reading of the clock; no call removes a
    profile or touches the profile of another agent. *)
Theorem coach_agent_updates_profile v w :
  (agent_profiles (coach w) !! v_agent_id v = None ->
   let created := fst (_get_or_create_profile (v_agent_id v) (v_agent_type v) (coach w)) in
   learning_level created = "intermediate"
   /\ coaching_receptiveness created = 1%float
   /\ violation_history created = ∅
   /\ exists stored,
        agent_profiles (coach (snd (coach_agent v w))) !! v_agent_id v = Some stored
        /\ learning_level stored = "intermediate"
        /\ coaching_receptiveness stored = 1%float
        /\ violation_history stored = {[ guardrail v := 1 ]})
  /\ (exists stored,
        agent_profiles (coach (snd (coach_agent v w))) !! v_agent_id v = Some stored
        /\ history_get (violation_history stored) (guardrail v) = prior_count w v + 1
        /\ (forall g, g <> guardrail v ->
              violation_history stored !! g
              = violation_history (profile_before w v) !! g)
        /\ last_coaching stored = Some (now env (S (S (clock_reads w)))))
  /\ prior_count (snd (coach_agent v w)) v = prior_count w v + 1
  /\ (forall id, is_Some (agent_profiles (coach w) !! id) ->
        is_Some (agent_profiles (coach (snd (coach_agent v w))) !! id))
  /\ (forall id, id <> v_agent_id v ->
        agent_profiles (coach (snd (coach_agent v w))) !! id
        = agent_profiles (coach w) !! id).
Proof.
  rewrite coach_agent_profiles.
  split; [|split; [|split; [|split]]].
  - intros Hnew. unfold _get_or_create_profile. rewrite Hnew. simpl.
    repeat split. eexists. rewrite lookup_insert_eq. split; [reflexivity|].
    unfold profile_before. rewrite Hnew. simpl. repeat split.
  - eexists. rewrite lookup_insert_eq. split; [reflexivity|]. simpl.
    unfold history_get at 1. rewrite lookup_insert_eq. repeat split.
    intros g Hg. now rewrite lookup_insert_ne.
  - unfold prior_count at 1, profile_before at 1.
    rewrite coach_agent_profiles, lookup_insert_eq. simpl.
    unfold history_get at 1. now rewrite lookup_insert_eq.
  - intros id Hid. destruct (decide (v_agent_id v = id)) as [<-|Hne].
    + rewrite lookup_insert_eq. eauto.
    + now rewrite lookup_insert_ne.
  - intros id Hid. now rewrite lookup_insert_ne.
Qed.

(** C10. [record_coaching_outcome] changes nothing but the history, keeps
    its length, and leaves every event as it is except for the two outcome
    fields of an event with the id; the first event with the id gets the
    outcome; the description and the coaching text of every event stay; and
    with no event of that id the coach is the same before and after. *)
Theorem record_coaching_outcome_frame coaching_id improved' timeline c :
  agent_profiles (record_coaching_outcome coaching_id improved' timeline c)
  = agent_profiles c
  /\ peer_lessons (record_coaching_outcome coaching_id improved' timeline c)
     = peer_lessons c
  /\ length (coaching_history (record_coaching_outcome coaching_id improved' timeline c))
     = length (coaching_history c)
  /\ (forall (i : nat) e, coaching_history c !! i = Some e ->
        exists e',
          coaching_history (record_coaching_outcome coaching_id improved' timeline c) !! i
          = Some e'
          /\ same_but_outcome e e'
          /\ (event_id e <> coaching_id -> e' = e))
  /\ (forall (i : nat) e, coaching_history c !! i = Some e ->
        event_id e = coaching_id ->
        (forall (j : nat) e0, (j < i)%nat -> coaching_history c !! j = Some e0 ->
                      event_id e0 <> coaching_id) ->
        coaching_history (record_coaching_outcome coaching_id improved' timeline c) !! i
        = Some (record_event_outcome improved' timeline e))
  /\ ((forall e, In e (coaching_history c) -> event_id e <> coaching_id) ->
      record_coaching_outcome coaching_id improved' timeline c = c).
Proof.
  unfold record_coaching_outcome. simpl.
  split; [reflexivity|]. split; [reflexivity|].
  assert (Hnone : (forall e, In e (coaching_history c) -> event_id e <> coaching_id) ->
                  record_outcome_in coaching_id improved' timeline (coaching_history c)
                  = coaching_history c).
  { induction (coaching_history c) as [|e0 rest IH]; intros Hnone; simpl; [reflexivity|].
    destruct (String.eqb_spec (event_id e0) coaching_id) as [Heq|Hne].
    - destruct (Hnone e0 (or_introl eq_refl) Heq).
    - f_equal. apply IH. intros e He. apply Hnone. now right. }
  split; [|split; [|split]]; [| | |intros H; rewrite (Hnone H); now destruct c].
  all: clear Hnone; generalize (coaching_history c) as events; intros events.
  - induction events as [|e0 rest IH]; simpl; [reflexivity|].
    destruct (String.eqb (event_id e0) coaching_id); simpl; congruence.
  - induction events as [|e0 rest IH]; intros i e Hi; [discriminate|]. simpl.
    destruct (String.eqb_spec (event_id e0) coaching_id) as [Heq|Hne].
    + destruct i as [|i]; simpl in Hi |- *.
      * injection Hi as <-. eexists. split; [reflexivity|].
        split; [repeat split|congruence].
      * exists e. repeat split; auto.
    + destruct i as [|i]; simpl in Hi |- *.
      * injection Hi as <-. exists e0. repeat split; auto.
      * apply (IH i e Hi).
  - induction events as [|e0 rest IH]; intros i e Hi Hid Hfirst; [discriminate|].
    simpl. destruct (String.eqb_spec (event_id e0) coaching_id) as [Heq|Hne].
    + destruct i as [|i]; simpl in Hi |- *.
      * now injection Hi as <-.
      * exfalso. apply (Hfirst 0%nat e0); [lia|reflexivity|exact Heq].
    + destruct i as [|i]; simpl in Hi |- *.
      * injection Hi as <-. contradiction.
      * apply (IH i e Hi Hid). intros j e1 Hj Hl.
        apply (Hfirst (S j) e1); [lia|exact Hl].
Qed.

(** ** The drafting and validation layer: the claims *)

(** C1. With no price, whatever the catch, the buyers and the message
    history, [generate_buyer_messages] returns no draft, blocks the batch and
    records exactly one coached violation, of the guardrail
    hallucination_prevention and the severity critical. *)
Theorem generate_without_price c buyers db w :
  exists r w' cg,
    generate_buyer_messages c None buyers db w = Some (r, w')
    /\ drafts r = []
    /\ b_blocked r = true
    /\ b_violations r = [cg]
    /\ coached "hallucination_prevention" "critical" cg
    /\ coaching_level cg = CRITICAL.
Proof.
  unfold generate_buyer_messages, bind, coach_call, ret.
  destruct (coach_agent _ w) as [cg w'] eqn:E.
  exists {| drafts := []; b_violations := [cg]; b_blocked := true;
            error := Some "No price data available. Please check cannery prices first." |},
         w', cg.
  repeat split.
  - replace cg with (fst (coach_agent
      (_create_violation "hallucination_prevention" "critical"
         "Attempted to generate messages without verified price data"
         "Current price from cannery scraping or manual entry") w))
      by now rewrite E.
    apply coached_flag.
  - replace cg with (fst (coach_agent
      (_create_violation "hallucination_prevention" "critical"
         "Attempted to generate messages without verified price data"
         "Current price from cannery scraping or manual entry") w))
      by now rewrite E.
    now rewrite coach_agent_level.
Qed.

(** C2. For every call of [generate_buyer_messages] with a price that
    returns, the text of every draft of the result contains the price figure
    behind its dollar sign, the integer pound count [int(pounds)] and, case
    folded, the fish type; and the drafts and the coachings of the result are
    those of the buyers one by one, where a buyer not contacted recently
    whose candidate text omits one of the three adds no draft, and adds a
    hallucination_prevention coaching of severity critical.  The call returns
    whenever [int(pounds)] does. *)
Theorem drafts_state_the_facts c p buyers db w :
  (forall r w',
     generate_buyer_messages c (Some p) buyers db w = Some (r, w') ->
     (forall d, In d (drafts r) ->
        exists n,
          Py.to_int (pounds c) = Some n
          /\ Py.str_in ("$" ++ float_text env (price_per_lb p)) (message_text d) = true
          /\ Py.str_in (Py.str_int n) (message_text d) = true
          /\ Py.str_in (str_lower env (fish_type c)) (str_lower env (message_text d))
             = true)
     /\ exists dss vss,
          drafts r = concat dss /\ b_violations r = concat vss
          /\ length dss = length buyers /\ length vss = length buyers
          /\ forall (k : nat) b, buyers !! k = Some b ->
             contacted_recently db (utcnow env k) b = false ->
             exists n,
               Py.to_int (pounds c) = Some n
               /\ (omits_fact (_generate_message_text k c p b) c p n = true ->
                   dss !! k = Some []
                   /\ exists vs,
                        vss !! k = Some vs
                        /\ Exists (coached "hallucination_prevention" "critical") vs))
  /\ (forall n, Py.to_int (pounds c) = Some n ->
      exists r w', generate_buyer_messages c (Some p) buyers db w = Some (r, w')).
Proof.
  split.
  - intros r w' E.
    destruct (generate_handles c p buyers db w r w' E)
      as (_ & dss & vss & Hd & Hv & Hl1 & Hl2 & Hk).
    split.
    + intros d Hin. rewrite Hd in Hin. apply in_concat in Hin as (ds & Hds & Hin).
      apply list_elem_of_In, list_elem_of_lookup in Hds as (k & Hdk).
      assert (Hb : exists b, buyers !! k = Some b).
      { apply lookup_lt_is_Some. rewrite <- Hl1. now apply lookup_lt_Some in Hdk. }
      destruct Hb as (b & Hb).
      destruct (Hk k b Hb) as (ds' & vs & Hds' & _ & Hh).
      rewrite Hdk in Hds'. injection Hds' as <-.
      unfold handled in Hh.
      destruct (contacted_recently db (utcnow env k) b);
        [destruct Hh as [-> _]; destruct Hin|].
      destruct Hh as (n & Hint & Hh). simpl in Hh.
      destruct (rejects _ c p b buyers n) eqn:Hrej;
        [destruct Hh as [-> _]; destruct Hin|].
      destruct Hh as [-> _]. destruct Hin as [<-|[]]. simpl.
      exists n. split; [exact Hint|].
      unfold rejects in Hrej. apply orb_false_iff in Hrej as [Hrej _].
      apply orb_false_iff in Hrej as [Hom _]. unfold omits_fact in Hom.
      apply orb_false_iff in Hom as [Hom H3]. apply orb_false_iff in Hom as [H1 H2].
      apply negb_false_iff in H1, H2, H3. auto.
    + exists dss, vss. repeat (split; [assumption|]).
      intros k b Hb Hrecent.
      destruct (Hk k b Hb) as (ds & vs & Hds & Hvs & Hh).
      unfold handled in Hh. rewrite Hrecent in Hh.
      destruct Hh as (n & Hint & Hh). simpl in Hh.
      exists n. split; [exact Hint|]. intros Hom.
      assert (Hrej : rejects (_generate_message_text k c p b) c p b buyers n = true)
        by (unfold rejects; now rewrite Hom).
      rewrite Hrej in Hh. destruct Hh as (-> & Hhall & _).
      split; [exact Hds|]. exists vs. split; [exact Hvs|]. now apply Hhall.
  - intros n Hint.
    destruct (generate_run c p buyers db n w Hint) as (r & w' & vss & E & _).
    now exists r, w'.
Qed.

(** C7. The dollar figures of a text are the matches of the pattern behind
    its dollar signs: digits of any script, then comma groups of three
    digits, then a dot and two digits if there are, each part as long as it
    can be.  Whenever [_validate_message_draft] returns for a draft, a catch
    and a price, every such figure of the text is a number, and one that
    differs from the price per pound is tolerated only within the margin: if
    the validation does not block, the figure is within one hundredth of
    pounds times price; if the figure is not, the validation blocks and
    records a financial_accuracy coaching.  The validation returns whenever
    [int(pounds)] does.  Hence no draft that [generate_buyer_messages]
    returns holds a figure off the margin. *)
Theorem wrong_totals_block c p :
  (forall draft_text tok,
     In tok (potential_totals draft_text)
     <-> exists pre rest,
           Py.codepoints draft_text = (pre ++ 36%N :: tok ++ rest)%list
           /\ figure tok rest)
  /\ (forall draft_text b all_buyers w r w',
     _validate_message_draft draft_text c p b all_buyers w = Some (r, w') ->
     forall tok, In tok (potential_totals draft_text) ->
     exists val,
       total_value tok = Some val
       /\ (Py.ne val (price_per_lb p) = true ->
           (blocked r = false ->
            within_margin val (pounds c * price_per_lb p)%float = true)
           /\ (within_margin val (pounds c * price_per_lb p)%float = false ->
               blocked r = true
               /\ Exists (coached "financial_accuracy" "high") (violations r))))
  /\ (forall n, Py.to_int (pounds c) = Some n ->
      forall draft_text b all_buyers w,
      exists r w', _validate_message_draft draft_text c p b all_buyers w = Some (r, w'))
  /\ (forall buyers db w res w',
        generate_buyer_messages c (Some p) buyers db w = Some (res, w') ->
        forall d tok, In d (drafts res) -> In tok (potential_totals (message_text d)) ->
        exists val,
          total_value tok = Some val
          /\ (Py.ne val (price_per_lb p) = true ->
              within_margin val (pounds c * price_per_lb p)%float = true)).
Proof.
  assert (Hbad : forall text tok val,
             In tok (potential_totals text) ->
             total_value tok = Some val ->
             Py.ne val (price_per_lb p) = true ->
             within_margin val (pounds c * price_per_lb p)%float = false ->
             existsb (bad_total c p) (potential_totals text) = true).
  { intros text tok val Hin Hval Hne Hw. apply existsb_exists. exists tok.
    split; [exact Hin|]. unfold bad_total. rewrite Hval, Hne.
    unfold within_margin in Hw. now apply negb_false_iff in Hw. }
  split; [exact figure_found|]. split; [|split].
  - intros draft_text b all_buyers w r w' E tok Hin.
    destruct (validate_returns_int _ _ _ _ _ _ _ _ E) as (n & Hint).
    destruct (validate_run draft_text c p b all_buyers n w Hint)
      as (r0 & w0 & E0 & Hblocked & _ & Hfa).
    rewrite E0 in E. injection E as <- <-.
    destruct (findall_parses _ _ Hin) as (val & Hval).
    exists val. split; [exact Hval|]. intros Hne. split.
    + intros Hnb.
      destruct (within_margin val (pounds c * price_per_lb p)%float) eqn:Hw;
        [reflexivity|].
      pose proof (Hbad _ _ _ Hin Hval Hne Hw) as Hex.
      rewrite Hblocked in Hnb. unfold rejects in Hnb. rewrite Hex in Hnb.
      now rewrite orb_true_r in Hnb.
    + intros Hw. pose proof (Hbad _ _ _ Hin Hval Hne Hw) as Hex.
      split; [|now apply Hfa].
      rewrite Hblocked. unfold rejects. rewrite Hex. apply orb_true_r.
  - intros n Hint draft_text b all_buyers w.
    destruct (validate_run draft_text c p b all_buyers n w Hint) as (r & w' & E & _).
    now exists r, w'.
  - intros buyers db w res w' E d tok Hd' Hin.
    destruct (findall_parses _ _ Hin) as (val & Hval).
    exists val. split; [exact Hval|]. intros Hne.
    destruct (Py.to_int (pounds c)) as [n|] eqn:Hint.
    + destruct (generate_run c p buyers db n w Hint) as (r0 & w0 & vss & E0 & _ & Hd & _).
      rewrite E0 in E. injection E as <- <-. rewrite Hd in Hd'.
      destruct (expected_drafts_lookup _ _ _ _ _ _ _ _ Hd') as (k & b & _ & Hout).
      change (0 + k)%nat with k in Hout. unfold outcome_draft in Hout.
      destruct (contacted_recently db (utcnow env k) b); [destruct Hout|].
      destruct (rejects _ c p b buyers n) eqn:Hrej; [destruct Hout|].
      destruct Hout as [<-|[]]. simpl in Hin.
      destruct (within_margin val (pounds c * price_per_lb p)%float) eqn:Hw;
        [reflexivity|].
      pose proof (Hbad _ _ _ Hin Hval Hne Hw) as Hex.
      unfold rejects in Hrej. rewrite Hex in Hrej. now rewrite orb_true_r in Hrej.
    + exfalso. unfold generate_buyer_messages, bind at 1 in E.
      destruct (buyers_loop c p buyers db 0 buyers ([], []) w) as [[acc w1]|] eqn:El;
        [|discriminate].
      unfold ret in E. injection E as <- <-. simpl in Hd'.
      rewrite (buyers_loop_raises c p buyers db Hint _ _ _ _ _ _ El) in Hd'.
      destruct Hd'.
Qed.

(** C8. For every call of [generate_buyer_messages] with a price that
    returns, the batch is not blocked, and its drafts and its coachings are
    those of the buyers of the list one by one: a buyer contacted in the 24
    hours before its turn adds no draft and exactly one coaching, of the
    guardrail business_relationship_protection and the severity high; every
    other buyer, whatever happened to the buyers before, adds its draft
    unless the validation rejects it.  The call returns whenever
    [int(pounds)] does, and also when every buyer was contacted recently. *)
Theorem recent_buyer_is_skipped c p buyers db w :
  (forall r w',
     generate_buyer_messages c (Some p) buyers db w = Some (r, w') ->
     b_blocked r = false
     /\ exists dss vss,
          drafts r = concat dss /\ b_violations r = concat vss
          /\ length dss = length buyers /\ length vss = length buyers
          /\ forall (k : nat) b, buyers !! k = Some b ->
             (contacted_recently db (utcnow env k) b = true ->
              dss !! k = Some []
              /\ exists cg,
                   vss !! k = Some [cg]
                   /\ coached "business_relationship_protection" "high" cg)
             /\ (contacted_recently db (utcnow env k) b = false ->
                 exists n,
                   Py.to_int (pounds c) = Some n
                   /\ dss !! k
                      = Some (if rejects (_generate_message_text k c p b) c p b buyers n
                              then []
                              else [draft_message c p b (_generate_message_text k c p b)])))
  /\ (forall n, Py.to_int (pounds c) = Some n ->
      exists r w', generate_buyer_messages c (Some p) buyers db w = Some (r, w'))
  /\ ((forall (k : nat) b, buyers !! k = Some b ->
         contacted_recently db (utcnow env k) b = true) ->
      exists r w', generate_buyer_messages c (Some p) buyers db w = Some (r, w')).
Proof.
  split; [|split].
  - intros r w' E.
    destruct (generate_handles c p buyers db w r w' E)
      as (Hb & dss & vss & Hd & Hv & Hl1 & Hl2 & Hk).
    split; [exact Hb|]. exists dss, vss. repeat (split; [assumption|]).
    intros k b Hbk. destruct (Hk k b Hbk) as (ds & vs & Hds & Hvs & Hh).
    unfold handled in Hh. split; intros Hrecent; rewrite Hrecent in Hh.
    + destruct Hh as (-> & cg & -> & Hcg). split; [exact Hds|]. now exists cg.
    + destruct Hh as (n & Hint & Hh). simpl in Hh. exists n. split; [exact Hint|].
      destruct (rejects _ c p b buyers n); destruct Hh as [-> _]; exact Hds.
  - intros n Hint.
    destruct (generate_run c p buyers db n w Hint) as (r & w' & vss & E & _).
    now exists r, w'.
  - intros Hall. unfold generate_buyer_messages.
    destruct (buyers_loop_all_recent c p buyers db buyers 0%nat ([], []) w Hall)
      as (acc & w' & E).
    rewrite (bind_run _ _ _ _ _ E). unfold ret. now eexists _, _.
Qed.

(** C9. [validate_catch_log] always returns; it blocks, with a data_integrity
    coaching of severity high, when the fish type is not one of Crab, Salmon,
    Halibut and Other, and when the pounds are at most 0; for a valid fish
    type and more than 10000 pounds it does not block and records exactly
    one coaching, a data_integrity one of severity medium. *)
Theorem validate_catch_log_cases fish lbs w :
  exists r w',
    validate_catch_log fish lbs w = Some (r, w')
    /\ (Py.in_list fish valid_fish_types = false ->
        blocked r = true /\ Exists (coached "data_integrity" "high") (violations r))
    /\ (PrimFloat.leb lbs 0%float = true ->
        blocked r = true /\ Exists (coached "data_integrity" "high") (violations r))
    /\ (Py.in_list fish valid_fish_types = true -> Py.gt lbs 10000%float = true ->
        blocked r = false
        /\ exists cg, violations r = [cg] /\ coached "data_integrity" "medium" cg).
Proof.
  unfold validate_catch_log.
  edestruct (guard_run (negb (Py.in_list fish valid_fish_types)) true)
    as (x1 & w1 & E1 & T1 & F1).
  rewrite (bind_run _ _ _ _ _ E1). clear E1.
  edestruct (guard_run (PrimFloat.leb lbs 0%float) true) as (x2 & w2 & E2 & T2 & F2).
  rewrite (bind_run _ _ _ _ _ E2). clear E2.
  edestruct (guard_run (Py.gt lbs 10000%float) false) as (x3 & w3 & E3 & T3 & F3).
  rewrite (bind_run _ _ _ _ _ E3). clear E3.
  unfold ret. eexists _, _. split; [reflexivity|].
  cbn [blocked violations fst snd app].
  rewrite !andb_true_r, andb_false_r, orb_false_r.
  split; [|split].
  - intros Hfish. rewrite Hfish. split; [reflexivity|].
    rewrite T1 by now rewrite Hfish.
    apply Exists_app. left. apply Exists_app. left. constructor. apply coached_flag.
  - intros Hle. rewrite Hle, orb_true_r. split; [reflexivity|].
    rewrite (T2 Hle).
    apply Exists_app. left. apply Exists_app. right. constructor. apply coached_flag.
  - intros Hfish Hgt. pose proof (gt_10000_not_le_0 lbs Hgt) as Hle.
    rewrite Hfish, Hle. split; [reflexivity|].
    rewrite F1 by now rewrite Hfish. rewrite (F2 Hle), (T3 Hgt).
    eexists. split; [reflexivity|]. apply coached_flag.
Qed.

(** ** Further properties of the coach *)

(** X1. [validate_data_access] blocks an unauthenticated access with exactly
    one coaching, a data_access_control one of severity critical and level
    CRITICAL, which the coach logs; an authenticated access is let through
    with no violation and without touching the coach or the clock. *)
Theorem validate_data_access_cases resource w :
  (exists cg w',
     validate_data_access false resource w
     = Some ({| blocked := true; violations := [cg] |}, w')
     /\ coached "data_access_control" "critical" cg
     /\ coaching_level cg = CRITICAL
     /\ c_blocked cg = true
     /\ length (coaching_history (coach w')) = S (length (coaching_history (coach w))))
  /\ validate_data_access true resource w
     = Some ({| blocked := false; violations := [] |}, w).
Proof.
  split; [|reflexivity].
  unfold validate_data_access, bind, coach_call, ret. simpl.
  set (v := _create_violation "data_access_control" "critical"
              ("Unauthorized access attempt to " ++ resource)
              "User must be authenticated to access data").
  exists (fst (coach_agent v w)), (snd (coach_agent v w)).
  split; [now destruct (coach_agent v w)|].
  split; [apply coached_flag|].
  split; [now rewrite coach_agent_level|].
  split; [now rewrite coach_agent_blocked, coach_agent_level|].
  destruct (coach_agent_history v w) as (e & -> & _).
  rewrite length_app. simpl. lia.
Qed.

(** X2. A call of [coach_agent] appends exactly one event to the history and
    leaves the earlier events as they are.  The event carries the agent id,
    the guardrail and the description of the violation, the level and the
    coaching text that the call returns, and no outcome yet; its id is made
    of the first reading of the clock and its timestamp is the second.  The
    call reads the clock three times and does not touch the peer lessons. *)
Theorem coach_agent_appends_event v w :
  exists e,
    coaching_history (coach (snd (coach_agent v w)))
    = (coaching_history (coach w) ++ [e])%list
    /\ event_id e = "coach_" ++ timestamp_text env (now env (clock_reads w))
    /\ timestamp e = now env (S (clock_reads w))
    /\ ev_agent_id e = v_agent_id v
    /\ ev_guardrail e = guardrail v
    /\ ev_severity e = coaching_level (fst (coach_agent v w))
    /\ coaching_depth e = CoachingLevel_value (coaching_level (fst (coach_agent v w)))
    /\ violation_description e = what_happened v
    /\ coaching_delivered e = coaching (fst (coach_agent v w))
    /\ agent_response e = None
    /\ improved e = None
    /\ improvement_timeline e = None
    /\ clock_reads (snd (coach_agent v w)) = (clock_reads w + 3)%nat
    /\ peer_lessons (coach (snd (coach_agent v w))) = peer_lessons (coach w).
Proof.
  unfold coach_agent, _get_or_create_profile.
  destruct (agent_profiles (coach w) !! v_agent_id v) as [profile|]; simpl;
    eexists; repeat split; lia.
Qed.

(** X3. [record_coaching_outcome] called twice for one id leaves what the
    second call alone would: the last outcome wins, and a repeated call with
    the same outcome changes nothing more. *)
Theorem record_coaching_outcome_twice coaching_id i1 t1 i2 t2 c :
  record_coaching_outcome coaching_id i2 t2
    (record_coaching_outcome coaching_id i1 t1 c)
  = record_coaching_outcome coaching_id i2 t2 c.
Proof.
  unfold record_coaching_outcome. simpl. f_equal.
  induction (coaching_history c) as [|e rest IH]; simpl; [reflexivity|].
  destruct (String.eqb (event_id e) coaching_id) eqn:E; simpl; rewrite E.
  - reflexivity.
  - now rewrite IH.
Qed.

(** X4. Outcomes recorded for two different ids do not interfere: the two
    calls give the same coach in either order. *)
Theorem record_coaching_outcome_commutes id1 i1 t1 id2 i2 t2 c :
  id1 <> id2 ->
  record_coaching_outcome id1 i1 t1 (record_coaching_outcome id2 i2 t2 c)
  = record_coaching_outcome id2 i2 t2 (record_coaching_outcome id1 i1 t1 c).
Proof.
  intros Hne. unfold record_coaching_outcome. simpl. f_equal.
  induction (coaching_history c) as [|e rest IH]; simpl; [reflexivity|].
  destruct (String.eqb_spec (event_id e) id1) as [E1|E1];
    destruct (String.eqb_spec (event_id e) id2) as [E2|E2]; simpl.
  - congruence.
  - destruct (String.eqb_spec (event_id e) id1); [|contradiction].
    destruct (String.eqb_spec (event_id e) id2); [contradiction|reflexivity].
  - destruct (String.eqb_spec (event_id e) id1); [contradiction|].
    destruct (String.eqb_spec (event_id e) id2); [|contradiction]. reflexivity.
  - destruct (String.eqb_spec (event_id e) id1); [contradiction|].
    destruct (String.eqb_spec (event_id e) id2); [contradiction|].
    now rewrite IH.
Qed.

(** X5. [_get_peer_lessons] gives the empty text exactly when the guardrail
    has no lesson of another agent: no entry, an empty entry, or lessons of
    the asking agent only.  A lesson without an agent id counts as another
    agent's. *)
Theorem _get_peer_lessons_empty c g agent :
  _get_peer_lessons c g agent = EmptyString
  <-> forall l, In l (default [] (peer_lessons c !! g)) -> pl_agent_id l = Some agent.
Proof.
  unfold _get_peer_lessons.
  destruct (peer_lessons c !! g) as [all|]; simpl; [|split; [intros _ l []|reflexivity]].
  set (other := fun l => match pl_agent_id l with
                         | Some a => negb (String.eqb a agent)
                         | None => true
                         end).
  destruct (List.filter other all) as [|l0 rest] eqn:Ef.
  - split; [|reflexivity]. intros _ l Hin.
    destruct (other l) eqn:Hl.
    + assert (Hf : In l (List.filter other all)) by (apply filter_In; auto).
      rewrite Ef in Hf. destruct Hf.
    + unfold other in Hl. destruct (pl_agent_id l) as [a|]; [|discriminate].
      apply negb_false_iff, String.eqb_eq in Hl. now subst.
  - split; [discriminate|]. intros Hall. exfalso.
    assert (Hf : In l0 (List.filter other all)) by (rewrite Ef; now left).
    apply filter_In in Hf as [Hin Hl].
    unfold other in Hl. rewrite (Hall l0 Hin), String.eqb_refl in Hl. discriminate.
Qed.

(** ** What holds in every world a new coach can get to *)

Lemma events_for_app agent g h e :
  events_for agent g (h ++ [e])
  = events_for agent g h
    + (if String.eqb (ev_agent_id e) agent && String.eqb (ev_guardrail e) g
       then 1 else 0).
Proof.
  unfold events_for. rewrite List.filter_app, length_app. simpl.
  destruct (String.eqb (ev_agent_id e) agent && String.eqb (ev_guardrail e) g); simpl; lia.
Qed.

Lemma events_for_record agent g coaching_id improved' timeline h :
  events_for agent g (record_outcome_in coaching_id improved' timeline h)
  = events_for agent g h.
Proof.
  unfold events_for. f_equal.
  induction h as [|e rest IH]; simpl; [reflexivity|].
  destruct (String.eqb (event_id e) coaching_id); simpl.
  - now destruct (String.eqb (ev_agent_id e) agent && String.eqb (ev_guardrail e) g).
  - destruct (String.eqb (ev_agent_id e) agent && String.eqb (ev_guardrail e) g);
      simpl; now rewrite IH.
Qed.

Lemma record_outcome_in_length coaching_id improved' timeline h :
  length (record_outcome_in coaching_id improved' timeline h) = length h.
Proof.
  induction h as [|e rest IH]; simpl; [reflexivity|].
  destruct (String.eqb (event_id e) coaching_id); simpl; congruence.
Qed.

Lemma count_for_before v w g :
  count_for (coach w) (v_agent_id v) g
  = history_get (violation_history (profile_before w v)) g.
Proof.
  unfold count_for, profile_before.
  now destruct (agent_profiles (coach w) !! v_agent_id v).
Qed.

Lemma coach_agent_event v w :
  exists e,
    coaching_history (coach (snd (coach_agent v w)))
    = (coaching_history (coach w) ++ [e])%list
    /\ ev_agent_id e = v_agent_id v
    /\ ev_guardrail e = guardrail v
    /\ clock_reads (snd (coach_agent v w)) = (clock_reads w + 3)%nat
    /\ peer_lessons (coach (snd (coach_agent v w))) = peer_lessons (coach w).
Proof.
  unfold coach_agent, _get_or_create_profile.
  destruct (agent_profiles (coach w) !! v_agent_id v) as [profile|]; simpl;
    eexists; repeat split; lia.
Qed.

Lemma reachable_facts w :
  reachable w ->
  (forall agent g,
     count_for (coach w) agent g = events_for agent g (coaching_history (coach w)))
  /\ clock_reads w = (3 * length (coaching_history (coach w)))%nat
  /\ (forall agent profile,
        agent_profiles (coach w) !! agent = Some profile ->
        ap_agent_id profile = agent
        /\ learning_level profile = "intermediate"
        /\ coaching_receptiveness profile = 1%float)
  /\ peer_lessons (coach w) = ∅.
Proof.
  induction 1 as [|v w Hw IH|coaching_id improved' timeline w Hw IH].
  - repeat split; intros; simpl in *; try reflexivity;
      rewrite lookup_empty in H; discriminate.
  - destruct IH as (Hcount & Hclock & Hprof & Hpeer).
    destruct (coach_agent_event v w) as (e & Hh & Hid & Hg & Hc & Hp).
    split; [|split; [|split]].
    + intros agent g. rewrite Hh, events_for_app, Hid, Hg, <- Hcount.
      unfold count_for at 1. rewrite coach_agent_profiles.
      destruct (String.eqb_spec (v_agent_id v) agent) as [<-|Hne].
      * rewrite lookup_insert_eq. simpl. rewrite count_for_before.
        destruct (String.eqb_spec (guardrail v) g) as [<-|Hng]; simpl.
        -- unfold history_get at 1. now rewrite lookup_insert_eq.
        -- unfold history_get at 1. rewrite lookup_insert_ne by exact Hng.
           unfold history_get. lia.
      * rewrite lookup_insert_ne by exact Hne. simpl. unfold count_for. lia.
    + rewrite Hc, Hh, length_app, Hclock. simpl. lia.
    + intros agent profile. rewrite coach_agent_profiles.
      destruct (decide (v_agent_id v = agent)) as [<-|Hne].
      * rewrite lookup_insert_eq. intros [= <-]. simpl.
        unfold profile_before.
        destruct (agent_profiles (coach w) !! v_agent_id v) as [p0|] eqn:E; simpl.
        -- exact (Hprof _ _ E).
        -- repeat split.
      * rewrite lookup_insert_ne by exact Hne. apply Hprof.
    + now rewrite Hp.
  - destruct IH as (Hcount & Hclock & Hprof & Hpeer). simpl.
    split; [|split; [|split]]; try assumption.
    + intros agent g. rewrite events_for_record. apply Hcount.
    + now rewrite record_outcome_in_length.
Qed.

(** X6. In every world a new coach gets to by coachings and recorded
    outcomes, the count a profile keeps for a guardrail is the number of
    events logged for that agent and guardrail, the clock has been read three
    times per event, every profile is stored under its own agent id with the
    learning level intermediate and the receptiveness 1.0, and there are no
    peer lessons. *)
Theorem reachable_invariants w :
  reachable w ->
  (forall agent g,
     count_for (coach w) agent g = events_for agent g (coaching_history (coach w)))
  /\ clock_reads w = (3 * length (coaching_history (coach w)))%nat
  /\ (forall agent profile,
        agent_profiles (coach w) !! agent = Some profile ->
        ap_agent_id profile = agent
        /\ learning_level profile = "intermediate"
        /\ coaching_receptiveness profile = 1%float)
  /\ peer_lessons (coach w) = ∅.
Proof. exact (reachable_facts w). Qed.

Lemma coach_agent_followup v w :
  followup_actions (fst (coach_agent v w))
  = _recommend_followup (profile_before w v) (_analyze_violation v (profile_before w v)).
Proof.
  unfold coach_agent, _get_or_create_profile, profile_before.
  now destruct (agent_profiles (coach w) !! v_agent_id v).
Qed.

Lemma coach_agent_peer v w :
  c_peer_lessons (fst (coach_agent v w))
  = _get_peer_lessons (coach w) (guardrail v) (v_agent_id v).
Proof.
  unfold coach_agent, _get_or_create_profile, _get_peer_lessons.
  now destruct (agent_profiles (coach w) !! v_agent_id v).
Qed.

(** X7. What the next coaching is like depends on the log alone.  In a world
    a new coach can get to, let [k] be the number of events already logged
    for the agent and the guardrail of the violation.  Then the count the
    call finds is [k]; no peer lessons are given; the two review actions are
    among the follow-ups exactly when [k > 2]; the predicted effectiveness is
    1.0 when [k < 3] and 0.7 * 1.5 * 0.6 otherwise; and from [k = 3] on the
    coaching text holds the escalation phrase. *)
#[warnings="-inexact-float"]
Theorem coaching_by_rank v w :
  reachable w ->
  prior_count w v
  = events_for (v_agent_id v) (guardrail v) (coaching_history (coach w))
  /\ c_peer_lessons (fst (coach_agent v w)) = EmptyString
  /\ followup_actions (fst (coach_agent v w))
     = (if 2 <? prior_count w v
        then ["Review guardrail documentation thoroughly";
              "Request human feedback on next similar request";
              "Refer back to this coaching before similar requests"]
        else ["Refer back to this coaching before similar requests"])
  /\ effectiveness_predicted (fst (coach_agent v w))
     = (if 3 <=? prior_count w v then (0.7 * (0.5 + 1) * 0.6)%float else 1%float)
  /\ (3 <= prior_count w v ->
      Py.str_in escalation_phrase (coaching (fst (coach_agent v w))) = true).
Proof.
  intros Hw. destruct (reachable_facts w Hw) as (Hcount & _ & Hprof & Hpeer).
  split; [|split; [|split; [|split]]].
  - unfold prior_count. rewrite <- count_for_before. apply Hcount.
  - rewrite coach_agent_peer. unfold _get_peer_lessons.
    now rewrite Hpeer, lookup_empty.
  - rewrite coach_agent_followup. unfold _recommend_followup, prior_count. simpl.
    now destruct (2 <? history_get (violation_history (profile_before w v)) (guardrail v)).
  - rewrite coach_agent_effectiveness.
    unfold _predict_effectiveness, _update_profile. simpl.
    unfold history_get at 1. rewrite lookup_insert_eq. simpl.
    fold (prior_count w v).
    assert (Hp : learning_level (profile_before w v) = "intermediate"
                 /\ coaching_receptiveness (profile_before w v) = 1%float).
    { unfold profile_before.
      destruct (agent_profiles (coach w) !! v_agent_id v) as [p0|] eqn:E; simpl.
      - destruct (Hprof _ _ E) as (_ & Hl & Hr). auto.
      - auto. }
    destruct Hp as [-> ->]. simpl.
    destruct (Z.ltb_spec 3 (prior_count w v + 1));
      destruct (Z.leb_spec 3 (prior_count w v)); try lia;
      vm_compute; reflexivity.
  - apply coach_agent_escalates.
Qed.

(** ** Further properties of the validations *)

Lemma guard_trace (cond blocking : bool) v st w :
  exists x w',
    (if cond then flag blocking v st else ret st) w
    = Some (((fst st ++ x)%list, snd st || (cond && blocking)), w')
    /\ gated cond (guardrail v) (severity v) x
    /\ (x = [] -> w' = w).
Proof.
  destruct cond.
  - exists [fst (coach_agent v w)], (snd (coach_agent v w)).
    rewrite flag_run. split; [|split].
    + do 2 f_equal. destruct blocking, (snd st); reflexivity.
    + exists (fst (coach_agent v w)). split; [reflexivity|]. now exists v, w.
    + discriminate.
  - exists [], w. unfold ret. rewrite app_nil_r, orb_false_r.
    destruct st. repeat split.
Qed.

Lemma check_totals_trace c p toks : forall st w,
  exists x w',
    check_totals c p toks st w
    = Some (((fst st ++ x)%list, snd st || existsb (bad_total c p) toks), w')
    /\ Forall (coached "financial_accuracy" "high") x
    /\ length x = length (List.filter (bad_total c p) toks)
    /\ (x = [] -> w' = w).
Proof.
  induction toks as [|tok toks IH]; intros st w; simpl.
  - exists [], w. unfold ret. rewrite app_nil_r, orb_false_r.
    destruct st. repeat split. constructor.
  - unfold bad_total at 1 3 4.
    destruct (total_value tok) as [val|]; simpl.
    + destruct (Py.ne val (price_per_lb p)
                && wrong_total val (pounds c * price_per_lb p)%float) eqn:Ebad.
      * rewrite (bind_run _ _ _ _ _ (flag_run _ _ _ _)).
        match goal with
        | |- context [check_totals c p toks ?st1 ?w1] =>
            destruct (IH st1 w1) as (x & w' & E & Hall & Hlen & _)
        end.
        eexists (_ :: x), w'. rewrite E. simpl.
        rewrite <- app_assoc, orb_true_r. simpl.
        split; [reflexivity|]. split; [constructor; [apply coached_flag|exact Hall]|].
        split; [now rewrite Hlen|discriminate].
      * destruct (IH st w) as (x & w' & E & Hall & Hlen & Hw).
        exists x, w'. rewrite E. auto.
    + destruct (IH st w) as (x & w' & E & Hall & Hlen & Hw).
      exists x, w'. rewrite E. auto.
Qed.

Lemma validate_trace draft_text c p b all_buyers n w :
  Py.to_int (pounds c) = Some n ->
  exists r w',
    _validate_message_draft draft_text c p b all_buyers w = Some (r, w')
    /\ blocked r = rejects draft_text c p b all_buyers n
    /\ validation_trace draft_text c p b all_buyers n (violations r)
    /\ (violations r = [] -> w' = w).
Proof.
  intros Hint. unfold _validate_message_draft.
  edestruct (guard_trace (negb (Py.str_in (price_str p) draft_text)) true)
    as (x1 & w1 & E1 & G1 & W1).
  rewrite (bind_run _ _ _ _ _ E1). clear E1. rewrite Hint.
  unfold ret at 1. unfold bind at 1.
  edestruct (guard_trace (negb (Py.str_in (Py.str_int n) draft_text)) true)
    as (x2 & w2 & E2 & G2 & W2).
  rewrite (bind_run _ _ _ _ _ E2). clear E2.
  edestruct (guard_trace
               (negb (Py.str_in (str_lower env (fish_type c)) (str_lower env draft_text))) true)
    as (x3 & w3 & E3 & G3 & W3).
  rewrite (bind_run _ _ _ _ _ E3). clear E3.
  match goal with
  | |- context [bind (match leaked_buyer ?t ?b ?l with _ => _ end) _ ?w] =>
      assert (exists x4 w4,
                 (match leaked_buyer t b l with
                  | Some other_buyer =>
                      flag true
                        (_create_violation "pii_protection" "critical"
                           ("Draft message contains PII of another buyer: "
                            ++ buyer_name other_buyer)
                           "Message must only contain info relevant to the recipient")
                        (([] ++ x1 ++ x2 ++ x3)%list,
                         negb (Py.str_in (price_str p) draft_text)
                         || negb (Py.str_in (Py.str_int n) draft_text)
                         || negb (Py.str_in (str_lower env (fish_type c)) (str_lower env draft_text)))
                  | None =>
                      ret (([] ++ x1 ++ x2 ++ x3)%list,
                           negb (Py.str_in (price_str p) draft_text)
                           || negb (Py.str_in (Py.str_int n) draft_text)
                           || negb (Py.str_in (str_lower env (fish_type c))
                                              (str_lower env draft_text)))
                  end) w
                 = Some ((([] ++ x1 ++ x2 ++ x3) ++ x4)%list,
                         omits_fact draft_text c p n
                         || bool_decide (is_Some (leaked_buyer t b l)), w4)
                 /\ gated (bool_decide (is_Some (leaked_buyer t b l)))
                      "pii_protection" "critical" x4
                 /\ (x4 = [] -> w4 = w))
        as (x4 & w4 & E4 & G4 & W4)
  end.
  { destruct (leaked_buyer draft_text b all_buyers) as [other|].
    - eexists _, _. rewrite flag_run. simpl. rewrite orb_true_r.
      split; [reflexivity|]. split; [|discriminate].
      eexists. split; [reflexivity|]. apply coached_flag.
    - exists [], w3. unfold ret. simpl. rewrite app_nil_r, orb_false_r.
      repeat split. }
  simpl in E4 |- *. rewrite !andb_true_r, <- !app_assoc.
  rewrite (bind_run _ _ _ _ _ E4). clear E4.
  edestruct (guard_trace (commits draft_text) false) as (x5 & w5 & E5 & G5 & W5).
  unfold commits in E5.
  rewrite (bind_run _ _ _ _ _ E5). clear E5.
  match goal with
  | |- context [check_totals c p ?toks ?st] =>
      destruct (check_totals_trace c p toks st w5) as (x6 & w6 & E6 & H6 & L6 & W6)
  end.
  rewrite (bind_run _ _ _ _ _ E6). clear E6.
  eexists _, _. split; [reflexivity|]. simpl.
  rewrite andb_false_r, orb_false_r.
  split; [reflexivity|]. split.
  - exists x1, x2, x3, x4, x5, x6. rewrite <- !app_assoc.
    repeat split; assumption.
  - rewrite <- !app_assoc. intros Hnil.
    apply app_eq_nil in Hnil as [-> Hnil]. apply app_eq_nil in Hnil as [-> Hnil].
    apply app_eq_nil in Hnil as [-> Hnil]. apply app_eq_nil in Hnil as [-> Hnil].
    apply app_eq_nil in Hnil as [-> ->].
    rewrite (W6 eq_refl), (W5 eq_refl), (W4 eq_refl), (W3 eq_refl), (W2 eq_refl).
    now apply W1.
Qed.

(** X8. Whenever the pound value is finite, [_validate_message_draft]
    returns; it blocks exactly when a blocking guardrail fails; and it
    records one coaching per failed test, in the order of the guardrails:
    the price, the pounds and the fish type (hallucination_prevention,
    critical), at most one for the names and phones of other buyers
    (pii_protection, critical), one for commitment language
    (communication_integrity, high), then one per bad figure
    (financial_accuracy, high).  When it records nothing it leaves the coach
    and the clock untouched. *)
Theorem validation_records_each_failure draft_text c p b all_buyers n w :
  Py.to_int (pounds c) = Some n ->
  exists r w',
    _validate_message_draft draft_text c p b all_buyers w = Some (r, w')
    /\ blocked r = rejects draft_text c p b all_buyers n
    /\ validation_trace draft_text c p b all_buyers n (violations r)
    /\ (violations r = [] -> w' = w).
Proof. exact (validate_trace draft_text c p b all_buyers n w). Qed.

Lemma coached_principle g sev cg :
  coached g sev cg -> principle cg = _extract_principle g.
Proof.
  intros (v & w & <- & _ & ->).
  unfold coach_agent, _get_or_create_profile.
  now destruct (agent_profiles (coach w) !! v_agent_id v).
Qed.

Lemma coached_level g sev cg :
  coached g sev cg ->
  coaching_level cg = _determine_coaching_depth (new_profile g SALES_COORDINATOR) sev
  /\ c_blocked cg = CoachingLevel_eqb (coaching_level cg) CRITICAL.
Proof.
  intros (v & w & _ & <- & ->).
  now rewrite coach_agent_blocked, coach_agent_level.
Qed.

Lemma leaked_buyer_some draft_text b all_buyers other :
  In other all_buyers ->
  buyer_id other <> buyer_id b ->
  Py.str_in (buyer_name other) draft_text = true
  \/ Py.str_in (phone other) draft_text = true ->
  is_Some (leaked_buyer draft_text b all_buyers).
Proof.
  intros Hin Hid Htext. unfold leaked_buyer.
  match goal with |- is_Some (List.find ?f _) => set (test := f) end.
  destruct (List.find test all_buyers) as [found|] eqn:E; [eauto|exfalso].
  pose proof (List.find_none _ _ E other Hin) as Hno. unfold test in Hno.
  apply andb_false_iff in Hno as [Hno|Hno].
  - apply negb_false_iff, Z.eqb_eq in Hno. contradiction.
  - apply orb_false_iff in Hno as [H1 H2]. destruct Htext; congruence.
Qed.

Lemma leaked_buyer_none draft_text b all_buyers :
  (forall other, In other all_buyers ->
     Py.str_in (buyer_name other) draft_text = true
     \/ Py.str_in (phone other) draft_text = true ->
     buyer_id other = buyer_id b) ->
  leaked_buyer draft_text b all_buyers = None.
Proof.
  intros Hown. unfold leaked_buyer.
  match goal with |- List.find ?f _ = None => set (test := f) end.
  destruct (List.find test all_buyers) as [found|] eqn:E; [exfalso|reflexivity].
  apply List.find_some in E as [Hin Htest]. unfold test in Htest.
  apply andb_true_iff in Htest as [Hid Htext].
  apply negb_true_iff, Z.eqb_neq in Hid. apply Hid, Hown; [exact Hin|].
  apply orb_true_iff in Htext. tauto.
Qed.

(** X9. A draft that holds the name or the phone of another buyer of the
    list (one with a different id) is blocked, with a pii_protection
    coaching of severity critical.  When every buyer of the list whose name
    or phone is in the draft has the recipient's own id, no pii_protection
    coaching is recorded. *)
Theorem other_buyers_data_blocks draft_text c p b all_buyers n w :
  Py.to_int (pounds c) = Some n ->
  exists r w',
    _validate_message_draft draft_text c p b all_buyers w = Some (r, w')
    /\ (forall other,
          In other all_buyers ->
          buyer_id other <> buyer_id b ->
          Py.str_in (buyer_name other) draft_text = true
          \/ Py.str_in (phone other) draft_text = true ->
          blocked r = true
          /\ Exists (coached "pii_protection" "critical") (violations r))
    /\ ((forall other,
           In other all_buyers ->
           Py.str_in (buyer_name other) draft_text = true
           \/ Py.str_in (phone other) draft_text = true ->
           buyer_id other = buyer_id b) ->
        forall cg, In cg (violations r) -> ~ coached "pii_protection" "critical" cg).
Proof.
  intros Hint.
  destruct (validate_trace draft_text c p b all_buyers n w Hint)
    as (r & w' & E & Hb & (x1 & x2 & x3 & x4 & x5 & x6 & Hv & G1 & G2 & G3 & G4 & G5 & G6 & _) & _).
  exists r, w'. split; [exact E|]. split.
  - intros other Hin Hid Htext.
    pose proof (leaked_buyer_some _ _ _ _ Hin Hid Htext) as Hl.
    split.
    + rewrite Hb. unfold rejects. rewrite (bool_decide_eq_true_2 _ Hl).
      now rewrite orb_true_r.
    + rewrite (bool_decide_eq_true_2 _ Hl) in G4. destruct G4 as (cg & -> & Hcg).
      rewrite Hv. apply Exists_app. right. apply Exists_app. right.
      apply Exists_app. right. apply Exists_app. left. now constructor.
  - intros Hown cg Hin Hpii.
    rewrite (leaked_buyer_none _ _ _ Hown) in G4.
    rewrite bool_decide_eq_false_2 in G4 by (intros [? ?]; discriminate).
    simpl in G4. subst x4. simpl in Hv. rewrite Hv in Hin.
    apply coached_principle in Hpii.
    assert (Hother : forall g sev x cond,
               gated cond g sev x -> In cg x -> principle cg = _extract_principle g).
    { intros g sev x [] Hg Hx; simpl in Hg.
      - destruct Hg as (cg0 & -> & Hc). destruct Hx as [<-|[]].
        now apply coached_principle in Hc.
      - subst x. destruct Hx. }
    repeat (apply in_app_or in Hin as [Hin|Hin]).
    + rewrite (Hother _ _ _ _ G1 Hin) in Hpii. discriminate Hpii.
    + rewrite (Hother _ _ _ _ G2 Hin) in Hpii. discriminate Hpii.
    + rewrite (Hother _ _ _ _ G3 Hin) in Hpii. discriminate Hpii.
    + rewrite (Hother _ _ _ _ G5 Hin) in Hpii. discriminate Hpii.
    + apply (proj1 (List.Forall_forall _ _) G6), coached_principle in Hin.
      rewrite Hin in Hpii. discriminate Hpii.
Qed.

Lemma gated_false g sev x : gated false g sev x -> x = [].
Proof. exact (fun H => H). Qed.

Lemma no_bad_totals c p draft_text :
  existsb (bad_total c p) (potential_totals draft_text) = false ->
  bad_totals c p draft_text = 0%nat.
Proof.
  unfold bad_totals. induction (potential_totals draft_text) as [|tok toks IH]; simpl;
    [reflexivity|].
  intros H. apply orb_false_iff in H as [-> H]. now apply IH.
Qed.

Lemma rejects_false draft_text c p b all_buyers n :
  rejects draft_text c p b all_buyers n = false ->
  negb (Py.str_in (price_str p) draft_text) = false
  /\ negb (Py.str_in (Py.str_int n) draft_text) = false
  /\ negb (Py.str_in (str_lower env (fish_type c)) (str_lower env draft_text)) = false
  /\ bool_decide (is_Some (leaked_buyer draft_text b all_buyers)) = false
  /\ existsb (bad_total c p) (potential_totals draft_text) = false.
Proof.
  unfold rejects, omits_fact. intros H.
  apply orb_false_iff in H as [H H5]. apply orb_false_iff in H as [H H4].
  apply orb_false_iff in H as [H H3]. apply orb_false_iff in H as [H1 H2]. auto.
Qed.

(** The coachings of a draft that no blocking guardrail rejects: at most the
    warning for commitment language. *)
Lemma accepted_trace draft_text c p b all_buyers n vs :
  rejects draft_text c p b all_buyers n = false ->
  validation_trace draft_text c p b all_buyers n vs ->
  gated (commits draft_text) "communication_integrity" "high" vs.
Proof.
  intros Hrej (x1 & x2 & x3 & x4 & x5 & x6 & -> & G1 & G2 & G3 & G4 & G5 & G6 & L6).
  destruct (rejects_false _ _ _ _ _ _ Hrej) as (H1 & H2 & H3 & H4 & H5).
  rewrite H1 in G1. rewrite H2 in G2. rewrite H3 in G3. rewrite H4 in G4.
  rewrite (no_bad_totals _ _ _ H5) in L6.
  rewrite (gated_false _ _ _ G1), (gated_false _ _ _ G2), (gated_false _ _ _ G3),
    (gated_false _ _ _ G4).
  destruct x6; [|discriminate L6]. simpl. now rewrite app_nil_r.
Qed.

(** X10. Commitment language alone does not block: a draft that passes the
    blocking guardrails and holds a commitment word is validated with
    [blocked = False] and exactly one coaching, a communication_integrity one
    of severity high, whose level is HIGH and which is itself not blocking. *)
Theorem commitment_language_only_warns draft_text c p b all_buyers n w :
  Py.to_int (pounds c) = Some n ->
  rejects draft_text c p b all_buyers n = false ->
  commits draft_text = true ->
  exists r w' cg,
    _validate_message_draft draft_text c p b all_buyers w = Some (r, w')
    /\ blocked r = false
    /\ violations r = [cg]
    /\ coached "communication_integrity" "high" cg
    /\ coaching_level cg = HIGH
    /\ c_blocked cg = false.
Proof.
  intros Hint Hrej Hcom.
  destruct (validate_trace draft_text c p b all_buyers n w Hint)
    as (r & w' & E & Hb & Htrace & _).
  pose proof (accepted_trace _ _ _ _ _ _ _ Hrej Htrace) as G.
  rewrite Hcom in G. destruct G as (cg & Hv & Hcg).
  exists r, w', cg. split; [exact E|]. split; [now rewrite Hb|].
  split; [exact Hv|]. split; [exact Hcg|].
  destruct (coached_level _ _ _ Hcg) as [Hl Hbl]. rewrite Hbl, Hl. auto.
Qed.

(** ** Further properties of the batch *)

Lemma outcomes_match_lookup c p all_buyers db n todo : forall i vss (k : nat) b,
  outcomes_match c p all_buyers db n i todo vss ->
  todo !! k = Some b ->
  exists vs, vss !! k = Some vs /\ buyer_outcome c p all_buyers db n (i + k) b vs.
Proof.
  induction todo as [|b0 rest IH]; intros i vss k b Hm Hk; [discriminate|].
  destruct vss as [|vs vss']; [destruct Hm|]. destruct Hm as [Hb Hrest].
  destruct k as [|k]; simpl in Hk.
  - injection Hk as ->. exists vs. rewrite Nat.add_0_r. auto.
  - destruct (IH (S i) vss' k b Hrest Hk) as (vs' & Hl & Hv).
    exists vs'. rewrite Nat.add_succ_r. auto.
Qed.

Lemma buyers_loop_trace c p all_buyers db n :
  Py.to_int (pounds c) = Some n ->
  forall todo i acc w,
  exists vss w',
    buyers_loop c p all_buyers db i todo acc w
    = Some (((fst acc ++ expected_drafts c p all_buyers db n i todo)%list,
             (snd acc ++ concat vss)%list), w')
    /\ outcomes_match c p all_buyers db n i todo vss
    /\ (concat vss = [] ->
        (forall (k : nat) b, todo !! k = Some b ->
           commits (_generate_message_text (i + k) c p b) = false) ->
        w' = w).
Proof.
  intros Hint. induction todo as [|b rest IH]; intros i acc w.
  - exists [], w. simpl. unfold ret. rewrite !app_nil_r. now destruct acc.
  - simpl. unfold outcome_draft.
    destruct (contacted_recently db (utcnow env i) b) eqn:Hrecent.
    + unfold bind at 1, coach_call at 1.
      destruct (coach_agent _ w) as [cg w1] eqn:Ecg.
      destruct (IH (S i) (fst acc, (snd acc ++ [cg])%list) w1) as (vss & w' & E & Hm & _).
      exists ([cg] :: vss), w'. rewrite E. simpl.
      rewrite <- app_assoc. split; [reflexivity|]. split; [|discriminate].
      split; [|exact Hm]. unfold buyer_outcome. rewrite Hrecent.
      exists cg. split; [reflexivity|].
      replace cg with (fst (coach_agent
        (_create_violation "business_relationship_protection" "high"
           ("Attempted to contact buyer '" ++ buyer_name b
            ++ "' who was already contacted in last 24 hours")
           "Check message history before contacting buyers") w))
        by now rewrite Ecg.
      apply coached_flag.
    + destruct (validate_trace (_generate_message_text i c p b) c p b all_buyers n w Hint)
        as (r & w1 & E & Hblocked & Htrace & Hw).
      rewrite (bind_run _ _ _ _ _ E). rewrite Hblocked.
      destruct (rejects (_generate_message_text i c p b) c p b all_buyers n) eqn:Hrej.
      * destruct (IH (S i) (fst acc, (snd acc ++ violations r)%list) w1)
          as (vss & w' & E' & Hm & Hw').
        exists (violations r :: vss), w'. rewrite E'. simpl.
        rewrite <- app_assoc. split; [reflexivity|]. split.
        -- split; [|exact Hm]. unfold buyer_outcome. now rewrite Hrecent, Hrej.
        -- intros Hnil Hcom. apply app_eq_nil in Hnil as [Hr Hnil].
           rewrite (Hw' Hnil), (Hw Hr); [reflexivity|].
           intros k b' Hk. specialize (Hcom (S k) b' Hk).
           now rewrite Nat.add_succ_r in Hcom.
      * destruct (IH (S i)
                    ((fst acc ++ [draft_message c p b (_generate_message_text i c p b)])%list,
                     snd acc) w1) as (vss & w' & E' & Hm & Hw').
        exists ([] :: vss), w'. rewrite E'. simpl.
        rewrite <- app_assoc. split; [reflexivity|]. split.
        -- split; [|exact Hm]. unfold buyer_outcome. now rewrite Hrecent, Hrej.
        -- intros Hnil Hcom.
           pose proof (accepted_trace _ _ _ _ _ _ _ Hrej Htrace) as G.
           pose proof (Hcom 0%nat b eq_refl) as H0. rewrite Nat.add_0_r in H0.
           rewrite H0 in G. simpl in G.
           rewrite (Hw' Hnil), (Hw G); [reflexivity|].
           intros k b' Hk. specialize (Hcom (S k) b' Hk).
           now rewrite Nat.add_succ_r in Hcom.
Qed.

Lemma generate_trace c p buyers db n w :
  Py.to_int (pounds c) = Some n ->
  exists r w' vss,
    generate_buyer_messages c (Some p) buyers db w = Some (r, w')
    /\ b_blocked r = false
    /\ error r = None
    /\ drafts r = expected_drafts c p buyers db n 0 buyers
    /\ b_violations r = concat vss
    /\ outcomes_match c p buyers db n 0 buyers vss
    /\ (b_violations r = [] ->
        (forall (k : nat) b, buyers !! k = Some b ->
           commits (_generate_message_text k c p b) = false) ->
        w' = w).
Proof.
  intros Hint. unfold generate_buyer_messages.
  destruct (buyers_loop_trace c p buyers db n Hint buyers 0%nat ([], []) w)
    as (vss & w' & E & Hm & Hw).
  rewrite (bind_run _ _ _ _ _ E). unfold ret.
  eexists _, w', vss. split; [reflexivity|]. simpl. auto 10.
Qed.

(** X11. What the batch reports.  With a price and a finite pound value,
    the violations of the result are, buyer by buyer in the order of the
    list: the one business_relationship_protection coaching of a buyer
    contacted recently; all the coachings of a draft that is rejected; and
    nothing for a draft that is kept, so that the warning coached for the
    commitment language of a kept draft is not in the result. *)
Theorem batch_reports_skipped_and_rejected c p buyers db n w :
  Py.to_int (pounds c) = Some n ->
  exists r w' vss,
    generate_buyer_messages c (Some p) buyers db w = Some (r, w')
    /\ b_violations r = concat vss
    /\ length vss = length buyers
    /\ forall (k : nat) b, buyers !! k = Some b ->
       exists vs,
         vss !! k = Some vs
         /\ (contacted_recently db (utcnow env k) b = true ->
             exists cg, vs = [cg]
                        /\ coached "business_relationship_protection" "high" cg)
         /\ (contacted_recently db (utcnow env k) b = false ->
             rejects (_generate_message_text k c p b) c p b buyers n = true ->
             vs <> []
             /\ validation_trace (_generate_message_text k c p b) c p b buyers n vs)
         /\ (contacted_recently db (utcnow env k) b = false ->
             rejects (_generate_message_text k c p b) c p b buyers n = false ->
             vs = []
             /\ In (draft_message c p b (_generate_message_text k c p b)) (drafts r)).
Proof.
  intros Hint.
  destruct (generate_trace c p buyers db n w Hint)
    as (r & w' & vss & E & _ & _ & Hd & Hv & Hm & _).
  exists r, w', vss. split; [exact E|]. split; [exact Hv|]. split.
  - clear - Hm. revert Hm. generalize 0%nat. revert vss.
    induction buyers as [|b rest IH] at 2 3; intros [|vs vss] i Hm;
      simpl in *; try tauto.
    f_equal. apply (IH vss (S i)). tauto.
  - intros k b Hk.
    destruct (outcomes_match_lookup _ _ _ _ _ _ _ _ _ _ Hm Hk) as (vs & Hvs & Ho).
    exists vs. split; [exact Hvs|]. simpl in Ho. unfold buyer_outcome in Ho.
    destruct (contacted_recently db (utcnow env k) b) eqn:Hrec.
    + split; [auto|]. split; discriminate.
    + split; [discriminate|].
      destruct (rejects (_generate_message_text k c p b) c p b buyers n) eqn:Hrej.
      * split; [|discriminate]. intros _ _. split; [|exact Ho].
        intros ->.
        destruct Ho as (x1 & x2 & x3 & x4 & x5 & x6 & Hnil & G1 & G2 & G3 & G4 & _ & _ & L6).
        symmetry in Hnil.
        apply app_eq_nil in Hnil as [-> Hnil]. apply app_eq_nil in Hnil as [-> Hnil].
        apply app_eq_nil in Hnil as [-> Hnil]. apply app_eq_nil in Hnil as [-> Hnil].
        apply app_eq_nil in Hnil as [_ ->].
        unfold rejects, omits_fact in Hrej.
        destruct (negb (Py.str_in (price_str p) (_generate_message_text k c p b)));
          [now destruct G1 as (? & ? & _)|].
        destruct (negb (Py.str_in (Py.str_int n) (_generate_message_text k c p b)));
          [now destruct G2 as (? & ? & _)|].
        destruct (negb (Py.str_in (str_lower env (fish_type c))
                          (str_lower env (_generate_message_text k c p b))));
          [now destruct G3 as (? & ? & _)|].
        destruct (bool_decide (is_Some (leaked_buyer (_generate_message_text k c p b)
                                          b buyers)));
          [now destruct G4 as (? & ? & _)|].
        simpl in Hrej. simpl in L6. unfold bad_totals in L6.
        clear - Hrej L6.
        induction (potential_totals (_generate_message_text k c p b)) as [|tok toks IH];
          [discriminate|].
        simpl in Hrej, L6. destruct (bad_total c p tok); [discriminate L6|].
        now apply IH.
      * split; [discriminate|]. intros _ _. split; [exact Ho|].
        rewrite Hd.
        apply (expected_drafts_intro c p buyers db n buyers 0%nat _ k b Hk). simpl.
        unfold outcome_draft. rewrite Hrec, Hrej. now left.
Qed.

Lemma outcomes_accepted_nil c p all_buyers db n todo : forall i vss,
  outcomes_match c p all_buyers db n i todo vss ->
  (forall (k : nat) b, todo !! k = Some b ->
     contacted_recently db (utcnow env (i + k)) b = false
     /\ rejects (_generate_message_text (i + k) c p b) c p b all_buyers n = false) ->
  concat vss = []
  /\ expected_drafts c p all_buyers db n i todo
     = imap (fun k b => draft_message c p b (_generate_message_text (i + k) c p b)) todo.
Proof.
  induction todo as [|b rest IH]; intros i [|vs vss] Hm Hok; simpl in Hm;
    try tauto.
  destruct Hm as [Hb Hrest].
  destruct (Hok 0%nat b eq_refl) as [Hrec Hrej]. rewrite Nat.add_0_r in Hrec, Hrej.
  unfold buyer_outcome in Hb. rewrite Hrec, Hrej in Hb. subst vs.
  destruct (IH (S i) vss Hrest) as [Hnil Hd].
  { intros k b' Hk. specialize (Hok (S k) b' Hk). now rewrite Nat.add_succ_r in Hok. }
  simpl. split; [exact Hnil|].
  unfold outcome_draft. rewrite Hrec, Hrej, Hd, Nat.add_0_r. simpl. f_equal.
  apply imap_ext. intros k b' _. simpl. now rewrite Nat.add_succ_r.
Qed.

(** X12. The batch that goes through.  With a price and a finite pound
    value, when no buyer of the list was contacted recently and no draft is
    rejected, the result holds one draft per buyer, in the order of the
    list, and no violation; when moreover no draft holds commitment
    language, the coach and the clock are as before the call. *)
Theorem clean_batch c p buyers db n w :
  Py.to_int (pounds c) = Some n ->
  (forall (k : nat) b, buyers !! k = Some b ->
     contacted_recently db (utcnow env k) b = false
     /\ rejects (_generate_message_text k c p b) c p b buyers n = false) ->
  exists r w',
    generate_buyer_messages c (Some p) buyers db w = Some (r, w')
    /\ drafts r
       = imap (fun k b => draft_message c p b (_generate_message_text k c p b)) buyers
    /\ b_violations r = []
    /\ b_blocked r = false
    /\ ((forall (k : nat) b, buyers !! k = Some b ->
           commits (_generate_message_text k c p b) = false) ->
        w' = w).
Proof.
  intros Hint Hok.
  destruct (generate_trace c p buyers db n w Hint)
    as (r & w' & vss & E & Hb & _ & Hd & Hv & Hm & Hw).
  destruct (outcomes_accepted_nil c p buyers db n buyers 0%nat vss Hm Hok) as [Hnil Hall].
  exists r, w'. split; [exact E|]. split; [now rewrite Hd, Hall|].
  split; [now rewrite Hv|]. split; [exact Hb|].
  apply Hw. now rewrite Hv.
Qed.

Lemma expected_drafts_sublist c p all_buyers db n todo : forall i,
  sublist (map d_buyer_id (expected_drafts c p all_buyers db n i todo))
          (map buyer_id todo).
Proof.
  induction todo as [|b rest IH]; intros i; simpl; [constructor|].
  unfold outcome_draft.
  destruct (contacted_recently db (utcnow env i) b); simpl.
  - apply sublist_cons, IH.
  - destruct (rejects _ c p b all_buyers n); simpl.
    + apply sublist_cons, IH.
    + apply sublist_skip, IH.
Qed.

Lemma generate_drafts c p buyers db w r w' :
  generate_buyer_messages c (Some p) buyers db w = Some (r, w') ->
  drafts r = []
  \/ exists n, Py.to_int (pounds c) = Some n
               /\ drafts r = expected_drafts c p buyers db n 0 buyers.
Proof.
  intros E. destruct (Py.to_int (pounds c)) as [n|] eqn:Hint.
  - right. exists n. split; [reflexivity|].
    destruct (generate_run c p buyers db n w Hint) as (r0 & w0 & vss & E0 & _ & Hd & _).
    rewrite E0 in E. now injection E as <- <-.
  - left. unfold generate_buyer_messages, bind at 1 in E.
    destruct (buyers_loop c p buyers db 0 buyers ([], []) w) as [[acc w1]|] eqn:El;
      [|discriminate].
    unfold ret in E. injection E as <- <-. simpl.
    now rewrite (buyers_loop_raises c p buyers db Hint _ _ _ _ _ _ El).
Qed.

(** X13. The drafts follow the buyers.  Whenever [generate_buyer_messages]
    returns, with a price, the buyer ids of its drafts are a subsequence of
    the buyer ids of the list (no buyer gets two drafts for one entry, none
    is invented, the order is kept), and every draft is the draft of a buyer
    of the list who was not contacted recently: it carries that buyer's id
    and name and repeats the id, the fish type and the pounds of the catch
    and the price per pound. *)
Theorem drafts_follow_buyers c p buyers db w r w' :
  generate_buyer_messages c (Some p) buyers db w = Some (r, w') ->
  sublist (map d_buyer_id (drafts r)) (map buyer_id buyers)
  /\ forall d, In d (drafts r) ->
     exists (k : nat) b,
       buyers !! k = Some b
       /\ contacted_recently db (utcnow env k) b = false
       /\ d_buyer_id d = buyer_id b
       /\ d_buyer_name d = buyer_name b
       /\ message_text d = _generate_message_text k c p b
       /\ d_catch_id d = catch_id c
       /\ d_fish_type d = fish_type c
       /\ d_pounds d = pounds c
       /\ d_price_per_lb d = price_per_lb p.
Proof.
  intros E. destruct (generate_drafts _ _ _ _ _ _ _ E) as [->|(n & Hint & ->)].
  - split; [apply sublist_nil_l|intros d []].
  - split; [apply expected_drafts_sublist|].
    intros d Hin.
    destruct (expected_drafts_lookup _ _ _ _ _ _ _ _ Hin) as (k & b & Hk & Hout).
    change (0 + k)%nat with k in Hout. unfold outcome_draft in Hout.
    exists k, b. split; [exact Hk|].
    destruct (contacted_recently db (utcnow env k) b); [destruct Hout|].
    destruct (rejects _ c p b buyers n); [destruct Hout|].
    destruct Hout as [<-|[]]. repeat split.
Qed.

(** X14. [contact_buyers] hands the agent the buyers with no preferred fish
    and those whose preference text contains the fish type of the catch;
    whatever the price, every draft that comes back goes to such a buyer of
    the table. *)
Theorem drafts_go_to_matching_buyers c price all_buyers db w r w' :
  generate_buyer_messages c price (matching_buyers c all_buyers) db w = Some (r, w') ->
  forall d, In d (drafts r) ->
  exists b,
    In b all_buyers
    /\ d_buyer_id d = buyer_id b
    /\ d_buyer_name d = buyer_name b
    /\ (preferred_fish b = None
        \/ preferred_fish b = Some EmptyString
        \/ exists pf, preferred_fish b = Some pf
                      /\ Py.str_in (fish_type c) pf = true).
Proof.
  intros E d Hin. destruct price as [p|].
  - destruct (generate_drafts _ _ _ _ _ _ _ E) as [Hnil|(n & Hint & Hd)];
      [rewrite Hnil in Hin; destruct Hin|].
    rewrite Hd in Hin.
    destruct (expected_drafts_lookup _ _ _ _ _ _ _ _ Hin) as (k & b & Hk & Hout).
    change (0 + k)%nat with k in Hout. unfold outcome_draft in Hout.
    destruct (contacted_recently db (utcnow env k) b); [destruct Hout|].
    destruct (rejects _ c p b _ n); [destruct Hout|].
    destruct Hout as [<-|[]].
    apply list_elem_of_lookup_2, list_elem_of_In in Hk.
    unfold matching_buyers in Hk. apply filter_In in Hk as [Hall Hpref].
    exists b. split; [exact Hall|]. split; [reflexivity|]. split; [reflexivity|].
    destruct (preferred_fish b) as [pf|]; [|now left]. right.
    apply orb_true_iff in Hpref as [Hpref|Hpref].
    + left. now apply String.eqb_eq in Hpref as ->.
    + right. now exists pf.
  - exfalso. unfold generate_buyer_messages, bind, coach_call, ret in E.
    destruct (coach_agent _ w). injection E as <- <-. destruct Hin.
Qed.

(** ** Further properties of [validate_catch_log] *)

Lemma SFeqb_refl_nan x : SFeqb x x = false -> x = S754_nan.
Proof.
  unfold SFeqb. destruct x as [[]|[]| |[] m e]; simpl; try discriminate;
    try reflexivity; rewrite Z.compare_refl, Pos.compare_cont_refl; discriminate.
Qed.

(** A NaN is neither at most nor more than anything. *)
Lemma nan_compares x y :
  PrimFloat.is_nan x = true ->
  PrimFloat.leb x y = false /\ PrimFloat.ltb y x = false.
Proof.
  unfold PrimFloat.is_nan. rewrite FloatAxioms.eqb_spec, FloatAxioms.leb_spec,
    FloatAxioms.ltb_spec.
  intros H. apply negb_true_iff, SFeqb_refl_nan in H. rewrite H.
  unfold SFleb, SFltb. now destruct (Prim2SF y) as [[]|[]| |[] m e].
Qed.

Lemma validate_catch_log_trace fish lbs w :
  exists r w',
    validate_catch_log fish lbs w = Some (r, w')
    /\ blocked r = negb (Py.in_list fish valid_fish_types) || PrimFloat.leb lbs 0%float
    /\ length (violations r)
       = (Nat.b2n (negb (Py.in_list fish valid_fish_types))
          + Nat.b2n (PrimFloat.leb lbs 0%float)
          + Nat.b2n (Py.gt lbs 10000%float))%nat
    /\ (violations r = [] -> w' = w)
    /\ (PrimFloat.is_nan lbs = true -> Py.in_list fish valid_fish_types = true ->
        blocked r = false /\ violations r = [] /\ w' = w).
Proof.
  unfold validate_catch_log.
  edestruct (guard_trace (negb (Py.in_list fish valid_fish_types)) true)
    as (x1 & w1 & E1 & G1 & W1).
  rewrite (bind_run _ _ _ _ _ E1). clear E1.
  edestruct (guard_trace (PrimFloat.leb lbs 0%float) true) as (x2 & w2 & E2 & G2 & W2).
  rewrite (bind_run _ _ _ _ _ E2). clear E2.
  edestruct (guard_trace (Py.gt lbs 10000%float) false) as (x3 & w3 & E3 & G3 & W3).
  rewrite (bind_run _ _ _ _ _ E3). clear E3.
  unfold ret. eexists _, _. split; [reflexivity|].
  cbn [blocked violations fst snd app].
  rewrite !andb_true_r, andb_false_r, orb_false_r.
  assert (Hlen : forall cond g sev x, gated cond g sev x -> length x = Nat.b2n cond).
  { intros [] g sev x Hg; simpl in Hg; [now destruct Hg as (cg & -> & _)|now subst]. }
  assert (Hnil : (x1 ++ x2 ++ x3)%list = [] -> w3 = w).
  { intros H. apply app_eq_nil in H as [-> H]. apply app_eq_nil in H as [-> ->].
    rewrite (W3 eq_refl), (W2 eq_refl). now apply W1. }
  split; [reflexivity|]. split; [|split].
  - rewrite !length_app, (Hlen _ _ _ _ G1), (Hlen _ _ _ _ G2), (Hlen _ _ _ _ G3). lia.
  - rewrite <- app_assoc. exact Hnil.
  - intros Hnan Hfish.
    destruct (nan_compares lbs 0%float Hnan) as [Hle _].
    destruct (nan_compares lbs 10000%float Hnan) as [_ Hgt].
    unfold Py.gt in *. rewrite Hfish, Hle in *. rewrite Hgt in G3.
    simpl in G1, G2, G3. subst x1 x2 x3. simpl. repeat split. now apply Hnil.
Qed.

(** X15. [validate_catch_log] always returns.  It blocks exactly when the
    fish type is not one of the four or the pounds are at most 0; it records
    one coaching for each of its three tests that fails (the fish type, the
    pounds at most 0, the pounds over 10000) and leaves the coach untouched
    when none does.  A NaN fails neither test on the pounds: with a valid
    fish type it is let through with no violation at all. *)
Theorem validate_catch_log_exact fish lbs w :
  exists r w',
    validate_catch_log fish lbs w = Some (r, w')
    /\ blocked r = negb (Py.in_list fish valid_fish_types) || PrimFloat.leb lbs 0%float
    /\ length (violations r)
       = (Nat.b2n (negb (Py.in_list fish valid_fish_types))
          + Nat.b2n (PrimFloat.leb lbs 0%float)
          + Nat.b2n (Py.gt lbs 10000%float))%nat
    /\ (violations r = [] -> w' = w)
    /\ (PrimFloat.is_nan lbs = true -> Py.in_list fish valid_fish_types = true ->
        blocked r = false /\ violations r = [] /\ w' = w).
Proof. exact (validate_catch_log_trace fish lbs w). Qed.

(** X16. A pound value that [int] cannot convert and that is not at most 0
    (a positive infinity or a NaN) passes [validate_catch_log]: for a valid
    fish type the log is not blocked.  But for a catch with such a pound
    value no draft can be validated: [_validate_message_draft] raises
    whatever the draft, and [generate_buyer_messages] raises as soon as the
    list holds a buyer who was not contacted recently. *)
Theorem unbounded_pounds_pass_then_raise c p w :
  Py.to_int (pounds c) = None ->
  PrimFloat.leb (pounds c) 0%float = false ->
  (Py.in_list (fish_type c) valid_fish_types = true ->
   exists r w', validate_catch_log (fish_type c) (pounds c) w = Some (r, w')
                /\ blocked r = false)
  /\ (forall draft_text b all_buyers w0,
        _validate_message_draft draft_text c p b all_buyers w0 = None)
  /\ (forall buyers db (k : nat) b,
        buyers !! k = Some b ->
        contacted_recently db (utcnow env k) b = false ->
        generate_buyer_messages c (Some p) buyers db w = None).
Proof.
  intros Hint Hle. split; [|split].
  - intros Hfish.
    destruct (validate_catch_log_trace (fish_type c) (pounds c) w)
      as (r & w' & E & Hb & _).
    exists r, w'. split; [exact E|]. now rewrite Hb, Hfish, Hle.
  - intros. now apply validate_raises.
  - intros buyers db k b Hk Hrec. unfold generate_buyer_messages.
    assert (Hloop : forall todo i acc w0 (j : nat),
               todo !! j = Some b ->
               contacted_recently db (utcnow env (i + j)) b = false ->
               buyers_loop c p buyers db i todo acc w0 = None).
    { induction todo as [|b0 rest IH]; intros i acc w0 j Hj Hr; [discriminate|].
      simpl. destruct j as [|j]; simpl in Hj.
      - injection Hj as ->. rewrite Nat.add_0_r in Hr. rewrite Hr.
        unfold bind at 1. now rewrite (validate_raises _ _ _ _ _ _ Hint).
      - rewrite Nat.add_succ_r in Hr.
        destruct (contacted_recently db (utcnow env i) b0).
        + unfold bind at 1, coach_call at 1. destruct (coach_agent _ w0).
          now apply (IH _ _ _ j).
        + unfold bind at 1. now rewrite (validate_raises _ _ _ _ _ _ Hint). }
    unfold bind at 1. now rewrite (Hloop buyers 0%nat _ w k Hk Hrec).
Qed.

(** ** The figures the pattern finds *)

(** X17. The figures of guardrail 6.  [re.findall] with the dollar pattern
    finds exactly the figures that follow a dollar sign of the text, a figure
    being digits, then comma groups of three digits, then a dot and two
    digits if there are, each part as long as it can be; the digits are those
    of any script.  Every figure found begins with a digit, is made of
    digits, commas and dots only, and converts to a float once its commas are
    removed. *)
Theorem findall_finds_every_amount draft_text tok :
  (In tok (potential_totals draft_text)
   <-> exists pre rest,
         Py.codepoints draft_text = (pre ++ 36%N :: tok ++ rest)%list
         /\ figure tok rest)
  /\ (In tok (potential_totals draft_text) ->
      starts_with_digit tok = true
      /\ forallb figure_char tok = true
      /\ exists val, total_value tok = Some val).
Proof.
  split; [apply figure_found|].
  intros Hin. destruct (findall_sound _ _ _ Hin) as (pre & s & _ & Ha).
  destruct (amount_chars _ _ Ha) as [Hf Hd].
  split; [exact Hd|]. split; [exact Hf|]. now apply (amount_parses s).
Qed.

(** ** Texts and their code points *)

#[local] Arguments N.leb : simpl never.
#[local] Arguments N.ltb : simpl never.

(** A byte of ASCII is a character of its own, wherever it stands. *)
Lemma decode_ascii need acc c s :
  (N_of_ascii c < 128)%N ->
  Py.decode_from need acc (String c s) = N_of_ascii c :: Py.decode_from 0 0 s.
Proof.
  intros Hc. simpl.
  assert (H128 : (128 <=? N_of_ascii c)%N = false) by (apply N.leb_gt; exact Hc).
  assert (Hlead : Py.lead (N_of_ascii c) = None).
  { unfold Py.lead. assert ((N_of_ascii c <? 192)%N = true) as -> by (apply N.ltb_lt; lia).
    reflexivity. }
  rewrite H128, Hlead. now destruct need.
Qed.

Lemma decode_before_ascii c s : (N_of_ascii c < 128)%N -> forall pre need acc,
  exists l,
    Py.decode_from need acc (pre ++ String c s)
    = (l ++ N_of_ascii c :: Py.decode_from 0 0 s)%list.
Proof.
  intros Hc. induction pre as [|b pre IH]; intros need acc.
  - exists []. now apply decode_ascii.
  - rewrite append_cons. simpl.
    destruct (match need with
              | O => false
              | S _ => ((128 <=? N_of_ascii b)%N && (N_of_ascii b <? 192)%N)%bool
              end).
    + destruct need as [|[|k]].
      * destruct (IH 0%nat 0%N) as (l & ->). now eexists (_ :: l).
      * destruct (IH 0%nat 0%N) as (l & ->). now eexists (_ :: l).
      * apply IH.
    + destruct (Py.lead (N_of_ascii b)) as [[k a]|].
      * apply IH.
      * destruct (IH 0%nat 0%N) as (l & ->). now eexists (_ :: l).
Qed.

Lemma ascii_digit_bound c : is_ascii_digit c = true -> (N_of_ascii c < 128)%N.
Proof.
  unfold is_ascii_digit, Py.ascii_digit.
  destruct ((48 <=? N_of_ascii c)%N && (N_of_ascii c <=? 57)%N)%bool eqn:E;
    [|discriminate].
  intros _. apply andb_true_iff in E as [_ E]. apply N.leb_le in E. lia.
Qed.

Lemma ascii_digit_decimal c :
  is_ascii_digit c = true -> Py.is_decimal (decimal env) (N_of_ascii c) = true.
Proof.
  intros H. unfold Py.is_decimal.
  rewrite (decimal_ascii env _ (ascii_digit_bound c H)).
  exact H.
Qed.

(** Digits of ASCII at the head of a text are its first characters. *)
Lemma codepoints_ascii_digits ds rest :
  ascii_digits ds = true ->
  exists cps,
    Py.codepoints (ds ++ rest) = (cps ++ Py.codepoints rest)%list
    /\ Py.codepoints ds = cps
    /\ all_digits cps = true
    /\ (ds <> EmptyString -> cps <> []).
Proof.
  unfold Py.codepoints. induction ds as [|c ds IH]; intros H.
  - exists []. repeat split. intros Hne. now destruct Hne.
  - simpl in H. apply andb_true_iff in H as [Hc Hd].
    destruct (IH Hd) as (cps & E1 & E2 & Hall & _).
    exists (N_of_ascii c :: cps).
    rewrite append_cons, !(decode_ascii _ _ _ _ (ascii_digit_bound c Hc)).
    rewrite E1, E2. repeat split; [|discriminate].
    simpl. now rewrite (ascii_digit_decimal c Hc), Hall.
Qed.

Lemma amount_one_decimal cps d rest :
  all_digits cps = true -> cps <> [] ->
  starts_with_digit rest = false ->
  Re.amount (decimal env) (cps ++ 46%N :: d :: rest) = Some cps.
Proof.
  intros Hds Hne Hrest.
  apply amount_figure. exists (46%N :: d :: rest). split; [reflexivity|].
  exists cps, [], []. rewrite !app_nil_r.
  split; [reflexivity|]. split; [exact Hne|]. split; [exact Hds|].
  split; [constructor|]. split; [now left|].
  split; [apply dot_not_digit|].
  split.
  - simpl. destruct rest as [|c1 [|c2 rest]]; reflexivity.
  - intros _. simpl. destruct rest as [|c1 rest]; [reflexivity|].
    simpl in Hrest. now rewrite Hrest, andb_false_r.
Qed.

(** X18. The pattern wants two decimals.  After a dollar sign, digits
    followed by a dot and a single decimal (no digit of any script behind
    it) are read as the digits alone.  So a draft that quotes a price such
    as $4.2/lb is taken to quote the figure 4: when that integer part
    differs from the price per pound and is off pounds times price by more
    than the margin, the validation blocks the draft and records a
    financial_accuracy coaching. *)
Theorem price_with_one_decimal_is_cut c p n ds d rest val :
  Py.to_int (pounds c) = Some n ->
  ascii_digits ds = true -> ds <> EmptyString ->
  is_ascii_digit d = true ->
  starts_with_digit (Py.codepoints rest) = false ->
  total_value (Py.codepoints ds) = Some val ->
  Py.ne val (price_per_lb p) = true ->
  wrong_total val (pounds c * price_per_lb p)%float = true ->
  forall pre b all_buyers w,
    In (Py.codepoints ds)
       (potential_totals (pre ++ String "$" (ds ++ String "." (String d rest))))
    /\ exists r w',
         _validate_message_draft
           (pre ++ String "$" (ds ++ String "." (String d rest))) c p b all_buyers w
         = Some (r, w')
         /\ blocked r = true
         /\ Exists (coached "financial_accuracy" "high") (violations r).
Proof.
  intros Hint Hds Hne Hd Hrest Hval Hneq Hwrong pre b all_buyers w.
  destruct (codepoints_ascii_digits ds (String "." (String d rest)) Hds)
    as (cps & Hcp & Hcps & Hall & Hnil).
  specialize (Hnil Hne). rewrite Hcps in *.
  assert (Hin : In cps
                  (potential_totals (pre ++ String "$" (ds ++ String "." (String d rest))))).
  { unfold potential_totals, Re.findall, Py.codepoints.
    destruct (decode_before_ascii "$" (ds ++ String "." (String d rest))
                ltac:(reflexivity) pre 0%nat 0%N) as (l & ->).
    fold (Py.codepoints (ds ++ String "." (String d rest))). rewrite Hcp.
    unfold Py.codepoints at 1.
    rewrite (decode_ascii _ _ "." _ ltac:(reflexivity)).
    rewrite (decode_ascii _ _ d _ (ascii_digit_bound d Hd)).
    apply (findall_complete _ cps); [|lia].
    now apply amount_one_decimal. }
  split; [exact Hin|].
  destruct (validate_run (pre ++ String "$" (ds ++ String "." (String d rest)))
              c p b all_buyers n w Hint) as (r & w' & E & Hb & _ & Hfa).
  assert (Hex : existsb (bad_total c p)
                  (potential_totals (pre ++ String "$" (ds ++ String "." (String d rest))))
                = true).
  { apply existsb_exists. exists cps. split; [exact Hin|].
    unfold bad_total. now rewrite Hval, Hneq, Hwrong. }
  exists r, w'. split; [exact E|]. split; [|now apply Hfa].
  rewrite Hb. unfold rejects. rewrite Hex. apply orb_true_r.
Qed.

(** ** The template of the drafting *)

Lemma str_in_middle x a b : Py.str_in x (a ++ x ++ b) = true.
Proof. apply str_in_app_r, str_in_app_l, str_in_refl. Qed.

Lemma fallback_text_parts c p b :
  fallback_text c p b
  = ("Hey " ++ buyer_name b ++ ", got " ++ float_text env (pounds c)
     ++ " lbs fresh " ++ fish_type c ++ " today. Cannery buying at ")
    ++ price_str p ++ "/lb. Interested?".
Proof.
  unfold fallback_text, price_str. now rewrite !string_app_assoc.
Qed.

(** The fish type stands between two spaces of the template. *)
Lemma fallback_text_fish c p b :
  fallback_text c p b
  = ("Hey " ++ buyer_name b ++ ", got " ++ float_text env (pounds c) ++ " lbs fresh")
    ++ " " ++ fish_type c ++ " "
    ++ ("today. Cannery buying at $" ++ float_text env (price_per_lb p)
        ++ "/lb. Interested?").
Proof.
  unfold fallback_text. now rewrite !string_app_assoc.
Qed.

(** X19. When the message service fails, the draft is the template, which
    states the recipient's name, the pounds as Python prints them, the fish
    type, and the price figure with its dollar sign.  So the template never
    fails the guardrails on the price and on the fish type: of the three
    facts only the integer pound count can be found missing. *)
Theorem template_states_the_facts k c p b n :
  service_text env k c p b = None ->
  Py.str_in (buyer_name b) (_generate_message_text k c p b) = true
  /\ Py.str_in (float_text env (pounds c)) (_generate_message_text k c p b) = true
  /\ Py.str_in (price_str p) (_generate_message_text k c p b) = true
  /\ Py.str_in (str_lower env (fish_type c))
       (str_lower env (_generate_message_text k c p b)) = true
  /\ omits_fact (_generate_message_text k c p b) c p n
     = negb (Py.str_in (Py.str_int n) (_generate_message_text k c p b)).
Proof.
  intros Hdown. unfold _generate_message_text. rewrite Hdown.
  assert (H1 : Py.str_in (buyer_name b) (fallback_text c p b) = true).
  { unfold fallback_text. apply str_in_middle. }
  assert (H2 : Py.str_in (float_text env (pounds c)) (fallback_text c p b) = true).
  { unfold fallback_text. do 3 apply str_in_app_r. apply str_in_app_l, str_in_refl. }
  assert (H3 : Py.str_in (price_str p) (fallback_text c p b) = true).
  { rewrite fallback_text_parts. apply str_in_middle. }
  assert (H4 : Py.str_in (str_lower env (fish_type c))
                 (str_lower env (fallback_text c p b)) = true).
  { rewrite fallback_text_fish, !(str_lower_space env).
    do 2 apply str_in_app_r. apply str_in_app_l, str_in_refl. }
  repeat split; try assumption.
  unfold omits_fact. now rewrite H3, H4, orb_false_r.
Qed.

(** X20. Namesakes block each other.  When the message service fails and
    the list holds another buyer (with a different id) whose name occurs in
    the recipient's name, the same name or a part of it, the recipient's
    template draft is blocked with a pii_protection coaching: it holds the
    recipient's name and, with it, the other buyer's. *)
Theorem namesake_blocks_template k c p b other all_buyers n w :
  Py.to_int (pounds c) = Some n ->
  service_text env k c p b = None ->
  In other all_buyers ->
  buyer_id other <> buyer_id b ->
  Py.str_in (buyer_name other) (buyer_name b) = true ->
  exists r w',
    _validate_message_draft (_generate_message_text k c p b) c p b all_buyers w
    = Some (r, w')
    /\ blocked r = true
    /\ Exists (coached "pii_protection" "critical") (violations r)
    /\ outcome_draft c p all_buyers [] n k b = [].
Proof.
  intros Hint Hdown Hin Hid Hname.
  assert (Htext : Py.str_in (buyer_name other) (_generate_message_text k c p b) = true).
  { unfold _generate_message_text. rewrite Hdown. unfold fallback_text.
    apply str_in_app_r, str_in_app_l, Hname. }
  pose proof (leaked_buyer_some _ b all_buyers other Hin Hid (or_introl Htext)) as Hl.
  destruct (validate_trace (_generate_message_text k c p b) c p b all_buyers n w Hint)
    as (r & w' & E & Hb & (x1 & x2 & x3 & x4 & x5 & x6 & Hv & _ & _ & _ & G4 & _) & _).
  assert (Hrej : rejects (_generate_message_text k c p b) c p b all_buyers n = true).
  { unfold rejects. rewrite (bool_decide_eq_true_2 _ Hl). now rewrite orb_true_r. }
  exists r, w'. split; [exact E|]. split; [now rewrite Hb|]. split.
  - rewrite (bool_decide_eq_true_2 _ Hl) in G4. destruct G4 as (cg & -> & Hcg).
    rewrite Hv. apply Exists_app. right. apply Exists_app. right.
    apply Exists_app. right. apply Exists_app. left. now constructor.
  - unfold outcome_draft. simpl. now rewrite Hrej.
Qed.

(** ** The agent reaches the coach through [coach_agent] only *)

Lemma flag_keeps (P : World -> Prop) blocking v st w st' w' :
  (forall v0 w0, P w0 -> P (snd (coach_agent v0 w0))) ->
  P w -> flag blocking v st w = Some (st', w') -> P w'.
Proof.
  intros Hstep Hw E. rewrite flag_run in E. injection E as _ <-. now apply Hstep.
Qed.

Lemma check_totals_keeps (P : World -> Prop) c p toks :
  (forall v0 w0, P w0 -> P (snd (coach_agent v0 w0))) ->
  forall st w st' w', P w -> check_totals c p toks st w = Some (st', w') -> P w'.
Proof.
  intros Hstep. induction toks as [|tok toks IH]; intros st w st' w' Hw E; simpl in E.
  - unfold ret in E. now injection E as _ <-.
  - destruct (total_value tok) as [val|]; [|now apply (IH st w st')].
    destruct (Py.ne val (price_per_lb p)
              && wrong_total val (pounds c * price_per_lb p)%float);
      [|now apply (IH st w st')].
    rewrite (bind_run _ _ _ _ _ (flag_run _ _ _ _)) in E.
    eapply IH; [|exact E]. now apply Hstep.
Qed.

Lemma guard_keeps (P : World -> Prop) (cond blocking : bool) v st w st' w' :
  (forall v0 w0, P w0 -> P (snd (coach_agent v0 w0))) ->
  P w -> (if cond then flag blocking v st else ret st) w = Some (st', w') -> P w'.
Proof.
  intros Hstep Hw E. destruct cond.
  - now apply (flag_keeps P blocking v st w st' w').
  - unfold ret in E. now injection E as _ <-.
Qed.

Lemma bind_inv {A B} (m : M A) (k : A -> M B) w b w' :
  bind m k w = Some (b, w') ->
  exists a w1, m w = Some (a, w1) /\ k a w1 = Some (b, w').
Proof.
  unfold bind. destruct (m w) as [[a w1]|]; [|discriminate]. eauto.
Qed.

Lemma validate_keeps (P : World -> Prop) draft_text c p b all_buyers w r w' :
  (forall v0 w0, P w0 -> P (snd (coach_agent v0 w0))) ->
  P w -> _validate_message_draft draft_text c p b all_buyers w = Some (r, w') -> P w'.
Proof.
  intros Hstep Hw E. unfold _validate_message_draft in E.
  apply bind_inv in E as (st1 & w1 & E1 & E). apply (guard_keeps P) in E1; try assumption.
  apply bind_inv in E as (n & w1' & En & E).
  assert (w1' = w1) as ->.
  { destruct (Py.to_int (pounds c)); [|discriminate En].
    unfold ret in En. now injection En as _ <-. }
  apply bind_inv in E as (st2 & w2 & E2 & E). apply (guard_keeps P) in E2; try assumption.
  apply bind_inv in E as (st3 & w3 & E3 & E). apply (guard_keeps P) in E3; try assumption.
  apply bind_inv in E as (st4 & w4 & E4 & E).
  assert (H4 : P w4).
  { destruct (leaked_buyer draft_text b all_buyers).
    - now apply (flag_keeps P _ _ _ _ _ _ Hstep E3) in E4.
    - unfold ret in E4. now injection E4 as _ <-. }
  apply bind_inv in E as (st5 & w5 & E5 & E). apply (guard_keeps P) in E5; try assumption.
  apply bind_inv in E as (st6 & w6 & E6 & E).
  apply (check_totals_keeps P _ _ _ Hstep) in E6; try assumption.
  unfold ret in E. now injection E as _ <-.
Qed.

Lemma buyers_loop_keeps (P : World -> Prop) c p all_buyers db :
  (forall v0 w0, P w0 -> P (snd (coach_agent v0 w0))) ->
  forall todo i acc w acc' w',
    P w -> buyers_loop c p all_buyers db i todo acc w = Some (acc', w') -> P w'.
Proof.
  intros Hstep. induction todo as [|b rest IH]; intros i acc w acc' w' Hw E; simpl in E.
  - unfold ret in E. now injection E as _ <-.
  - destruct (contacted_recently db (utcnow env i) b).
    + unfold bind at 1, coach_call at 1 in E.
      destruct (coach_agent _ w) as [cg w1] eqn:Ecg.
      eapply IH; [|exact E].
      replace w1 with (snd (coach_agent
        (_create_violation "business_relationship_protection" "high"
           ("Attempted to contact buyer '" ++ buyer_name b
            ++ "' who was already contacted in last 24 hours")
           "Check message history before contacting buyers") w))
        by now rewrite Ecg.
      now apply Hstep.
    + apply bind_inv in E as (r & w1 & Ev & E).
      apply (validate_keeps P) in Ev; try assumption.
      destruct (blocked r); now apply IH in E.
Qed.

(** X21. The agent changes the coach through [coach_agent] only: whatever
    holds of the coach and the clock and is kept by every call of
    [coach_agent] is kept by each method of the agent that returns: the
    validation of a draft, the batch, the validation of a catch log and the
    validation of a data access. *)
Theorem agent_keeps_what_coach_agent_keeps (P : World -> Prop) w :
  (forall v0 w0, P w0 -> P (snd (coach_agent v0 w0))) ->
  P w ->
  (forall draft_text c p b all_buyers r w',
     _validate_message_draft draft_text c p b all_buyers w = Some (r, w') -> P w')
  /\ (forall c price buyers db r w',
        generate_buyer_messages c price buyers db w = Some (r, w') -> P w')
  /\ (forall fish lbs r w', validate_catch_log fish lbs w = Some (r, w') -> P w')
  /\ (forall authenticated resource r w',
        validate_data_access authenticated resource w = Some (r, w') -> P w').
Proof.
  intros Hstep Hw. split; [|split; [|split]].
  - intros. now apply (validate_keeps P) in H.
  - intros c [p|] buyers db r w' E; unfold generate_buyer_messages in E.
    + apply bind_inv in E as (acc & w1 & El & E).
      apply (buyers_loop_keeps P _ _ _ _ Hstep) in El; try assumption.
      unfold ret in E. now injection E as _ <-.
    + unfold bind, coach_call, ret in E.
      destruct (coach_agent _ w) as [cg w1] eqn:Ecg. injection E as _ <-.
      replace w1 with (snd (coach_agent
        (_create_violation "hallucination_prevention" "critical"
           "Attempted to generate messages without verified price data"
           "Current price from cannery scraping or manual entry") w))
        by now rewrite Ecg.
      now apply Hstep.
  - intros fish lbs r w' E. unfold validate_catch_log in E.
    apply bind_inv in E as (st1 & w1 & E1 & E). apply (guard_keeps P) in E1; try assumption.
    apply bind_inv in E as (st2 & w2 & E2 & E). apply (guard_keeps P) in E2; try assumption.
    apply bind_inv in E as (st3 & w3 & E3 & E). apply (guard_keeps P) in E3; try assumption.
    unfold ret in E. now injection E as _ <-.
  - intros [] resource r w' E; unfold validate_data_access in E; simpl in E.
    + unfold ret in E. now injection E as _ <-.
    + unfold bind, coach_call, ret in E.
      destruct (coach_agent _ w) as [cg w1] eqn:Ecg. injection E as _ <-.
      replace w1 with (snd (coach_agent
        (_create_violation "data_access_control" "critical"
           ("Unauthorized access attempt to " ++ resource)
           "User must be authenticated to access data") w))
        by now rewrite Ecg.
      now apply Hstep.
Qed.

(** ** The ids of the events *)

Lemma coach_agent_event_id v w :
  exists e,
    coaching_history (coach (snd (coach_agent v w)))
    = (coaching_history (coach w) ++ [e])%list
    /\ event_id e = "coach_" ++ timestamp_text env (now env (clock_reads w)).
Proof.
  unfold coach_agent, _get_or_create_profile.
  destruct (agent_profiles (coach w) !! v_agent_id v) as [profile|]; simpl;
    eexists; repeat split.
Qed.

Lemma record_outcome_in_lookup coaching_id improved' timeline h : forall (i : nat) e',
  record_outcome_in coaching_id improved' timeline h !! i = Some e' ->
  exists e, h !! i = Some e /\ event_id e' = event_id e.
Proof.
  induction h as [|e0 rest IH]; intros i e' Hi; [discriminate|].
  simpl in Hi. destruct (String.eqb (event_id e0) coaching_id).
  - destruct i as [|i]; simpl in Hi |- *.
    + injection Hi as <-. now exists e0.
    + now exists e'.
  - destruct i as [|i]; simpl in Hi |- *.
    + injection Hi as <-. now exists e0.
    + now apply IH.
Qed.

Lemma record_outcome_in_insert improved' timeline h : forall (i : nat) e,
  h !! i = Some e ->
  (forall (j : nat) e0, (j < i)%nat -> h !! j = Some e0 -> event_id e0 <> event_id e) ->
  record_outcome_in (event_id e) improved' timeline h
  = <[i := record_event_outcome improved' timeline e]> h.
Proof.
  induction h as [|e0 rest IH]; intros i e Hi Hfirst; [discriminate|].
  simpl. destruct i as [|i]; simpl in Hi.
  - injection Hi as ->. now rewrite String.eqb_refl.
  - destruct (String.eqb_spec (event_id e0) (event_id e)) as [Heq|Hne].
    + destruct (Hfirst 0%nat e0 ltac:(lia) eq_refl Heq).
    + simpl. f_equal. apply IH; [exact Hi|].
      intros j e1 Hj Hl. apply (Hfirst (S j) e1); [lia|exact Hl].
Qed.

Lemma reachable_event_ids w :
  reachable w ->
  forall (i : nat) e, coaching_history (coach w) !! i = Some e ->
  event_id e = "coach_" ++ timestamp_text env (now env (3 * i)).
Proof.
  induction 1 as [|v w Hw IH|coaching_id improved' timeline w Hw IH]; intros i e Hi.
  - discriminate.
  - destruct (coach_agent_event_id v w) as (e' & Hh & Hid). rewrite Hh in Hi.
    destruct (reachable_facts w Hw) as (_ & Hclock & _).
    destruct (decide (i < length (coaching_history (coach w)))%nat) as [Hlt|Hge].
    + rewrite lookup_app_l in Hi by exact Hlt. now apply IH.
    + rewrite lookup_app_r in Hi by lia.
      destruct (i - length (coaching_history (coach w)))%nat as [|k] eqn:Ek;
        [|destruct k; discriminate].
      injection Hi as <-. rewrite Hid, Hclock. do 3 f_equal. lia.
  - simpl in Hi. apply record_outcome_in_lookup in Hi as (e0 & H0 & ->). now apply IH.
Qed.

(** X22. Event ids are told apart by the clock.  In a world a new coach can
    get to, the id of the [i]-th event is made of the clock reading number
    [3 * i]; so when the clock never shows the same text at two readings,
    the ids of the history are pairwise different, and recording an outcome
    under the id of an event changes that event and no other. *)
Theorem event_ids_are_distinct w :
  reachable w ->
  (forall n m,
     timestamp_text env (now env n) = timestamp_text env (now env m) -> n = m) ->
  NoDup (map event_id (coaching_history (coach w)))
  /\ forall (i : nat) e improved' timeline,
     coaching_history (coach w) !! i = Some e ->
     coaching_history (record_coaching_outcome (event_id e) improved' timeline (coach w))
     = <[i := record_event_outcome improved' timeline e]> (coaching_history (coach w)).
Proof.
  intros Hw Hinj. pose proof (reachable_event_ids w Hw) as Hids.
  assert (Hsame : forall (i j : nat) e1 e2,
             coaching_history (coach w) !! i = Some e1 ->
             coaching_history (coach w) !! j = Some e2 ->
             event_id e1 = event_id e2 -> i = j).
  { intros i j e1 e2 H1 H2 Heq.
    rewrite (Hids _ _ H1), (Hids _ _ H2) in Heq.
    apply (inj (String.append "coach_")) in Heq. apply Hinj in Heq. lia. }
  split.
  - change (map event_id (coaching_history (coach w)))
      with (event_id <$> coaching_history (coach w)).
    apply NoDup_alt. intros i j x Hi Hj.
    rewrite list_lookup_fmap in Hi, Hj.
    destruct (coaching_history (coach w) !! i) as [e1|] eqn:E1; [|discriminate].
    destruct (coaching_history (coach w) !! j) as [e2|] eqn:E2; [|discriminate].
    simpl in Hi, Hj. injection Hi as Hi. injection Hj as Hj.
    apply (Hsame i j e1 e2 E1 E2). congruence.
  - intros i e improved' timeline Hi. simpl.
    apply record_outcome_in_insert; [exact Hi|].
    intros j e0 Hj H0 Heq. pose proof (Hsame j i e0 e H0 Hi Heq). lia.
Qed.

(** ** The 24 hours of [generate_buyer_messages] *)

(** X23. A buyer counts as contacted recently at the time [t] exactly when
    the table holds a message to that buyer with a sending time not more
    than 24 hours before [t]; a message with a later sending time counts
    too, and a draft, which has no sending time, never does.  Hence a buyer
    who is not recent at [t] is not recent at any later time, as long as no
    message is added. *)
Theorem contacted_recently_window db t b :
  (contacted_recently db t b = true
   <-> exists m sent,
         In m db /\ msg_buyer_id m = buyer_id b
         /\ sent_at m = Some sent /\ t - day <= sent)
  /\ (forall t', t <= t' ->
        contacted_recently db t b = false -> contacted_recently db t' b = false).
Proof.
  assert (Hiff : forall t0,
             contacted_recently db t0 b = true
             <-> exists m sent,
                   In m db /\ msg_buyer_id m = buyer_id b
                   /\ sent_at m = Some sent /\ t0 - day <= sent).
  { intros t0. unfold contacted_recently, recent_messages. split.
    - intros H.
      destruct (List.filter _ db) as [|m rest] eqn:Ef; [discriminate|].
      assert (Hin : In m (m :: rest)) by now left.
      rewrite <- Ef in Hin. apply filter_In in Hin as [Hin Htest].
      apply andb_true_iff in Htest as [Hid Hs].
      destruct (sent_at m) as [sent|] eqn:Es; [|discriminate].
      exists m, sent.
      split; [exact Hin|]. split; [now apply Z.eqb_eq|].
      split; [exact Es|now apply Z.leb_le].
    - intros (m & sent & Hin & Hid & Hs & Hle).
      match goal with
      | |- match List.filter ?f db with _ => _ end = true =>
          assert (Hf : In m (List.filter f db))
      end.
      { apply filter_In. split; [exact Hin|].
        rewrite Hs. apply andb_true_iff. split; [now apply Z.eqb_eq|now apply Z.leb_le]. }
      now destruct (List.filter _ db). }
  split; [apply Hiff|].
  intros t' Hle Hnot.
  destruct (contacted_recently db t' b) eqn:E; [|reflexivity].
  apply Hiff in E as (m & sent & Hin & Hid & Hs & Hw).
  assert (Ht : contacted_recently db t b = true).
  { apply Hiff. exists m, sent. repeat split; try assumption. lia. }
  congruence.
Qed.

(** ** What the coach knows of [data_integrity] *)

Lemma coached_coaching g sev cg :
  coached g sev cg ->
  exists v analysis profile approach,
    guardrail v = g
    /\ (approach
        = _select_coaching_approach g (ap_agent_type profile) (learning_level profile))
    /\ exists peer,
         coaching cg = _generate_coaching v analysis profile approach
         \/ coaching cg = _generate_coaching v analysis profile approach ++ peer.
Proof.
  intros (v & w & <- & _ & ->).
  unfold coach_agent, _get_or_create_profile.
  destruct (agent_profiles (coach w) !! v_agent_id v) as [profile|]; simpl.
  - exists v, (_analyze_violation v profile), profile.
    eexists. split; [reflexivity|]. split; [reflexivity|].
    match goal with
    | |- context [match ?peer with EmptyString => _ | String _ _ => _ end] =>
        destruct peer
    end; [exists EmptyString; now left|eexists; right; reflexivity].
  - exists v, (_analyze_violation v (new_profile (v_agent_id v) (v_agent_type v))),
      (new_profile (v_agent_id v) (v_agent_type v)).
    eexists. split; [reflexivity|]. split; [reflexivity|].
    match goal with
    | |- context [match ?peer with EmptyString => _ | String _ _ => _ end] =>
        destruct peer
    end; [exists EmptyString; now left|eexists; right; reflexivity].
Qed.

(** X24. The coach has no entry for the guardrail data_integrity, under
    which [validate_catch_log] reports.  Every coaching of a catch log
    therefore carries the default principle, the generic examples and the
    generic fix, whatever the agent and the state of the coach. *)
Theorem catch_log_coaching_is_generic fish lbs w r w' :
  validate_catch_log fish lbs w = Some (r, w') ->
  forall cg, In cg (violations r) ->
  principle cg = "Follow the guardrail consistently."
  /\ Py.str_in ("Core Principle:" ++ Py.nl ++ "Follow the guardrail consistently.")
       (coaching cg) = true
  /\ Py.str_in ("Examples:" ++ Py.nl ++ "Follow the principle above.")
       (coaching cg) = true
  /\ Py.str_in ("Immediate Fix:" ++ Py.nl
                ++ "Reformulate response to address the guardrail violation.")
       (coaching cg) = true.
Proof.
  intros E cg Hin.
  assert (Hcg : exists sev, coached "data_integrity" sev cg).
  { unfold validate_catch_log in E.
    edestruct (guard_trace (negb (Py.in_list fish valid_fish_types)) true)
      as (x1 & w1 & E1 & G1 & _).
    rewrite (bind_run _ _ _ _ _ E1) in E. clear E1.
    edestruct (guard_trace (PrimFloat.leb lbs 0%float) true) as (x2 & w2 & E2 & G2 & _).
    rewrite (bind_run _ _ _ _ _ E2) in E. clear E2.
    edestruct (guard_trace (Py.gt lbs 10000%float) false) as (x3 & w3 & E3 & G3 & _).
    rewrite (bind_run _ _ _ _ _ E3) in E. clear E3.
    unfold ret in E. injection E as <- _. cbn [violations fst] in Hin.
    assert (Hg : forall cond g sev x, gated cond g sev x -> In cg x -> coached g sev cg).
    { intros [] g sev x Hgt Hx; simpl in Hgt.
      - destruct Hgt as (cg0 & -> & Hc). now destruct Hx as [<-|[]].
      - subst x. destruct Hx. }
    repeat (apply in_app_or in Hin as [Hin|Hin]); try destruct Hin.
    - eexists. exact (Hg _ _ _ _ G1 Hin).
    - eexists. exact (Hg _ _ _ _ G2 Hin).
    - eexists. exact (Hg _ _ _ _ G3 Hin). }
  destruct Hcg as (sev & Hcg).
  split; [now rewrite (coached_principle _ _ _ Hcg)|].
  destruct (coached_coaching _ _ _ Hcg)
    as (v & analysis & profile & approach & Hg & Happ & peer & Htext).
  assert (Hgen : forall x,
             Py.str_in x ("Core Principle:" ++ Py.nl ++ "Follow the guardrail consistently.") = true
             \/ Py.str_in x ("Examples:" ++ Py.nl ++ "Follow the principle above.") = true
             \/ Py.str_in x ("Immediate Fix:" ++ Py.nl
                  ++ "Reformulate response to address the guardrail violation.") = true ->
             Py.str_in x (_generate_coaching v analysis profile approach) = true).
  { intros x Hx. unfold _generate_coaching. rewrite Hg.
    assert (Hex : (if Py.startswith approach "sales_examples"
                   then _get_sales_examples "data_integrity"
                   else if Py.startswith approach "data_privacy_examples"
                        then _get_data_privacy_examples "data_integrity"
                        else if Py.startswith approach "calculation_examples"
                             then _get_calculation_examples "data_integrity"
                             else _get_generic_examples "data_integrity")
                  = "Follow the principle above.").
    { rewrite Happ. unfold _select_coaching_approach. simpl.
      destruct (String.eqb (learning_level profile) "advanced");
        [reflexivity|].
      destruct (String.eqb (learning_level profile) "novice"); reflexivity. }
    rewrite Hex.
    change (_extract_principle "data_integrity") with "Follow the guardrail consistently.".
    change (_suggest_specific_fix v (ap_agent_type profile))
      with (_suggest_specific_fix v (ap_agent_type profile)).
    assert (Hfix : _suggest_specific_fix v (ap_agent_type profile)
                   = "Reformulate response to address the guardrail violation.").
    { unfold _suggest_specific_fix. now rewrite Hg. }
    rewrite Hfix.
    destruct (_analyze_pattern profile "data_integrity") as [|c0 pat];
      cbn [app Py.join]; do 4 apply str_in_app_r;
      (destruct Hx as [Hx|[Hx|Hx]];
       [ apply str_in_app_l, str_in_app_r, Hx
       | do 2 apply str_in_app_r; apply str_in_app_l, str_in_app_r, Hx
       | do 4 apply str_in_app_r ]).
    + apply str_in_app_r, Hx.
    + apply str_in_app_l, str_in_app_r, Hx. }
  assert (Hall : forall x,
             Py.str_in x ("Core Principle:" ++ Py.nl ++ "Follow the guardrail consistently.") = true
             \/ Py.str_in x ("Examples:" ++ Py.nl ++ "Follow the principle above.") = true
             \/ Py.str_in x ("Immediate Fix:" ++ Py.nl
                  ++ "Reformulate response to address the guardrail violation.") = true ->
             Py.str_in x (coaching cg) = true).
  { intros x Hx. destruct Htext as [->| ->]; [now apply Hgen|].
    apply str_in_app_l. now apply Hgen. }
  split; [|split]; apply Hall.
  - left. apply str_in_refl.
  - right. left. apply str_in_refl.
  - right. right. apply str_in_refl.
Qed.

End Properties.

(** ** The claims at the examples *)

(** C3 at a violation whose severity is none of the four. *)
Lemma coach_agent_depth_witness :
  coaching_level
    (fst (coach_agent (env := sample_env)
            (_create_violation "data_integrity" "urgent" "what" "expected")
            fresh_world)) = MEDIUM.
Proof.
  apply (coach_agent_depth (env := sample_env)
           (_create_violation "data_integrity" "urgent" "what" "expected")
           fresh_world); discriminate.
Defined.

(** C4: the third coaching of one agent for one guardrail.  The profile
    counts 2 earlier violations, the pattern analysis says "This is the 2nd
    violation", and the escalation phrase is absent; the fourth coaching is
    the first to carry it. *)
Lemma third_coaching_lacks_escalation :
  prior_count world_after_2 missing_price = 2
  /\ Py.str_in escalation_phrase
       (coaching (fst (coach_agent (env := sample_env) missing_price fresh_world))) = false
  /\ Py.str_in escalation_phrase
       (coaching (fst (coach_agent (env := sample_env) missing_price world_after_2))) = false
  /\ Py.str_in "This is the 2nd violation of this type."
       (coaching (fst (coach_agent (env := sample_env) missing_price world_after_2))) = true
  /\ Py.str_in escalation_phrase
       (coaching (fst (coach_agent (env := sample_env) missing_price world_after_3))) = true.
Proof. vm_compute. repeat split. Qed.

(** C5 as the specification states it fails: at a prior count of 3 the code
    applies the factor 0.6 and predicts about 0.63, where the formula taken
    at the prior count gives 1. *)
Lemma effectiveness_at_prior_count_3 :
  prior_count world_after_3 missing_price = 3
  /\ effectiveness_predicted (fst (coach_agent (env := sample_env) missing_price world_after_3))
     <> effectiveness_formula
          (coaching_receptiveness (profile_before world_after_3 missing_price))
          (learning_level (profile_before world_after_3 missing_price))
          (prior_count world_after_3 missing_price).
Proof.
  split; [vm_compute; reflexivity|].
  intros H. apply (f_equal (fun x => PrimFloat.ltb x 0.75%float)) in H.
  vm_compute in H. discriminate H.
Qed.

(** C6 at the first coaching of the agent. *)
Lemma coach_agent_updates_profile_witness :
  exists stored,
    agent_profiles (coach world_after_1) !! "fishing_agent_001" = Some stored
    /\ learning_level stored = "intermediate"
    /\ coaching_receptiveness stored = 1%float
    /\ violation_history stored = {[ "hallucination_prevention" := 1 ]}.
Proof.
  destruct (coach_agent_updates_profile (env := sample_env) missing_price fresh_world)
    as [Hfirst _].
  destruct (Hfirst eq_refl) as (_ & _ & _ & Hstored).
  exact Hstored.
Defined.

(** C10 on the history of three coachings, for an id that no event has. *)
Lemma record_coaching_outcome_frame_witness :
  record_coaching_outcome "coach_0" true (Some 2) (coach world_after_3)
  = coach world_after_3.
Proof.
  apply (record_coaching_outcome_frame "coach_0" true (Some 2) (coach world_after_3)).
  intros e He. vm_compute in He.
  destruct He as [<-|[<-|[<-|[]]]]; vm_compute; discriminate.
Defined.

(** C2 at the example: John is sent the template, which states the facts. *)
Lemma drafts_state_the_facts_witness :
  exists r w',
    generate_buyer_messages (env := sample_env) halibut_450 (Some halibut_price)
      [john; mike] mike_contacted fresh_world = Some (r, w')
    /\ forall d, In d (drafts r) ->
         Py.str_in "$4.25" (message_text d) = true
         /\ Py.str_in "450" (message_text d) = true
         /\ Py.str_in "halibut" (str_lower sample_env (message_text d)) = true.
Proof.
  destruct (drafts_state_the_facts (env := sample_env) halibut_450 halibut_price
              [john; mike] mike_contacted fresh_world) as [Hfacts Hruns].
  destruct (Hruns 450 eq_refl) as (r & w' & E).
  exists r, w'. split; [exact E|].
  destruct (Hfacts r w' E) as [Hdrafts _].
  intros d Hd. destruct (Hdrafts d Hd) as (n & Hn & H1 & H2 & H3).
  injection Hn as <-. auto.
Defined.

(** C7 at the example: a draft that quotes a total of $2,000 for 450 pounds
    at $4.25 is blocked. *)
Lemma wrong_totals_block_witness :
  exists r w',
    _validate_message_draft (env := sample_env)
      "Hey John, 450 lbs Halibut at $4.25/lb, $2,000 in all. Interested?"
      halibut_450 halibut_price john [john; mike] fresh_world = Some (r, w')
    /\ blocked r = true
    /\ Exists (coached (env := sample_env) "financial_accuracy" "high") (violations r).
Proof.
  destruct (wrong_totals_block (env := sample_env) halibut_450 halibut_price)
    as (_ & Hfigures & Hruns & _).
  destruct (Hruns 450 eq_refl
              "Hey John, 450 lbs Halibut at $4.25/lb, $2,000 in all. Interested?"
              john [john; mike] fresh_world) as (r & w' & E).
  exists r, w'. split; [exact E|].
  destruct (Hfigures _ _ _ _ _ _ E (Py.codepoints "2,000")
              (or_intror (or_introl eq_refl)))
    as (val & Hval & Hcases).
  vm_compute in Hval. injection Hval as <-.
  apply (Hcases eq_refl). reflexivity.
Defined.

(** The figures are read in any script: a total written with the
    Arabic-Indic digit three, U+0663, is the number 13. *)
#[warnings="-inexact-float"]
Lemma total_in_arabic_indic_digits :
  potential_totals (env := sample_env)
    ("in all $1" ++ String "217" (String "163" ".")) = [[49; 1635]%N]
  /\ total_value (env := sample_env) [49; 1635]%N = Some 13%float.
Proof. split; vm_compute; reflexivity. Qed.

(** C8 at the example: Mike, the second buyer, was contacted two hours ago
    and is skipped; the batch goes on unblocked. *)
Lemma recent_buyer_is_skipped_witness :
  contacted_recently mike_contacted (utcnow sample_env 1) mike = true
  /\ exists r w' dss vss,
       generate_buyer_messages (env := sample_env) halibut_450 (Some halibut_price)
         [john; mike] mike_contacted fresh_world = Some (r, w')
       /\ b_blocked r = false
       /\ drafts r = concat dss /\ b_violations r = concat vss
       /\ dss !! 1%nat = Some []
       /\ exists cg,
            vss !! 1%nat = Some [cg]
            /\ coached (env := sample_env) "business_relationship_protection" "high" cg.
Proof.
  split; [reflexivity|].
  destruct (recent_buyer_is_skipped (env := sample_env) halibut_450 halibut_price
              [john; mike] mike_contacted fresh_world) as (Hreturned & Hruns & _).
  destruct (Hruns 450 eq_refl) as (r & w' & E).
  destruct (Hreturned r w' E) as (Hb & dss & vss & Hd & Hv & _ & _ & Hk).
  destruct (Hk 1%nat mike eq_refl) as [Hrecent _].
  destruct (Hrecent eq_refl) as (Hnone & cg & Hcg & Hcoached).
  exists r, w', dss, vss. repeat (split; [assumption|]). now exists cg.
Defined.

(** C9 at the example of 15000 pounds of halibut. *)
#[warnings="-inexact-float"]
Lemma validate_catch_log_cases_witness :
  exists r w',
    validate_catch_log (env := sample_env) "Halibut" 15000%float fresh_world = Some (r, w')
    /\ blocked r = false
    /\ exists cg, violations r = [cg] /\ coached (env := sample_env) "data_integrity" "medium" cg.
Proof.
  destruct (validate_catch_log_cases (env := sample_env) "Halibut" 15000%float fresh_world)
    as (r & w' & E & _ & _ & Hbig).
  exists r, w'. split; [exact E|]. exact (Hbig eq_refl eq_refl).
Defined.

(** ** The further properties at the examples *)

Lemma world_after_3_reachable : reachable (env := sample_env) world_after_3.
Proof.
  unfold world_after_3, world_after_2, world_after_1.
  repeat apply reach_coach. apply reach_init.
Qed.

(** X4 on the history of three coachings, at the ids of its first two
    events. *)
Lemma record_coaching_outcome_commutes_witness :
  record_coaching_outcome "coach_1700000000000000" true (Some 2)
    (record_coaching_outcome "coach_1700000000000003" false None (coach world_after_3))
  = record_coaching_outcome "coach_1700000000000003" false None
      (record_coaching_outcome "coach_1700000000000000" true (Some 2)
         (coach world_after_3)).
Proof.
  apply (record_coaching_outcome_commutes
           "coach_1700000000000000" true (Some 2)
           "coach_1700000000000003" false None (coach world_after_3)).
  discriminate.
Defined.

(** X6 after three coachings: the count is 3 and the clock was read 9
    times. *)
Lemma reachable_invariants_witness :
  reachable (env := sample_env) world_after_3
  /\ count_for (coach world_after_3) "fishing_agent_001" "hallucination_prevention" = 3
  /\ clock_reads world_after_3 = 9%nat.
Proof.
  split; [exact world_after_3_reachable|].
  destruct (reachable_invariants (env := sample_env) world_after_3 world_after_3_reachable)
    as (Hcount & Hclock & _).
  split; [rewrite Hcount; reflexivity|exact Hclock].
Defined.

(** X7 at the fourth coaching. *)
#[warnings="-inexact-float"]
Lemma coaching_by_rank_witness :
  reachable (env := sample_env) world_after_3
  /\ effectiveness_predicted
       (fst (coach_agent (env := sample_env) missing_price world_after_3))
     = (0.7 * (0.5 + 1) * 0.6)%float
  /\ Py.str_in escalation_phrase
       (coaching (fst (coach_agent (env := sample_env) missing_price world_after_3))) = true.
Proof.
  split; [exact world_after_3_reachable|].
  destruct (coaching_by_rank (env := sample_env) missing_price world_after_3
              world_after_3_reachable) as (_ & _ & _ & Heff & Hesc).
  split; [exact Heff|]. apply Hesc. vm_compute. discriminate.
Defined.

(** X8 at the draft that names Mike. *)
Lemma validation_records_each_failure_witness :
  Py.to_int (pounds halibut_450) = Some 450
  /\ exists r w',
       _validate_message_draft (env := sample_env) mike_draft halibut_450 halibut_price
         john [john; mike] fresh_world = Some (r, w')
       /\ blocked r = rejects (env := sample_env) mike_draft halibut_450 halibut_price
                        john [john; mike] 450
       /\ validation_trace (env := sample_env) mike_draft halibut_450 halibut_price
            john [john; mike] 450 (violations r)
       /\ (violations r = [] -> w' = fresh_world).
Proof.
  split; [reflexivity|].
  exact (validation_records_each_failure (env := sample_env) mike_draft halibut_450
           halibut_price john [john; mike] 450 fresh_world eq_refl).
Defined.

(** X9 at the draft that names Mike. *)
Lemma other_buyers_data_blocks_witness :
  exists r w',
    _validate_message_draft (env := sample_env) mike_draft halibut_450 halibut_price
      john [john; mike] fresh_world = Some (r, w')
    /\ blocked r = true
    /\ Exists (coached (env := sample_env) "pii_protection" "critical") (violations r).
Proof.
  destruct (other_buyers_data_blocks (env := sample_env) mike_draft halibut_450
              halibut_price john [john; mike] 450 fresh_world eq_refl)
    as (r & w' & E & Hother & _).
  exists r, w'. split; [exact E|].
  apply (Hother mike).
  - right. left. reflexivity.
  - intros H. discriminate H.
  - left. reflexivity.
Defined.

(** X10 at the draft that closes the deal. *)
Lemma commitment_language_only_warns_witness :
  exists r w' cg,
    _validate_message_draft (env := sample_env) deal_draft halibut_450 halibut_price
      john [john; mike] fresh_world = Some (r, w')
    /\ blocked r = false
    /\ violations r = [cg]
    /\ coached (env := sample_env) "communication_integrity" "high" cg
    /\ coaching_level cg = HIGH
    /\ c_blocked cg = false.
Proof.
  apply (commitment_language_only_warns (env := sample_env) deal_draft halibut_450
           halibut_price john [john; mike] 450 fresh_world);
    vm_compute; reflexivity.
Defined.

(** X11 at the example: Mike, the second buyer, was contacted two hours
    ago. *)
Lemma batch_reports_skipped_and_rejected_witness :
  exists r w' vss,
    generate_buyer_messages (env := sample_env) halibut_450 (Some halibut_price)
      [john; mike] mike_contacted fresh_world = Some (r, w')
    /\ b_violations r = concat vss
    /\ length vss = 2%nat
    /\ exists cg,
         vss !! 1%nat = Some [cg]
         /\ coached (env := sample_env) "business_relationship_protection" "high" cg.
Proof.
  destruct (batch_reports_skipped_and_rejected (env := sample_env) halibut_450
              halibut_price [john; mike] mike_contacted 450 fresh_world eq_refl)
    as (r & w' & vss & E & Hc & Hl & Hk).
  exists r, w', vss. split; [exact E|]. split; [exact Hc|]. split; [exact Hl|].
  destruct (Hk 1%nat mike eq_refl) as (vs & Hvs & Hrecent & _).
  destruct (Hrecent eq_refl) as (cg & Hcg & Hcoached).
  exists cg. split; [now rewrite Hvs, Hcg|exact Hcoached].
Defined.

(** X12 at the example with an empty message table. *)
Lemma clean_batch_witness :
  exists r w',
    generate_buyer_messages (env := sample_env) halibut_450 (Some halibut_price)
      [john; mike] [] fresh_world = Some (r, w')
    /\ map d_buyer_id (drafts r) = [1; 2]
    /\ b_violations r = []
    /\ w' = fresh_world.
Proof.
  assert (Hclean : forall (k : nat) b, [john; mike] !! k = Some b ->
            contacted_recently [] (utcnow sample_env k) b = false
            /\ rejects (env := sample_env)
                 (_generate_message_text (env := sample_env) k halibut_450 halibut_price b)
                 halibut_450 halibut_price b [john; mike] 450 = false).
  { intros [|[|k]] b H; [| |discriminate H];
      injection H as <-; split; vm_compute; reflexivity. }
  destruct (clean_batch (env := sample_env) halibut_450 halibut_price [john; mike] []
              450 fresh_world eq_refl Hclean) as (r & w' & E & Hd & Hv & _ & Hw).
  exists r, w'. split; [exact E|]. split; [rewrite Hd; reflexivity|].
  split; [exact Hv|]. apply Hw.
  intros [|[|k]] b H; [| |discriminate H]; injection H as <-; vm_compute; reflexivity.
Defined.

(** X13 at the example. *)
Lemma drafts_follow_buyers_witness :
  exists r w',
    generate_buyer_messages (env := sample_env) halibut_450 (Some halibut_price)
      [john; mike] mike_contacted fresh_world = Some (r, w')
    /\ sublist (map d_buyer_id (drafts r)) (map buyer_id [john; mike])
    /\ forall d, In d (drafts r) -> d_fish_type d = "Halibut".
Proof.
  destruct (generate_run (env := sample_env) halibut_450 halibut_price [john; mike]
              mike_contacted 450 fresh_world eq_refl) as (r & w' & vss & E & _).
  exists r, w'. split; [exact E|].
  destruct (drafts_follow_buyers (env := sample_env) halibut_450 halibut_price
              [john; mike] mike_contacted fresh_world r w' E) as [Hsub Hdrafts].
  split; [exact Hsub|].
  intros d Hin.
  destruct (Hdrafts d Hin) as (k & b & _ & _ & _ & _ & _ & _ & Hfish & _).
  exact Hfish.
Defined.

(** X14 at a table of three buyers: Carl, who wants crab only, gets no draft
    for the halibut. *)
Lemma drafts_go_to_matching_buyers_witness :
  matching_buyers halibut_450 [john; mike; carl] = [john; mike]
  /\ exists r w',
       generate_buyer_messages (env := sample_env) halibut_450 (Some halibut_price)
         (matching_buyers halibut_450 [john; mike; carl]) [] fresh_world = Some (r, w')
       /\ forall d, In d (drafts r) -> d_buyer_id d <> buyer_id carl.
Proof.
  split; [reflexivity|].
  destruct (generate_run (env := sample_env) halibut_450 halibut_price
              (matching_buyers halibut_450 [john; mike; carl]) [] 450 fresh_world eq_refl)
    as (r & w' & vss & E & _).
  exists r, w'. split; [exact E|].
  intros d Hin.
  destruct (drafts_go_to_matching_buyers (env := sample_env) halibut_450
              (Some halibut_price) [john; mike; carl] [] fresh_world r w' E d Hin)
    as (b & Hb & Hid & _ & Hpref).
  destruct Hb as [<-|[<-|[<-|[]]]].
  - rewrite Hid. intros H. discriminate H.
  - rewrite Hid. intros H. discriminate H.
  - exfalso. destruct Hpref as [H|[H|(pf & H & Hs)]]; try discriminate H.
    injection H as <-. vm_compute in Hs. discriminate Hs.
Defined.

(** X16 at a catch of infinitely many pounds. *)
Lemma unbounded_pounds_pass_then_raise_witness :
  Py.to_int (pounds halibut_unbounded) = None
  /\ (exists r w',
        validate_catch_log (env := decimal_env) "Halibut" PrimFloat.infinity fresh_world
        = Some (r, w')
        /\ blocked r = false)
  /\ generate_buyer_messages (env := decimal_env) halibut_unbounded (Some halibut_price)
       [john] [] fresh_world = None.
Proof.
  destruct (unbounded_pounds_pass_then_raise (env := decimal_env) halibut_unbounded
              halibut_price fresh_world eq_refl eq_refl) as (Hlog & _ & Hgen).
  split; [reflexivity|].
  split; [exact (Hlog eq_refl)|exact (Hgen [john] [] 0%nat john eq_refl eq_refl)].
Defined.

(** X18 at the price 4.2: the template itself quotes $4.2/lb and is
    blocked. *)
#[warnings="-inexact-float"]
Lemma price_with_one_decimal_is_cut_witness :
  _generate_message_text (env := decimal_env) 0 halibut_450 halibut_price_4_2 john
  = one_decimal_draft
  /\ In (Py.codepoints "4") (potential_totals (env := decimal_env) one_decimal_draft)
  /\ exists r w',
       _validate_message_draft (env := decimal_env) one_decimal_draft halibut_450
         halibut_price_4_2 john [john; mike] fresh_world = Some (r, w')
       /\ blocked r = true
       /\ Exists (coached (env := decimal_env) "financial_accuracy" "high") (violations r).
Proof.
  split; [reflexivity|].
  exact (price_with_one_decimal_is_cut (env := decimal_env) halibut_450
           halibut_price_4_2 450 "4" "2"%char "/lb. Interested?" 4%float
           eq_refl eq_refl ltac:(discriminate) eq_refl eq_refl eq_refl eq_refl eq_refl
           "Hey John, got 450.0 lbs fresh Halibut today. Cannery buying at "
           john [john; mike] fresh_world).
Defined.

(** X19 at the example: the template for John. *)
Lemma template_states_the_facts_witness :
  service_text sample_env 0 halibut_450 halibut_price john = None
  /\ _generate_message_text (env := sample_env) 0 halibut_450 halibut_price john
     = "Hey John, got 450.0 lbs fresh Halibut today. Cannery buying at $4.25/lb. Interested?"
  /\ omits_fact (env := sample_env)
       (_generate_message_text (env := sample_env) 0 halibut_450 halibut_price john)
       halibut_450 halibut_price 450 = false.
Proof.
  split; [reflexivity|]. split; [reflexivity|].
  destruct (template_states_the_facts (env := sample_env) 0 halibut_450 halibut_price
              john 450 eq_refl) as (_ & _ & _ & _ & Homits).
  rewrite Homits. reflexivity.
Defined.

(** X20 at John and Johnny: Johnny's template holds John's name. *)
Lemma namesake_blocks_template_witness :
  exists r w',
    _validate_message_draft (env := sample_env)
      (_generate_message_text (env := sample_env) 1 halibut_450 halibut_price johnny)
      halibut_450 halibut_price johnny [john; johnny] fresh_world = Some (r, w')
    /\ blocked r = true
    /\ Exists (coached (env := sample_env) "pii_protection" "critical") (violations r).
Proof.
  destruct (namesake_blocks_template (env := sample_env) 1 halibut_450 halibut_price
              johnny john [john; johnny] 450 fresh_world eq_refl eq_refl
              (or_introl eq_refl) ltac:(discriminate) eq_refl)
    as (r & w' & E & Hb & Hpii & _).
  exists r, w'. auto.
Defined.

(** X21 for the peer lessons, which no coaching touches: a catch log leaves
    them empty. *)
Lemma agent_keeps_what_coach_agent_keeps_witness :
  exists r w',
    validate_catch_log (env := sample_env) "Tuna" 0%float fresh_world = Some (r, w')
    /\ peer_lessons (coach w') = ∅.
Proof.
  destruct (validate_catch_log_trace (env := sample_env) "Tuna" 0%float fresh_world)
    as (r & w' & E & _).
  exists r, w'. split; [exact E|].
  assert (Hkeeps : forall v0 w0,
            peer_lessons (coach w0) = ∅ ->
            peer_lessons (coach (snd (coach_agent (env := sample_env) v0 w0))) = ∅).
  { intros v0 w0 H0. unfold coach_agent, _get_or_create_profile.
    destruct (agent_profiles (coach w0) !! v_agent_id v0); exact H0. }
  destruct (agent_keeps_what_coach_agent_keeps (env := sample_env)
              (fun w => peer_lessons (coach w) = ∅) fresh_world Hkeeps eq_refl)
    as (_ & _ & Hlog & _).
  exact (Hlog "Tuna" 0%float r w' E).
Defined.

(** X22 after three coachings, with a clock that moves at every reading. *)
Lemma event_ids_are_distinct_witness :
  reachable (env := sample_env) world_after_3
  /\ map event_id (coaching_history (coach world_after_3))
     = ["coach_1700000000000000"; "coach_1700000000000003"; "coach_1700000000000006"]
  /\ NoDup (map event_id (coaching_history (coach world_after_3))).
Proof.
  split; [exact world_after_3_reachable|]. split; [reflexivity|].
  apply (event_ids_are_distinct (env := sample_env) world_after_3 world_after_3_reachable).
  intros n m H. simpl in H. apply (inj pretty) in H. lia.
Defined.

(** X24 at a catch log with an unknown fish type and no pounds: both
    coachings carry the default principle. *)
Lemma catch_log_coaching_is_generic_witness :
  exists r w',
    validate_catch_log (env := sample_env) "Tuna" 0%float fresh_world = Some (r, w')
    /\ length (violations r) = 2%nat
    /\ forall cg, In cg (violations r) ->
         principle cg = "Follow the guardrail consistently.".
Proof.
  destruct (validate_catch_log_trace (env := sample_env) "Tuna" 0%float fresh_world)
    as (r & w' & E & _ & Hl & _).
  exists r, w'. split; [exact E|]. split; [exact Hl|].
  intros cg Hin.
  exact (proj1 (catch_log_coaching_is_generic (env := sample_env) "Tuna" 0%float
                  fresh_world r w' E cg Hin)).
Defined.
